(** * Book page locator and extractor: a shallow embedding

    The development follows the three service modules of the processor:
    the bibliographic resolver ([bookInfoService.js]), the browser-driven
    screenshot extractor ([extractBookScreenshots] and [isFirstPage]) and
    the text-only fallback cascade ([bookProcessor.js]).

    Conventions.
    - A JavaScript string is a [string]: one [ascii] per code unit, so the
      model covers the 8-bit part of the alphabet; [length] is the number
      of code units, as [.length] is.
    - A value that may be [undefined] or [null] is an [option]; a string
      test such as [if (s)] is [truthy s] (non-empty).
    - A call to an external collaborator that may throw answers
      [inl message] for the exception and [inr value] otherwise. *)

From Stdlib Require Import String Ascii List Bool Arith Lia ZArith QArith.
From Stdlib Require Import Qround DecimalString Floats.
Import ListNotations.
Local Close Scope Q_scope.
Local Open Scope list_scope.
Local Open Scope string_scope.
Local Open Scope nat_scope.

Set Implicit Arguments.

(** ** JavaScript string primitives *)

Module Js.

Definition Exn := string.

Definition truthy (s : string) : bool :=
  match s with
  | EmptyString => false
  | String _ _ => true
  end.

Definition truthy_opt (o : option string) : bool :=
  match o with
  | None => false
  | Some s => truthy s
  end.

(** [x || d] on a string-or-null value. *)
Definition or_else (o : option string) (d : string) : string :=
  match o with
  | Some s => if truthy s then s else d
  | None => d
  end.

(** [x || null]. *)
Definition or_null (o : option string) : option string :=
  match o with
  | Some s => if truthy s then Some s else None
  | None => None
  end.

(** Template-literal rendering of a value that may be [undefined]. *)
Definition show (o : option string) : string :=
  match o with
  | Some s => s
  | None => "undefined"
  end.

(** The lower-case form of a code unit below 256: the letters A to Z
    and the accented capitals 192 to 222, the sign 215 excepted. *)
Definition lower_ascii (c : ascii) : ascii :=
  let n := nat_of_ascii c in
  if ((65 <=? n) && (n <=? 90))
     || ((192 <=? n) && (n <=? 222) && negb (n =? 215))
  then ascii_of_nat (n + 32) else c.

(** [s.toLowerCase()]. *)
Fixpoint toLowerCase (s : string) : string :=
  match s with
  | EmptyString => EmptyString
  | String c r => String (lower_ascii c) (toLowerCase r)
  end.

(** [s.startsWith(p)]. *)
Fixpoint startsWith (p s : string) : bool :=
  match p, s with
  | EmptyString, _ => true
  | String _ _, EmptyString => false
  | String a p', String b s' => Ascii.eqb a b && startsWith p' s'
  end.

(** [s.includes(p)]. *)
Fixpoint includes (s p : string) : bool :=
  startsWith p s ||
  match s with
  | EmptyString => false
  | String _ r => includes r p
  end.

(** The white space [trim] removes, below 256: space, tab to carriage
    return, no-break space. *)
Definition is_space (c : ascii) : bool :=
  let n := nat_of_ascii c in
  (n =? 32) || ((9 <=? n) && (n <=? 13)) || (n =? 160).

Fixpoint trimStart (s : string) : string :=
  match s with
  | EmptyString => EmptyString
  | String c r => if is_space c then trimStart r else s
  end.

(** Drops the trailing white space: a character is kept when something
    that is not white space follows it or it is not white space itself. *)
Fixpoint trimEnd (s : string) : string :=
  match s with
  | EmptyString => EmptyString
  | String c r =>
      match trimEnd r with
      | EmptyString => if is_space c then EmptyString else String c EmptyString
      | r' => String c r'
      end
  end.

Definition trim (s : string) : string := trimEnd (trimStart s).

(** [l.join(sep)]. *)
Fixpoint join (sep : string) (l : list string) : string :=
  match l with
  | [] => ""
  | [x] => x
  | x :: r => x ++ sep ++ join sep r
  end.

(** [s.split(" ").length]: one more than the number of separators. *)
Fixpoint count_char (c : ascii) (s : string) : nat :=
  match s with
  | EmptyString => 0
  | String a r => (if Ascii.eqb a c then 1 else 0) + count_char c r
  end.

Definition split_length (sep : ascii) (s : string) : nat := S (count_char sep s).

(** [l.slice(a, b)] for [0 <= a], [0 <= b]: the elements whose index [i]
    satisfies [a <= i < b]; indices past the end select nothing. *)
Fixpoint slice_from {A : Type} (i a b : nat) (l : list A) : list A :=
  match l with
  | [] => []
  | x :: r =>
      if (a <=? i) && (i <? b) then x :: slice_from (S i) a b r
      else slice_from (S i) a b r
  end.

Definition slice {A : Type} (a b : nat) (l : list A) : list A := slice_from 0 a b l.

(** [s.replace(/pat/g, rep)] for a literal, non-empty pattern: [skip]
    counts the characters of a match still to be dropped. *)
Fixpoint replaceAll_from (pat rep s : string) (skip : nat) : string :=
  match s with
  | EmptyString => EmptyString
  | String c r =>
      match skip with
      | S k => replaceAll_from pat rep r k
      | O =>
          if startsWith pat s
          then rep ++ replaceAll_from pat rep r (String.length pat - 1)
          else String c (replaceAll_from pat rep r 0)
      end
  end.

Definition replaceAll (pat rep s : string) : string := replaceAll_from pat rep s 0.

End Js.

(** ** [bookInfoService.js]: the bibliographic resolver *)

Module BookInfoService.
Import Js.

(** The record the resolver hands on.  [categories] is the property read
    by [fetchBookInfo] ([bookInfo.categories]); neither lookup function
    puts such a key in the object it builds. *)
Record BookInfo := {
  title : option string;
  author : option string;
  isFiction : bool;
  isbn : option string;
  description : option string;
  previewLink : option string;
  id : option string;
  categories : option (list string)
}.

(** [volumeInfo] of one item of a provider answer. *)
Record VolumeInfo := {
  v_title : option string;
  v_authors : option (list string);
  v_categories : option (list string);
  v_description : option string;
  v_previewLink : option string;
  v_industryIdentifiers : option (list (string * string))
}.

Record Item := {
  item_id : string;
  volumeInfo : VolumeInfo
}.

(** [response.data]: [items] may be missing. *)
Record ApiData := { items : option (list Item) }.

(** [bookDetails.isFiction] as [JSON.parse] leaves it: the key left
    out ([undefined]), [null], or another value, kept by its
    truthiness.  The prompt of [identifyBook] asks for [null] where the
    cover does not tell. *)
Inductive Guess :=
| Missing
| Null
| Given (truthiness : bool).

(** The guess extracted from the cover.  For the three strings [None]
    is a missing or null field: the code tests them by truthiness
    only. *)
Record BookDetails := {
  d_title : option string;
  d_author : option string;
  d_isbn : option string;
  d_isFiction : Guess
}.

Definition nonFictionKeywords : list string :=
  [ "biography"; "history"; "science"; "technology"; "business";
    "self-help"; "cooking"; "travel"; "reference"; "education";
    "philosophy"; "religion"; "politics"; "economics"; "medicine";
    "law"; "mathematics"; "computers"; "nature"; "art history" ].

(** One round of the [for (const category of categories)] loop: [true]
    when the category makes the function return [false]. *)
Definition category_is_nonfiction (category : string) : bool :=
  let lowerCategory := toLowerCase category in
  existsb (fun keyword => includes lowerCategory keyword) nonFictionKeywords
  || (includes lowerCategory "non-fiction" || includes lowerCategory "nonfiction").

Definition isFictionCategory (categories : option (list string)) : bool :=
  match categories with
  | None => true
  | Some [] => true
  | Some cs => negb (existsb category_is_nonfiction cs)
  end.

Definition fictionWords : list string :=
  [ "novel"; "fiction"; "story"; "adventure"; "fantasy";
    "protagonist"; "character"; "hero"; "magical"; "romance";
    "thriller"; "mystery"; "sci-fi"; "science fiction"; "dystopian";
    "journey"; "tale"; "legend"; "epic"; "saga" ].

Definition nonfictionWords : list string :=
  [ "history"; "guide"; "analysis"; "research"; "biography";
    "autobiography"; "memoir"; "reference"; "textbook"; "examination";
    "study"; "report"; "handbook"; "manual"; "investigation";
    "philosophy"; "theory"; "argument"; "thesis"; "exploration";
    "account"; "chronicle"; "journal"; "essay"; "documentary" ].

(** [words.forEach(word => { if (desc.includes(word)) signals++ })]. *)
Definition count_signals (words : list string) (desc : string) (signals : Q) : Q :=
  fold_left (fun acc word => if includes desc word then (acc + 1)%Q else acc) words signals.

Definition titlePatterns : list string :=
  [ "how to"; "the art of"; "introduction to"; "guide to";
    "principles of"; "history of"; "the science of" ].

(** The anchored alternation [/^(how to|...)/i]. *)
Definition matches_title_pattern (lowTitle : string) : bool :=
  existsb (fun p => startsWith p (toLowerCase lowTitle)) titlePatterns.

(** The two counters at the decision point. *)
Definition signals (description title : string) : Q * Q :=
  let f0 := 0%Q in
  let n0 := 0%Q in
  let '(f1, n1) :=
    if truthy description
    then let desc := toLowerCase description in
         (count_signals fictionWords desc f0, count_signals nonfictionWords desc n0)
    else (f0, n0) in
  if truthy title
  then let lowTitle := toLowerCase title in
       let n2 := if matches_title_pattern lowTitle then (n1 + 2)%Q else n1 in
       let f2 := if split_length " " title <=? 3 then (f1 + (1 # 2))%Q else f1 in
       (f2, n2)
  else (f1, n1).

Definition Qgtb (a b : Q) : bool := negb (Qle_bool a b).

Definition improvedFictionDetection
  (categories : option (list string)) (description title : string) : bool :=
  let categoryResult := isFictionCategory categories in
  match categories with
  | Some (_ :: _) => categoryResult
  | _ =>
      let '(fictionSignals, nonfictionSignals) := signals description title in
      if Qgtb fictionSignals nonfictionSignals then true
      else if Qgtb nonfictionSignals fictionSignals then false
      else true
  end.

(** [book.authors ? book.authors[0] : "Unknown"]. *)
Definition first_author (authors : option (list string)) : option string :=
  match authors with
  | None => Some "Unknown"
  | Some l => hd_error l
  end.

(** [ids.find(id => id.type === t)?.identifier]. *)
Definition find_identifier (t : string) (ids : list (string * string)) : option string :=
  match find (fun p => String.eqb (fst p) t) ids with
  | Some p => Some (snd p)
  | None => None
  end.

Definition first_item (data : ApiData) : option Item :=
  match items data with
  | Some (it :: _) => Some it
  | _ => None
  end.

(** The provider answers: the exact-ISBN query and the free-text query. *)
Record Provider := {
  get_isbn : string -> Exn + ApiData;
  get_query : string -> Exn + ApiData
}.

Definition fetchBookByISBN (P : Provider) (isbn0 : string) : Exn + BookInfo :=
  match get_isbn P isbn0 with
  | inl e => inl e
  | inr data =>
      match first_item data with
      | Some it =>
          let book := volumeInfo it in
          inr {| title := v_title book;
                 author := first_author (v_authors book);
                 isFiction := isFictionCategory (v_categories book);
                 isbn := Some isbn0;
                 description := or_null (v_description book);
                 previewLink := or_null (v_previewLink book);
                 id := Some (item_id it);
                 categories := None |}
      | None => inl ("Book not found with ISBN: " ++ isbn0)
      end
  end.

Definition searchBookAPI (P : Provider) (query : string) : Exn + BookInfo :=
  match get_query P query with
  | inl e => inl e
  | inr data =>
      match first_item data with
      | Some it =>
          let book := volumeInfo it in
          inr {| title := v_title book;
                 author := first_author (v_authors book);
                 isFiction := isFictionCategory (v_categories book);
                 isbn :=
                   match v_industryIdentifiers book with
                   | Some ids =>
                       match or_null (find_identifier "ISBN_13" ids) with
                       | Some i => Some i
                       | None => or_null (find_identifier "ISBN_10" ids)
                       end
                   | None => None
                   end;
                 description := or_null (v_description book);
                 previewLink := or_null (v_previewLink book);
                 id := Some (item_id it);
                 categories := None |}
      | None => inl ("Book not found with query: " ++ query)
      end
  end.

Definition set_isFiction (b : BookInfo) (f : bool) : BookInfo :=
  {| title := title b; author := author b; isFiction := f; isbn := isbn b;
     description := description b; previewLink := previewLink b; id := id b;
     categories := categories b |}.

(** The [catch] branch of [fetchBookInfo].  Line 116 tests
    [!== undefined]: a missing key gives [true], a [null] is kept, and
    every later test of [isFiction] reads it as false. *)
Definition defaults (bookDetails : BookDetails) : BookInfo :=
  {| title := Some (or_else (d_title bookDetails) "Unknown Title");
     author := Some (or_else (d_author bookDetails) "Unknown Author");
     isFiction :=
       match d_isFiction bookDetails with
       | Missing => true
       | Null => false
       | Given f => f
       end;
     isbn := or_null (d_isbn bookDetails);
     description := None;
     previewLink := None;
     id := None;
     categories := None |}.

(** The part of [fetchBookInfo] after the ISBN attempt. *)
Definition search_by_title (P : Provider) (bookDetails : BookDetails) : BookInfo :=
  match or_null (d_title bookDetails) with
  | Some t =>
      let searchQuery :=
        match or_null (d_author bookDetails) with
        | Some a => if String.eqb a "Unknown" then t else t ++ " " ++ a
        | None => t
        end in
      match searchBookAPI P searchQuery with
      | inr bookInfo =>
          set_isFiction bookInfo
            (improvedFictionDetection
               (match categories bookInfo with Some c => Some c | None => Some [] end)
               (or_else (description bookInfo) "")
               (or_else (title bookInfo) ""))
      | inl _ => defaults bookDetails
      end
  | None => defaults bookDetails
  end.

Definition fetchBookInfo (P : Provider) (bookDetails : BookDetails) : BookInfo :=
  match or_null (d_isbn bookDetails) with
  | Some i =>
      match fetchBookByISBN P i with
      | inr bookInfo => bookInfo
      | inl _ => search_by_title P bookDetails
      end
  | None => search_by_title P bookDetails
  end.

(** *** Two provider records

    A catalogue that answers every query with one volume; the volume of
    the Dune example, with its category tags; a handbook for which the
    provider has a description and no category tags. *)
Definition catalogue (v : VolumeInfo) : Provider :=
  let data := {| items := Some [ {| item_id := "volume-1"; volumeInfo := v |} ] |} in
  {| get_isbn := fun _ => inr data;
     get_query := fun _ => inr data |}.

Definition duneVolume : VolumeInfo :=
  {| v_title := Some "Dune";
     v_authors := Some ["Frank Herbert"];
     v_categories := Some ["Fiction"; "Science Fiction"];
     v_description := None;
     v_previewLink := None;
     v_industryIdentifiers := None |}.

Definition duneGuess : BookDetails :=
  {| d_title := Some "Dune";
     d_author := Some "Frank Herbert";
     d_isbn := Some "9780441013593";
     d_isFiction := Missing |}.

Definition handbookVolume : VolumeInfo :=
  {| v_title := Some "How to Solve It";
     v_authors := Some ["George Polya"];
     v_categories := None;
     v_description :=
       Some "A guide to the methods of problem solving, with an analysis of heuristic reasoning.";
     v_previewLink := None;
     v_industryIdentifiers := None |}.

Definition handbookGuess (isbn0 : option string) : BookDetails :=
  {| d_title := Some "How to Solve It";
     d_author := Some "George Polya";
     d_isbn := isbn0;
     d_isFiction := Missing |}.

End BookInfoService.

(** ** The screenshot extractor: [isFirstPage] and [extractBookScreenshots] *)

Module ScreenshotExtractor.
Import Js.

Record Screenshot := {
  index : nat;
  base64Imagee : string
}.

(** The object [extractBookScreenshots] resolves to. *)
Record Result := {
  success : bool;
  screenshots : list Screenshot;
  message : string
}.

(** The value of [browserConfig] when [puppeteer.launch] is reached. *)
Inductive BrowserConfig :=
| ConfigEmpty                       (* [{}] *)
| ConfigLambda                      (* chrome-aws-lambda args and path *)
| ConfigDefault                     (* sandbox flags only *)
| ConfigPath (executablePath : string).

(** The calls made to the collaborators: module loader, browser, page,
    vision model, file system. *)
Inductive Call :=
| ImportChromeAwsLambda
| GetChromePath
| LaunchBundled
| Launch (browserConfig : BrowserConfig)
| NewPage
| SetViewport
| SetUserAgent
| Goto
| WaitForFunction
| TakeScreenshot
| GenerateText (image : string)
| ClickHandle
| ClickSelector
| ExistsSync
| MkdirSync
| WriteFileSync
| Close.

(** A call and whether it returned ([true]) or threw ([false]). *)
Definition Event : Type := Call * bool.

(** The collaborators, as a state machine over a world [W] nothing is
    assumed about.  [perform] answers the calls whose value is not used. *)
Record Host (W : Type) := {
  production : bool;
  perform : Call -> W -> (Exn + unit) * W;
  chromePath : W -> (Exn + string) * W;
  buttonHandle : W -> (Exn + bool) * W;
  capture : W -> (Exn + string) * W;
  generateText : string -> W -> (Exn + string) * W;
  existsSync : W -> bool * W
}.

(** The state a run threads: the world and the variable [browser], which
    the [finally] block reads after a throw. *)
Record St (W : Type) := {
  world : W;
  browser : bool
}.

Section Run.

Context {W : Type}.
Variable H : Host W.

(** Computations that may throw, over [St], with the calls they made. *)
Definition M (A : Type) : Type := St W -> ((Exn + A) * St W) * list Event.

Definition ret {A} (a : A) : M A := fun s => (inr a, s, []).

Definition bind {A B} (m : M A) (f : A -> M B) : M B :=
  fun s =>
    match m s with
    | (inl e, s1, t1) => (inl e, s1, t1)
    | (inr a, s1, t1) =>
        let '(r, s2, t2) := f a s1 in (r, s2, (t1 ++ t2)%list)
    end.

(** [try { m } catch (error) { h error }]. *)
Definition catch {A} (m : M A) (h : Exn -> M A) : M A :=
  fun s =>
    match m s with
    | (inl e, s1, t1) =>
        let '(r, s2, t2) := h e s1 in (r, s2, (t1 ++ t2)%list)
    | (inr a, s1, t1) => (inr a, s1, t1)
    end.

(** [try { m } finally { f }]: the value or exception of [m] survives
    unless [f] throws. *)
Definition finally {A} (m : M A) (f : M unit) : M A :=
  fun s =>
    let '(r, s1, t1) := m s in
    match f s1 with
    | (inl e, s2, t2) => (inl e, s2, (t1 ++ t2)%list)
    | (inr _, s2, t2) => (r, s2, (t1 ++ t2)%list)
    end.

Definition outcome {A} (r : Exn + A) : bool :=
  match r with
  | inr _ => true
  | inl _ => false
  end.

Definition call {A} (c : Call) (op : W -> (Exn + A) * W) : M A :=
  fun s =>
    let '(r, w) := op (world s) in
    (r, {| world := w; browser := browser s |}, [(c, outcome r)]).

Definition invoke (c : Call) : M unit := call c (perform H c).

Definition get_browser : M bool := fun s => (inr (browser s), s, []).

Definition set_browser : M unit :=
  fun s => (inr tt, {| world := world s; browser := true |}, []).

Notation "x <- m ;; k" := (bind m (fun x => k))
  (at level 61, m at next level, right associativity).
Notation "m ;;; k" := (bind m (fun _ => k))
  (at level 61, right associativity).

(** [isFirstPage]: both [catch] blocks only log, so the function falls
    off its end and answers [undefined], here [None]. *)
Definition isFirstPage (screenshot : string) : M (option bool) :=
  catch
    (catch
       (let base64Image := "data:image/jpeg;base64," ++ screenshot in
        text <- call (GenerateText base64Image) (generateText H base64Image) ;;
        let isFirst := includes (toLowerCase (trim text)) "yes" in
        ret (Some isFirst))
       (fun _ => ret None))
    (fun _ => ret None).

(** [x ?? false]. *)
Definition coalesce_false (x : option bool) : bool :=
  match x with
  | Some b => b
  | None => false
  end.

(** The guarded click, with its [catch] that only logs. *)
Definition clickNext (handle : bool) : M unit :=
  catch (if handle then invoke ClickHandle else invoke ClickSelector)
        (fun _ => ret tt).

(** The "save to disk for debugging" lines. *)
Definition saveDebug : M unit :=
  present <- call ExistsSync (fun w => let '(b, w1) := existsSync H w in (inr b, w1)) ;;
  (if negb present then invoke MkdirSync else ret tt) ;;;
  invoke WriteFileSync.

Inductive Flow := Continue | Break.

(** One round of [for (let i = 1; i <= 15; i++)]. *)
Definition iteration (bookIsFiction handle : bool) (i : nat)
  (screenshots : list Screenshot) : M (Flow * list Screenshot) :=
  base64Screenshot <- call TakeScreenshot (capture H) ;;
  verdict <- isFirstPage base64Screenshot ;;
  let foundfirst := coalesce_false verdict in
  if negb foundfirst then
    clickNext handle ;;;
    ret (Continue, screenshots)
  else if truthy base64Screenshot then
    (if bookIsFiction then clickNext handle else ret tt) ;;;
    let screenshots :=
      (screenshots ++ [ {| index := i; base64Imagee := base64Screenshot |} ])%list in
    saveDebug ;;;
    ret (Break, screenshots)
  else
    ret (Continue, screenshots).

(** The loop, [rounds] iterations from counter value [i]. *)
Fixpoint loop (bookIsFiction handle : bool) (rounds i : nat)
  (screenshots : list Screenshot) : M (list Screenshot) :=
  match rounds with
  | O => ret screenshots
  | S k =>
      step <- iteration bookIsFiction handle i screenshots ;;
      match step with
      | (Break, screenshots) => ret screenshots
      | (Continue, screenshots) => loop bookIsFiction handle k (S i) screenshots
      end
  end.

Definition maxAttempts : nat := 15.

(** The choice of [browserConfig], which may already launch the bundled
    browser. *)
Definition configure : M BrowserConfig :=
  if production H then
    catch (invoke ImportChromeAwsLambda ;;; ret ConfigLambda)
          (fun _ => ret ConfigDefault)
  else
    catch (executablePath <- call GetChromePath (chromePath H) ;;
           ret (ConfigPath executablePath))
          (fun _ =>
             catch (invoke LaunchBundled ;;; set_browser ;;; ret ConfigEmpty)
                   (fun _ => ret ConfigDefault)).

Definition show_nat (n : nat) : string :=
  DecimalString.NilZero.string_of_uint (Nat.to_uint n).

(** The [try] block up to the loop: launch, open the viewer, find the
    page-turn control.  The value is whether [buttonHandle] is truthy. *)
Definition openViewer : M bool :=
  browserConfig <- configure ;;
  launched <- get_browser ;;
  (if negb launched
   then invoke (Launch browserConfig) ;;; set_browser
   else ret tt) ;;;
  invoke NewPage ;;;
  invoke SetViewport ;;;
  invoke SetUserAgent ;;;
  invoke Goto ;;;
  call WaitForFunction (buttonHandle H).

(** The [try] block of [extractBookScreenshots]. *)
Definition tryBlock (bookIsFiction : bool) : M Result :=
  handle <- openViewer ;;
  let screenshots : list Screenshot := [] in
  screenshots <- loop bookIsFiction handle maxAttempts 1 screenshots ;;
  ret {| success := 0 <? List.length screenshots;
         screenshots := screenshots;
         message := "Successfully captured "
                    ++ show_nat (List.length screenshots) ++ " screenshots" |}.

(** The [finally] block. *)
Definition closeBrowser : M unit :=
  launched <- get_browser ;;
  if launched then invoke Close else ret tt.

(** The array [screenshots] of the [catch] branch is the one declared
    before [try]; the [try] block declares its own. *)
Definition extractBookScreenshots (bookIsFiction : bool) : M Result :=
  let screenshots : list Screenshot := [] in
  finally
    (catch
       (tryBlock bookIsFiction)
       (fun error =>
          ret {| success := false;
                 screenshots := screenshots;
                 message := "Error extracting screenshots: " ++ error |}))
    closeBrowser.

(** A run from a fresh activation: [browser] is still [undefined]. *)
Definition run (bookIsFiction : bool) (w : W) : ((Exn + Result) * St W) * list Event :=
  extractBookScreenshots bookIsFiction {| world := w; browser := false |}.

End Run.

(** *** Concrete previews

    A preview with numbered pages: the world is the number of the page on
    display, a click turns the page until [lastPage] is shown and throws
    there, and the model answers by the picture it is given. *)
Definition turn_page (lastPage : nat) (w : nat) : (Exn + unit) * nat :=
  if w <? lastPage then (inr tt, S w)
  else (inl "Node is either not clickable or not an Element", w).

Definition preview (images : nat -> string) (lastPage : nat)
  (answer : string -> string) : Host nat :=
  {| production := false;
     perform := fun c w =>
       match c with
       | ClickHandle | ClickSelector => turn_page lastPage w
       | _ => (inr tt, w)
       end;
     chromePath := fun w => (inr "/usr/bin/chromium", w);
     buttonHandle := fun w => (inr true, w);
     capture := fun w => (inr (images w), w);
     generateText := fun image w => (inr (answer image), w);
     existsSync := fun w => (true, w) |}.

(** The pictures of a three-page preview: title page, first content
    page, second content page. *)
Definition pictures (page : nat) : string :=
  match page with
  | 1 => "dGl0bGU="
  | 2 => "Y2hhcHRlcjE="
  | 3 => "Y2hhcHRlcjE7cDI="
  | _ => "Ymxhbms="
  end.

(** A model that recognises the first content page. *)
Definition recognises (first : string) (image : string) : string :=
  if String.eqb image ("data:image/jpeg;base64," ++ first) then "Yes" else "No".

(** A preview whose page-turn control is not ready at first: the world
    is the number of clicks tried so far, the first of which throws;
    the page on display is the number of clicks that worked, plus one. *)
Definition shownAfter (clicks : nat) : nat := Nat.max 1 clicks.

Definition sluggish (images : nat -> string) (answer : string -> string) : Host nat :=
  {| production := false;
     perform := fun c w =>
       match c with
       | ClickHandle | ClickSelector =>
           if w =? 0 then (inl "Node is detached from document", S w)
           else (inr tt, S w)
       | _ => (inr tt, w)
       end;
     chromePath := fun w => (inr "/usr/bin/chromium", w);
     buttonHandle := fun w => (inr true, w);
     capture := fun w => (inr (images (shownAfter w)), w);
     generateText := fun image w => (inr (answer image), w);
     existsSync := fun w => (true, w) |}.

(** A preview as [preview], on a machine whose debug directory cannot
    be written. *)
Definition readOnlyDisk (H : Host nat) : Host nat :=
  {| production := production H;
     perform := fun c w =>
       match c with
       | WriteFileSync => (inl "EACCES: permission denied", w)
       | _ => perform H c w
       end;
     chromePath := chromePath H;
     buttonHandle := buttonHandle H;
     capture := capture H;
     generateText := generateText H;
     existsSync := existsSync H |}.

(** A preview that cannot be opened: navigation times out. *)
Definition unreachable (H : Host nat) : Host nat :=
  {| production := production H;
     perform := fun c w =>
       match c with
       | Goto => (inl "Navigation timeout of 30000 ms exceeded", w)
       | _ => perform H c w
       end;
     chromePath := chromePath H;
     buttonHandle := buttonHandle H;
     capture := capture H;
     generateText := generateText H;
     existsSync := existsSync H |}.

(** A machine on which the vision model cannot be reached. *)
Definition modelDown (H : Host nat) : Host nat :=
  {| production := production H;
     perform := perform H;
     chromePath := chromePath H;
     buttonHandle := buttonHandle H;
     capture := capture H;
     generateText := fun _ w => (inl "connect ECONNREFUSED", w);
     existsSync := existsSync H |}.

(** The three-page preview of a book whose first content page is the
    second picture. *)
Definition threePages : Host nat := preview pictures 3 (recognises (pictures 2)).

(** A preview that ends on its title page. *)
Definition titleOnly : Host nat := preview pictures 1 (recognises (pictures 2)).

(** *** Observations on the calls of a run *)

(** The picture as it is handed to the model. *)
Definition dataUrl (img : string) : string := "data:image/jpeg;base64," ++ img.

Definition is_classification (c : Call) : bool :=
  match c with GenerateText _ => true | _ => false end.

Definition is_capture (c : Call) : bool :=
  match c with TakeScreenshot => true | _ => false end.

Definition is_click (c : Call) : bool :=
  match c with ClickHandle | ClickSelector => true | _ => false end.

Definition is_close (c : Call) : bool :=
  match c with Close => true | _ => false end.

Definition is_launch (c : Call) : bool :=
  match c with LaunchBundled | Launch _ => true | _ => false end.

(** The calls of the page loop. *)
Definition page_call (c : Call) : bool :=
  match c with
  | TakeScreenshot | GenerateText _ | ClickHandle | ClickSelector
  | ExistsSync | MkdirSync | WriteFileSync => true
  | _ => false
  end.

(** The calls made before the loop. *)
Definition setup_call (c : Call) : bool :=
  match c with
  | ImportChromeAwsLambda | GetChromePath | LaunchBundled | Launch _
  | NewPage | SetViewport | SetUserAgent | Goto | WaitForFunction => true
  | _ => false
  end.

(** The calls of the [try] block. *)
Definition session_call (c : Call) : bool := negb (is_close c).

Definition count (P : Call -> bool) (t : list Event) : nat :=
  List.length (filter (fun e => P (fst e)) t).

(** A browser session was launched: a launch call returned. *)
Definition launched (t : list Event) : bool :=
  existsb (fun e => is_launch (fst e) && snd e) t.

Definition clickCall (handle : bool) : Call :=
  if handle then ClickHandle else ClickSelector.

(** What a run resolved to, if it did. *)
Definition success_of {W} (x : ((Exn + Result) * St W) * list Event) : option bool :=
  match fst (fst x) with
  | inr res => Some (success res)
  | inl _ => None
  end.

Definition message_of {W} (x : ((Exn + Result) * St W) * list Event) : option string :=
  match fst (fst x) with
  | inr res => Some (message res)
  | inl _ => None
  end.

(** A computation that leaves [browser] alone and only makes calls
    allowed by [P]. *)
Definition confined {W A} (P : Call -> bool) (m : @M W A) : Prop :=
  forall s r s' t, m s = (r, s', t) ->
    browser s' = browser s /\ Forall (fun e => P (fst e) = true) t.

(** A computation after which [browser] is set exactly when it was set
    before or a launch returned, and which only makes calls allowed by
    [P]. *)
Definition tracks {W A} (P : Call -> bool) (m : @M W A) : Prop :=
  forall s r s' t, m s = (r, s', t) ->
    browser s' = browser s || launched t /\
    Forall (fun e => P (fst e) = true) t.


(** The event of a classification call, seen as one that returned. *)
Definition answered (e : Event) : Event :=
  if is_classification (fst e) then (fst e, true) else e.


End ScreenshotExtractor.

(** ** [bookProcessor.js]: the fallback text cascade *)

Module BookProcessor.
Import Js BookInfoService.

Definition nl : ascii := ascii_of_nat 10.

(** The separator ["\n\n"]. *)
Definition blankLine : string := String nl (String nl EmptyString).

(** [fullText.split(/\n\n+/)]: a run of two or more line feeds ends a
    paragraph; [inRun] says that such a run is being skipped, and
    [paragraph] collects the current piece. *)
Fixpoint split_from (s paragraph : string) (inRun : bool) : list string :=
  match s with
  | EmptyString => [paragraph]
  | String c r =>
      if inRun && Ascii.eqb c nl then split_from r paragraph true
      else if Ascii.eqb c nl && startsWith (String nl EmptyString) r
      then paragraph :: split_from r "" true
      else split_from r (paragraph ++ String c EmptyString) false
  end.

Definition splitParagraphs (fullText : string) : list string :=
  split_from fullText "" false.

(** [Math.floor(n * 0.1)].  The double nearest to one tenth exceeds it by
    less than one part in 2^54, so for an array length the rounded
    product has the integer part of the exact one. *)
Definition floorTenth (n : nat) : nat :=
  Z.to_nat (Qfloor (inject_Z (Z.of_nat n) * (1 # 10))).

(** The same product in binary64, for comparison: the double written
    [0.1], the double of a length, and the test that [m] is the floor of
    a double [x]. *)
Definition tenth : float := 0x1.999999999999ap-4%float.

Definition doubleOfNat (n : nat) : float :=
  PrimFloat.of_uint63 (Uint63.of_Z (Z.of_nat n)).

Definition isFloorOf (m : nat) (x : float) : bool :=
  PrimFloat.leb (doubleOfNat m) x && PrimFloat.ltb x (doubleOfNat (m + 1)).

(** The window of the archive method, lines 209 to 218. *)
Definition archivePage (fullText : string) (isFiction : bool) : string :=
  let paragraphs := splitParagraphs fullText in
  let contentStart := Nat.min 30 (floorTenth (List.length paragraphs)) in
  let startParagraph := if isFiction then contentStart + 5 else contentStart in
  join blankLine (slice startParagraph (startParagraph + 10) paragraphs).

(** [pageContent && pageContent.length > 200], with the window kept. *)
Definition archiveWindow (fullText : string) (isFiction : bool) : option string :=
  let pageContent := archivePage fullText isFiction in
  if truthy pageContent && (200 <? String.length pageContent)
  then Some pageContent
  else None.

(** [.replace(/<\/?[^>]+(>|$)/g, "")]: a ["<"] followed by at least one
    character other than [">"] opens a match that runs to the next [">"]
    or to the end. *)
Fixpoint stripTags_from (s : string) (inTag : bool) : string :=
  match s with
  | EmptyString => EmptyString
  | String c r =>
      if inTag then stripTags_from r (negb (Ascii.eqb c ">"))
      else if Ascii.eqb c "<" then
        match r with
        | EmptyString => String c EmptyString
        | String d _ =>
            if Ascii.eqb d ">" then String c (stripTags_from r false)
            else stripTags_from r true
        end
      else String c (stripTags_from r false)
  end.

Definition quoteMark : string := String (ascii_of_nat 34) EmptyString.

Definition cleanSnippet (textSnippet : string) : string :=
  replaceAll "&amp;" "&"
    (replaceAll "&apos;" "'"
       (replaceAll "&quot;" quoteMark
          (stripTags_from textSnippet false))).

(** What the collaborators answer in one run; each endpoint is asked at
    most once.  [viewability] is [accessInfo.viewability], [olData] the
    entry of the ISBN in the archive catalogue's answer. *)
Record OpenLibraryEntry := {
  preview : option string;
  ia : option (list string)
}.

Record Sources := {
  volumeDetail : Exn + option string;
  pageContent : Exn + option string;
  openLibrary : Exn + option OpenLibraryEntry;
  archiveText : Exn + string;
  generatedExcerpt : Exn + string;
  volumeSnippet : Exn + option string;
  openaiKey : bool
}.

Inductive Request :=
| VolumeDetailRequest
| PageContentRequest
| OpenLibraryRequest
| ArchiveTextRequest
| ExcerptRequest
| SnippetRequest.

(** The variables [previewText] and [sourceInfo], and the requests made
    so far. *)
Record Cascade := {
  previewText : string;
  sourceInfo : string;
  requests : list Request
}.

Definition start : Cascade :=
  {| previewText := ""; sourceInfo := ""; requests := [] |}.

Definition ask (q : Request) (st : Cascade) : Cascade :=
  {| previewText := previewText st; sourceInfo := sourceInfo st;
     requests := (requests st ++ [q])%list |}.

Definition found (text source : string) (st : Cascade) : Cascade :=
  {| previewText := text; sourceInfo := source; requests := requests st |}.

Definition viewable (viewability : option string) : bool :=
  match viewability with
  | Some v => String.eqb v "PARTIAL" || String.eqb v "ALL_PAGES"
  | None => false
  end.

(** Method 1: the provider's page content. *)
Definition method1 (src : Sources) (bookInfo : BookInfo) (st : Cascade) : Cascade :=
  let st := ask VolumeDetailRequest st in
  match volumeDetail src with
  | inr viewability =>
      if viewable viewability then
        let st := ask PageContentRequest st in
        match pageContent src with
        | inr (Some content) =>
            if truthy content
            then found content "Google Books API page content" st
            else st
        | inr None => st
        | inl _ => st
        end
      else st
  | inl _ => st
  end.

(** Method 2: the archive's full text. *)
Definition method2 (src : Sources) (bookInfo : BookInfo) (st : Cascade) : Cascade :=
  if negb (truthy (previewText st)) && truthy_opt (isbn bookInfo) then
    let st := ask OpenLibraryRequest st in
    match openLibrary src with
    | inr (Some olData) =>
        if match preview olData with Some p => String.eqb p "full" | None => false end
        then
          let iaId := match ia olData with Some (x :: _) => Some x | _ => None end in
          if truthy_opt iaId then
            let st := ask ArchiveTextRequest st in
            match archiveText src with
            | inr fullText =>
                match archiveWindow fullText (isFiction bookInfo) with
                | Some pageContent => found pageContent "Internet Archive full text" st
                | None => st
                end
            | inl _ => st
            end
          else st
        else st
    | inr None => st
    | inl _ => st
    end
  else st.

(** Method 3: an excerpt written by the language model. *)
Definition method3 (src : Sources) (bookInfo : BookInfo) (st : Cascade) : Cascade :=
  if negb (truthy (previewText st)) && truthy_opt (description bookInfo) && openaiKey src then
    let st := ask ExcerptRequest st in
    match generatedExcerpt src with
    | inr text => found text "AI-generated excerpt based on book description" st
    | inl _ => st
    end
  else st.

(** Method 4: the indexed snippet. *)
Definition method4 (src : Sources) (bookInfo : BookInfo) (st : Cascade) : Cascade :=
  if negb (truthy (previewText st)) then
    let st := ask SnippetRequest st in
    match volumeSnippet src with
    | inr (Some textSnippet) =>
        if truthy textSnippet
        then found (cleanSnippet textSnippet) "Google Books snippet" st
        else st
    | inr None => st
    | inl _ => st
    end
  else st.

Definition formatBookPageContent (bookInfo : BookInfo) (pageContent sourceInfo : string) : string :=
  let pageType := if isFiction bookInfo then "Second" else "First" in
  let content := "# " ++ show (title bookInfo) ++ blankLine in
  let content := content ++ "By " ++ show (author bookInfo) ++ blankLine in
  let content := content ++ "## " ++ pageType ++ " Page Content" ++ blankLine in
  let content := content ++ pageContent ++ blankLine in
  let content :=
    if negb (includes sourceInfo "AI-generated")
    then content ++ "Source: " ++ sourceInfo ++ blankLine
    else content in
  content ++ "Note: This preview is provided as a sample of the "
          ++ toLowerCase pageType
          ++ " page of content. For the full text, please purchase the book.".

Definition line (s : string) : string := s ++ String nl EmptyString.

Definition createFallbackPreviewMessage (bookInfo : BookInfo) : string :=
  let pageType := if isFiction bookInfo then "second" else "first" in
  let message := "# " ++ show (title bookInfo) ++ " by " ++ show (author bookInfo) ++ blankLine in
  let message :=
    match or_null (description bookInfo) with
    | Some d => message ++ "## Description" ++ blankLine ++ d ++ blankLine
    | None => message
    end in
  let message := message ++ "We were unable to access the " ++ pageType
                         ++ " page text for this book. " in
  let message := message ++ "Since this is a "
                         ++ (if isFiction bookInfo then "fiction" else "non-fiction")
                         ++ " book, " in
  let message := message ++ "we would normally show you the " ++ pageType
                         ++ " page of actual content." ++ blankLine in
  let message :=
    match or_null (previewLink bookInfo) with
    | Some l => message ++ "You can [view the book preview on Google Books](" ++ l
                        ++ ") to read sample pages." ++ blankLine
    | None => message
    end in
  let message := message ++ line "Alternatively, you might find previews on:" in
  let message := message ++ line "- The publisher's website" in
  let message :=
    match or_null (isbn bookInfo) with
    | Some i => message ++ line ("- Open Library (ISBN: " ++ i ++ ")")
    | None => message
    end in
  let message := message ++ line ("- Amazon's " ++ quoteMark ++ "Look Inside" ++ quoteMark ++ " feature") in
  message ++ "- Your local library's digital collection".

(** The state after the four methods. *)
Definition cascade (src : Sources) (bookInfo : BookInfo) : Cascade :=
  method4 src bookInfo (method3 src bookInfo (method2 src bookInfo (method1 src bookInfo start))).

(** [fetchBookPreviewText], with the requests it made.  Every throwing
    call sits in a [try] of its own, so the outer [catch] is never
    entered. *)
Definition fetchBookPreviewText (src : Sources) (bookInfo : BookInfo) : string * list Request :=
  let st := cascade src bookInfo in
  if negb (truthy (previewText st))
  then (createFallbackPreviewMessage bookInfo, requests st)
  else (formatBookPageContent bookInfo (previewText st) (sourceInfo st), requests st).

(** *** The window of the specification

    Paragraph units on blank-line boundaries, written from the
    specification and not from [split_from].  A blank line is an empty
    line, so a boundary is a run of two or more line feeds;
    [uptoBoundary] gives the text before the first boundary and, when
    there is a boundary, the text after it; the units of a text are the
    text before its first boundary and the units of the text after
    it. *)
Fixpoint dropFeeds (s : string) : string :=
  match s with
  | EmptyString => EmptyString
  | String c r => if Ascii.eqb c nl then dropFeeds r else s
  end.

Fixpoint uptoBoundary (s : string) : string * option string :=
  match s with
  | EmptyString => (EmptyString, None)
  | String c r =>
      match r with
      | String d _ =>
          if Ascii.eqb c nl && Ascii.eqb d nl
          then (EmptyString, Some (dropFeeds r))
          else let '(unit, rest) := uptoBoundary r in (String c unit, rest)
      | EmptyString => (String c EmptyString, None)
      end
  end.

(** [fuel] bounds the number of boundaries; the text after a boundary
    is shorter than the text, so its length is enough. *)
Fixpoint unitsWithin (fuel : nat) (s : string) : list string :=
  let '(unit, rest) := uptoBoundary s in
  unit ::
  match rest, fuel with
  | Some r, S k => unitsWithin k r
  | _, _ => []
  end.

Definition paragraphUnits (transcript : string) : list string :=
  unitsWithin (String.length transcript) transcript.

(** The window of the archive method in the words of the specification:
    skip a tenth of the paragraph units, at most thirty, five more for
    fiction, take the next ten, keep the window when it is longer than
    200 characters. *)
Definition windowSpec (fullText : string) (isFiction : bool) : option string :=
  let paragraphs := paragraphUnits fullText in
  let frontMatter := Nat.min 30 (List.length paragraphs / 10) in
  let skipped := frontMatter + (if isFiction then 5 else 0) in
  let window := join blankLine (firstn 10 (skipn skipped paragraphs)) in
  if 200 <? String.length window then Some window else None.

(** *** The waterfall of the specification

    Written from the specification and not from the four methods above:
    for each method, the requests it makes when it is tried and the
    text it yields, with the label of its provenance.  A provider's
    error is no answer; an empty text is no yield.  The first method
    that yields wins and the later ones are not tried.  When a method
    applies is as the code has it: the excerpt needs the key besides
    the description. *)
Inductive Method :=
| ProviderPageContent
| ArchiveFullText
| GeneratedExcerpt
| BibliographicSnippet.

Definition methodOrder : list Method :=
  [ProviderPageContent; ArchiveFullText; GeneratedExcerpt; BibliographicSnippet].

Definition answered {A : Type} (r : Exn + A) : option A :=
  match r with
  | inr a => Some a
  | inl _ => None
  end.

Definition yields (label : string) (text : option string) : option (string * string) :=
  match text with
  | Some t => if String.eqb t "" then None else Some (t, label)
  | None => None
  end.

(** The viewability flag permits page text. *)
Definition permits (flag : option string) : bool :=
  match flag with
  | Some f => existsb (String.eqb f) ["PARTIAL"; "ALL_PAGES"]
  | None => false
  end.

(** The record of the catalogue indicates a full preview with an
    archive identifier. *)
Definition archiveItem (record : option (option OpenLibraryEntry)) : option string :=
  match record with
  | Some (Some entry) =>
      match preview entry, ia entry with
      | Some p, Some (item :: _) =>
          if String.eqb p "full" && negb (String.eqb item "") then Some item else None
      | _, _ => None
      end
  | _ => None
  end.

Definition attempt (src : Sources) (bookInfo : BookInfo) (m : Method)
  : list Request * option (string * string) :=
  match m with
  | ProviderPageContent =>
      match answered (volumeDetail src) with
      | Some flag =>
          if permits flag
          then ([VolumeDetailRequest; PageContentRequest],
                yields "Google Books API page content"
                  (match answered (pageContent src) with
                   | Some content => content
                   | None => None
                   end))
          else ([VolumeDetailRequest], None)
      | None => ([VolumeDetailRequest], None)
      end
  | ArchiveFullText =>
      match or_null (isbn bookInfo) with
      | Some _ =>
          match archiveItem (answered (openLibrary src)) with
          | Some _ =>
              ([OpenLibraryRequest; ArchiveTextRequest],
               match answered (archiveText src) with
               | Some transcript =>
                   match windowSpec transcript (isFiction bookInfo) with
                   | Some window => Some (window, "Internet Archive full text")
                   | None => None
                   end
               | None => None
               end)
          | None => ([OpenLibraryRequest], None)
          end
      | None => ([], None)
      end
  | GeneratedExcerpt =>
      match or_null (description bookInfo) with
      | Some _ =>
          if openaiKey src
          then ([ExcerptRequest],
                yields "AI-generated excerpt based on book description"
                  (answered (generatedExcerpt src)))
          else ([], None)
      | None => ([], None)
      end
  | BibliographicSnippet =>
      ([SnippetRequest],
       yields "Google Books snippet"
         (match answered (volumeSnippet src) with
          | Some (Some textSnippet) => Some (cleanSnippet textSnippet)
          | _ => None
          end))
  end.

Fixpoint waterfall (src : Sources) (bookInfo : BookInfo) (ms : list Method)
  : list Request * option (string * string) :=
  match ms with
  | [] => ([], None)
  | m :: rest =>
      match attempt src bookInfo m with
      | (asked, Some yield) => (asked, Some yield)
      | (asked, None) =>
          let '(later, yield) := waterfall src bookInfo rest in
          ((asked ++ later)%list, yield)
      end
  end.

Definition waterfallText (src : Sources) (bookInfo : BookInfo) : string * list Request :=
  match waterfall src bookInfo methodOrder with
  | (asked, Some (text, source)) => (formatBookPageContent bookInfo text source, asked)
  | (asked, None) => (createFallbackPreviewMessage bookInfo, asked)
  end.

(** The method of the code that stands for a method of the
    specification. *)
Definition runMethod (m : Method) : Sources -> BookInfo -> Cascade -> Cascade :=
  match m with
  | ProviderPageContent => method1
  | ArchiveFullText => method2
  | GeneratedExcerpt => method3
  | BibliographicSnippet => method4
  end.

(** *** A book and two sets of answers *)

Definition duneInfo : BookInfo :=
  {| title := Some "Dune";
     author := Some "Frank Herbert";
     isFiction := true;
     isbn := Some "9780441013593";
     description := Some "A stunning blend of adventure and mysticism.";
     previewLink := None;
     id := Some "volume-1";
     categories := None |}.

Definition everythingAnswers : Sources :=
  {| volumeDetail := inr (Some "PARTIAL");
     pageContent := inr (Some "A beginning is the time for taking the most delicate care.");
     openLibrary := inr (Some {| preview := Some "full"; ia := Some ["dune0000herb"] |});
     archiveText := inr "DUNE";
     generatedExcerpt := inr "In the week before their departure to Arrakis";
     volumeSnippet := inr (Some "A beginning is the time");
     openaiKey := true |}.

Definition snippetOnly : Sources :=
  {| volumeDetail := inr (Some "ALL_PAGES");
     pageContent := inl "Request failed with status code 401";
     openLibrary := inr None;
     archiveText := inl "Request failed with status code 404";
     generatedExcerpt := inl "Rate limit reached";
     volumeSnippet := inr (Some "<b>A beginning</b> is the time");
     openaiKey := true |}.

(** What running a method on [st] adds, [a] being the state the
    method leaves when it is run on [start]. *)
Definition extends (st a st' : Cascade) : Prop :=
  requests st' = (requests st ++ requests a)%list /\
  if truthy (previewText a)
  then previewText st' = previewText a /\ sourceInfo st' = sourceInfo a
  else truthy (previewText st') = false.

(** A final state [fin] and the outcome [w] of a waterfall that was
    started in state [st]. *)
Definition settled (st fin : Cascade)
  (w : list Request * option (string * string)) : Prop :=
  requests fin = (requests st ++ fst w)%list /\
  match snd w with
  | Some (text, source) =>
      previewText fin = text /\ sourceInfo fin = source /\ truthy text = true
  | None => truthy (previewText fin) = false
  end.

End BookProcessor.


(** ** The processor: [processBookCover], [validateBookCover],
    [identifyBook] and [analyzeScreenshots] of the extractor's file *)

Module Processor.
Import Js BookInfoService ScreenshotExtractor.

Definition nl : ascii := ascii_of_nat 10.

Definition blankLine : string := String nl (String nl EmptyString).

(** Template-literal rendering of a value that may be [null]. *)
Definition show_null (o : option string) : string :=
  match o with
  | Some s => s
  | None => "null"
  end.

(** [createFallbackPreviewMessage], lines 484 to 500. *)
Definition createFallbackPreviewMessage (bookInfo : BookInfo) : string :=
  let pageType := if isFiction bookInfo then "second" else "first" in
  let message := "# " ++ show (title bookInfo) ++ " by " ++ show (author bookInfo) ++ blankLine in
  let message :=
    match or_null (description bookInfo) with
    | Some d => message ++ "## Description" ++ blankLine ++ d ++ blankLine
    | None => message
    end in
  let message := message ++ "We were unable to access or extract text from the "
                         ++ pageType ++ " page for this book." ++ blankLine in
  match or_null (previewLink bookInfo) with
  | Some l => message ++ "You can [view the book preview on Google Books](" ++ l
                      ++ ") to read sample pages." ++ blankLine
  | None => message
  end.

(** The suffix of [s] that starts at the first [c]. *)
Fixpoint fromFirst (c : ascii) (s : string) : option string :=
  match s with
  | EmptyString => None
  | String a r => if Ascii.eqb a c then Some s else fromFirst c r
  end.

(** The prefix of [s] that ends at the last [c]. *)
Fixpoint upToLast (c : ascii) (s : string) : option string :=
  match s with
  | EmptyString => None
  | String a r =>
      match upToLast c r with
      | Some p => Some (String a p)
      | None => if Ascii.eqb a c then Some (String a EmptyString) else None
      end
  end.

(** [text.match(/\{[\s\S]*\}/)], the matched text: from the first
    opening brace to the last closing brace after it. *)
Definition matchBraces (text : string) : option string :=
  match fromFirst "{" text with
  | Some s => upToLast "}" s
  | None => None
  end.

(** The text added for the screenshot at position [i] of the array. *)
Definition screenshotBlock (i : nat) (text : string) : string :=
  String nl ("--- Screenshot " ++ show_nat (i + 1) ++ " ---" ++ blankLine
             ++ trim text ++ blankLine).

(** What [processBookCover] resolves to: the refusal of an image that is
    not a cover, or the page. *)
Inductive Response :=
| NotACover (text : string)
| Page (text url : string) (bookInfo : BookInfo) (pageType : string)
       (capturedScreenshots : nat).

Definition missingKey : string :=
  "OpenAI API key is missing. Please set the OPENAI_API_KEY environment variable.".

Definition notACover : string :=
  "The image you provided doesn't appear to be a book cover. Please take another photo making sure the book cover is clearly visible.".

Section Process.

Context {W : Type}.
Variable H : Host W.

(** [process.env.OPENAI_API_KEY] is set. *)
Variable keyConfigured : bool.

(** The bibliographic provider. *)
Variable P : Provider.

(** [JSON.parse] and the fields read from its value. *)
Variable parseDetails : string -> Exn + BookDetails.

Notation "x <- m ;; k" := (bind m (fun x => k))
  (at level 61, m at next level, right associativity).
Notation "m ;;; k" := (bind m (fun _ => k))
  (at level 61, right associativity).

Definition raise {A} (e : Exn) : @M W A := fun s => (inl e, s, []).

(** A call of a function with its own variable [browser]. *)
Definition activation {A} (m : @M W A) : @M W A :=
  fun s =>
    let '(r, s1, t) := m {| world := world s; browser := false |} in
    (r, {| world := world s1; browser := browser s |}, t).

Definition validateBookCover (base64Image : string) : @M W bool :=
  catch
    (text <- call (GenerateText base64Image) (generateText H base64Image) ;;
     ret (includes (toLowerCase text) "yes"))
    (fun error => raise ("Failed to validate book cover: " ++ error)).

Definition identifyBook (base64Image : string) : @M W BookDetails :=
  catch
    (text <- call (GenerateText base64Image) (generateText H base64Image) ;;
     match matchBraces text with
     | None => raise "Could not extract book information from the image"
     | Some json =>
         match parseDetails json with
         | inr bookDetails => ret bookDetails
         | inl error => raise error
         end
     end)
    (fun error => raise ("Failed to identify the book from the cover: " ++ error)).

(** The loop of [analyzeScreenshots] from position [i], with the text
    collected so far. *)
Fixpoint analyzeFrom (i : nat) (screenshots : list Screenshot)
  (combinedText : string) : @M W string :=
  match screenshots with
  | [] => ret combinedText
  | screenshot :: rest =>
      combinedText <-
        catch
          (let base64Image := "data:image/jpeg;base64," ++ base64Imagee screenshot in
           text <- call (GenerateText base64Image) (generateText H base64Image) ;;
           ret (combinedText ++ screenshotBlock i text))
          (fun _ => ret combinedText) ;;
      analyzeFrom (S i) rest combinedText
  end.

Definition analyzeScreenshots (screenshots : list Screenshot) (bookInfo : BookInfo)
  : @M W string :=
  combinedText <- analyzeFrom 0 screenshots "" ;;
  if truthy (trim combinedText)
  then ret ("# " ++ show (title bookInfo) ++ " by " ++ show (author bookInfo)
            ++ blankLine ++ combinedText)
  else ret "".

Definition previewUrl (bookInfo : BookInfo) (startPage : nat) : string :=
  "https://books.google.com/books?id=" ++ show_null (id bookInfo)
  ++ "&newbks=0&lpg=PP1&pg=PA" ++ show_nat startPage ++ "&output=embed".

(** [processBookCover], lines 251 to 309; [base64Image] is the picture
    of the cover.  The provider is asked between the two stages and is
    not part of the world. *)
Definition processBookCover (base64Image : string) : @M W Response :=
  if negb keyConfigured then raise missingKey
  else
    isValidBookCover <- validateBookCover base64Image ;;
    if negb isValidBookCover then ret (NotACover notACover)
    else
      bookDetails <- identifyBook base64Image ;;
      let bookInfo := fetchBookInfo P bookDetails in
      let startPage := if isFiction bookInfo then 2 else 1 in
      screenshotResult <-
        activation (extractBookScreenshots H (isFiction bookInfo)) ;;
      extractedText <-
        (if success screenshotResult
            && (0 <? List.length (screenshots screenshotResult))
         then analyzeScreenshots (screenshots screenshotResult) bookInfo
         else ret "") ;;
      ret (Page (if truthy extractedText then extractedText
                 else createFallbackPreviewMessage bookInfo)
                (previewUrl bookInfo startPage)
                bookInfo
                (if isFiction bookInfo then "second" else "first")
                (List.length (screenshots screenshotResult))).

End Process.

(** *** A bench for whole requests

    The world counts the calls of the model and knows the page on
    display and whether the browser was closed.  The model says "Yes"
    to the first question about the cover and answers the second with
    an object; before the browser is closed it is asked about pages and
    recognises the second picture, afterwards it transcribes. *)
Record Bench := {
  modelCalls : nat;
  shown : nat;
  closed : bool
}.

Definition benchModel (b : Bench) : string :=
  match modelCalls b with
  | 0 => "Yes"
  | 1 => "Here it is: {title: Dune} as asked"
  | _ =>
      if closed b then "  In the week before their departure to Arrakis  "
      else if shown b =? 2 then "Yes" else "No"
  end.

Definition bench (lastPage : nat) : Host Bench :=
  {| production := false;
     perform := fun c b =>
       match c with
       | ClickHandle | ClickSelector =>
           if shown b <? lastPage
           then (inr tt, {| modelCalls := modelCalls b; shown := S (shown b);
                            closed := closed b |})
           else (inl "Node is either not clickable or not an Element", b)
       | Close =>
           (inr tt, {| modelCalls := modelCalls b; shown := shown b; closed := true |})
       | _ => (inr tt, b)
       end;
     chromePath := fun b => (inr "/usr/bin/chromium", b);
     buttonHandle := fun b => (inr true, b);
     capture := fun b => (inr (pictures (shown b)), b);
     generateText := fun _ b =>
       (inr (benchModel b),
        {| modelCalls := S (modelCalls b); shown := shown b; closed := closed b |});
     existsSync := fun b => (true, b) |}.

Definition benchStart : St Bench :=
  {| world := {| modelCalls := 0; shown := 1; closed := false |}; browser := false |}.

(** A parser that reads the object of [benchModel]. *)
Definition benchParse (json : string) : Exn + BookDetails :=
  if String.eqb json "{title: Dune}" then inr duneGuess
  else inl "Unexpected token".

Definition coverPicture : string := "Y292ZXI=".

(** A machine on which no browser starts. *)
Definition noBrowser (H : Host nat) : Host nat :=
  {| production := production H;
     perform := fun c w =>
       match c with
       | Launch _ | LaunchBundled => (inl "Failed to launch the browser process", w)
       | _ => perform H c w
       end;
     chromePath := chromePath H;
     buttonHandle := buttonHandle H;
     capture := capture H;
     generateText := generateText H;
     existsSync := existsSync H |}.

(** *** Observations *)

(** A string has a character that is not white space. *)
Fixpoint hasInk (s : string) : bool :=
  match s with
  | EmptyString => false
  | String c r => negb (is_space c) || hasInk r
  end.

(** [image] is the picture of one of the screenshots. *)
Definition pictureOf (shot : Screenshot) : string :=
  "data:image/jpeg;base64," ++ base64Imagee shot.

(** A call returned. *)
Definition returned (e : Event) : bool := snd e.


Definition is_modelCall (c : Call) : bool :=
  match c with GenerateText _ => true | _ => false end.

(** A call that writes to the file system: [fs.mkdirSync] and
    [fs.writeFileSync], lines 656 and 659.  The tests of paths
    ([fs.existsSync] of line 655 and those [getChromePath] makes behind
    the call [GetChromePath]) write nothing and are not counted. *)
Definition is_fileWrite (c : Call) : bool :=
  match c with MkdirSync | WriteFileSync => true | _ => false end.

(** A launch call that returned. *)
Definition is_launchReturn (e : Event) : bool := is_launch (fst e) && snd e.

(** A call of the session that threw and is not caught where it is
    made: launch with a configuration, page set-up, navigation, the wait
    for the page-turn control. *)
Definition is_sessionFault (e : Event) : bool :=
  negb (snd e) &&
  match fst e with
  | Launch _ | NewPage | SetViewport | SetUserAgent | Goto | WaitForFunction => true
  | _ => false
  end.

Definition countEvents (P : Event -> bool) (t : list Event) : nat :=
  List.length (filter P t).

(** The pictures the model was asked about, in order. *)
Definition asked (t : list Event) : list string :=
  flat_map (fun e => match fst e with GenerateText image => [image] | _ => [] end) t.

End Processor.

(** ** [getChromePath]: the search for a browser *)

Module ChromePath.
Import Js.

(** [chromePaths[platform] || []]; [localAppData] is
    [process.env.LOCALAPPDATA]. *)
Definition chromePaths (localAppData : option string) (platform : string) : list string :=
  if String.eqb platform "darwin" then
    [ "/Applications/Google Chrome.app/Contents/MacOS/Google Chrome";
      "/Applications/Google Chrome Canary.app/Contents/MacOS/Google Chrome Canary";
      "/Applications/Chromium.app/Contents/MacOS/Chromium";
      "/Applications/Microsoft Edge.app/Contents/MacOS/Microsoft Edge";
      "/Applications/Brave Browser.app/Contents/MacOS/Brave Browser";
      "/Applications/Opera.app/Contents/MacOS/Opera" ]
  else if String.eqb platform "win32" then
    [ "C:\Program Files\Google\Chrome\Application\chrome.exe";
      "C:\Program Files (x86)\Google\Chrome\Application\chrome.exe";
      show localAppData ++ "\Google\Chrome\Application\chrome.exe";
      "C:\Program Files (x86)\Microsoft\Edge\Application\msedge.exe";
      "C:\Program Files\Microsoft\Edge\Application\msedge.exe";
      show localAppData ++ "\Microsoft\Edge\Application\msedge.exe";
      "C:\Program Files\BraveSoftware\Brave-Browser\Application\brave.exe" ]
  else if String.eqb platform "linux" then
    [ "/usr/bin/google-chrome";
      "/usr/bin/google-chrome-stable";
      "/usr/bin/chromium";
      "/usr/bin/chromium-browser";
      "/usr/bin/microsoft-edge";
      "/usr/bin/brave-browser" ]
  else [].

Definition browsers : list string :=
  [ "google-chrome"; "chrome"; "chromium"; "chromium-browser";
    "microsoft-edge"; "brave" ].

(** What the function asks of the machine. *)
Inductive Probe :=
| Exists (path : string)
| Which (browser : string).

(** The machine: the file system, the [which] command with its standard
    output, and whether [child_process] and [util] load. *)
Record Machine := {
  existsSync : string -> Exn + bool;
  which : string -> Exn + string;
  shell : bool
}.

Section Search.

Variable m : Machine.

(** [for (const chromePath of pathsToTry)], a throwing test being
    skipped. *)
Fixpoint tryPaths (paths : list string) : option string * list Probe :=
  match paths with
  | [] => (None, [])
  | chromePath :: rest =>
      match existsSync m chromePath with
      | inr true => (Some chromePath, [Exists chromePath])
      | _ =>
          let '(r, probes) := tryPaths rest in
          (r, Exists chromePath :: probes)
      end
  end.

(** [for (const browser of browsers)]. *)
Fixpoint tryWhich (names : list string) : option string * list Probe :=
  match names with
  | [] => (None, [])
  | browser :: rest =>
      match which m browser with
      | inr stdout =>
          if truthy (trim stdout) then (Some (trim stdout), [Which browser])
          else
            let '(r, probes) := tryWhich rest in
            (r, Which browser :: probes)
      | inl _ =>
          let '(r, probes) := tryWhich rest in
          (r, Which browser :: probes)
      end
  end.

Definition notFound (platform : string) : string :=
  "Could not find Chrome/Chromium browser on platform " ++ platform
  ++ ". Please install Chrome or specify its path manually.".

Definition getChromePath (localAppData : option string) (platform : string)
  : (Exn + string) * list Probe :=
  let pathsToTry := chromePaths localAppData platform in
  match tryPaths pathsToTry with
  | (Some chromePath, probes) => (inr chromePath, probes)
  | (None, probes) =>
      if negb (String.eqb platform "win32") && shell m then
        match tryWhich browsers with
        | (Some found, probes') => (inr found, (probes ++ probes')%list)
        | (None, probes') => (inl (notFound platform), (probes ++ probes')%list)
        end
      else (inl (notFound platform), probes)
  end.

End Search.

(** Everything the function may ask, in the order it asks. *)
Definition plan (localAppData : option string) (platform : string) : list Probe :=
  (map Exists (chromePaths localAppData platform)
   ++ (if String.eqb platform "win32" then [] else map Which browsers))%list.

(** A Linux machine with Chromium installed from the distribution. *)
Definition chromiumBox : Machine :=
  {| existsSync := fun p => inr (String.eqb p "/usr/bin/chromium");
     which := fun _ => inl "Command failed";
     shell := true |}.

(** A BSD machine where only [which] knows the browser. *)
Definition bsdBox : Machine :=
  {| existsSync := fun _ => inr false;
     which := fun b =>
       if String.eqb b "chromium"
       then inr (String.append "/usr/local/bin/chrome" (String (ascii_of_nat 10) EmptyString))
       else inl "Command failed";
     shell := true |}.

End ChromePath.

(** ** Views used to state properties of the resolver and the cascade *)

Module ResolverViews.
Import Js BookInfoService.

(** The number of words of a vocabulary that a description contains. *)
Definition hits (words : list string) (desc : string) : nat :=
  List.length (filter (fun word => includes desc word) words).

(** The two totals the heuristic compares, as whole numbers: the short
    title is left out. *)
Definition fictionTotal (description : string) : nat :=
  if truthy description then hits fictionWords (toLowerCase description) else 0.

Definition nonfictionTotal (description title : string) : nat :=
  (if truthy description then hits nonfictionWords (toLowerCase description) else 0)
  + (if truthy title && matches_title_pattern (toLowerCase title) then 2 else 0).

(** A provider answer with the category tags of every volume removed. *)
Definition untagged (v : VolumeInfo) : VolumeInfo :=
  {| v_title := v_title v;
     v_authors := v_authors v;
     v_categories := None;
     v_description := v_description v;
     v_previewLink := v_previewLink v;
     v_industryIdentifiers := v_industryIdentifiers v |}.

Definition untaggedData (data : ApiData) : ApiData :=
  {| items :=
       match items data with
       | Some l =>
           Some (map (fun it => {| item_id := item_id it;
                                   volumeInfo := untagged (volumeInfo it) |}) l)
       | None => None
       end |}.

(** The provider [P], its answers to free-text queries untagged. *)
Definition untaggedSearch (P : Provider) : Provider :=
  {| get_isbn := get_isbn P;
     get_query := fun q =>
       match get_query P q with
       | inr data => inr (untaggedData data)
       | inl e => inl e
       end |}.

(** A lookup that gives no volume: it throws or has no item. *)
Definition misses (answer : Exn + ApiData) : Prop :=
  match answer with
  | inl _ => True
  | inr data => first_item data = None
  end.

(** A biography the provider tags as such, with a description that
    reads like a novel. *)
Definition biographyVolume : VolumeInfo :=
  {| v_title := Some "Long Walk";
     v_authors := Some ["N. Mandela"];
     v_categories := Some ["Biography & Autobiography"];
     v_description := Some "The epic story of a hero and his journey.";
     v_previewLink := None;
     v_industryIdentifiers := None |}.

Definition titleGuess (t : string) : BookDetails :=
  {| d_title := Some t; d_author := None; d_isbn := None; d_isFiction := Missing |}.

(** A guess in which the model could not tell the classification and
    wrote [null], as the prompt asks. *)
Definition undecidedGuess : BookDetails :=
  {| d_title := Some "Dune"; d_author := None; d_isbn := None; d_isFiction := Null |}.

(** A provider that is down. *)
Definition offline : Provider :=
  {| get_isbn := fun _ => inl "Network Error";
     get_query := fun _ => inl "Network Error" |}.

End ResolverViews.

Module CascadeViews.
Import Js BookInfoService BookProcessor.

(** The place of a request in the order of the cascade. *)
Definition rank (q : Request) : nat :=
  match q with
  | VolumeDetailRequest => 0
  | PageContentRequest => 1
  | OpenLibraryRequest => 2
  | ArchiveTextRequest => 3
  | ExcerptRequest => 4
  | SnippetRequest => 5
  end.

(** No line feed in a string. *)
Fixpoint oneLine (s : string) : bool :=
  match s with
  | EmptyString => true
  | String c r => negb (Ascii.eqb c nl) && oneLine r
  end.

(** A character does not occur in a string. *)
Fixpoint lacks (c : ascii) (s : string) : bool :=
  match s with
  | EmptyString => true
  | String a r => negb (Ascii.eqb a c) && lacks c r
  end.

Definition stripTags (s : string) : string := stripTags_from s false.

(** Sources where the page content is refused, the transcript is too
    short and the model writes an excerpt. *)
Definition shortTranscript : Sources :=
  {| volumeDetail := inr (Some "PARTIAL");
     pageContent := inl "Request failed with status code 401";
     openLibrary := inr (Some {| preview := Some "full"; ia := Some ["dune0000herb"] |});
     archiveText := inr "DUNE";
     generatedExcerpt := inr "In the week before their departure to Arrakis";
     volumeSnippet := inr None;
     openaiKey := true |}.

(** A GET of the volume resource [/books/v1/volumes/{id}]: the detail
    request of line 153, which selects fields, and the snippet request
    of line 263. *)
Definition is_volumeGet (q : Request) : bool :=
  match q with
  | VolumeDetailRequest | SnippetRequest => true
  | _ => false
  end.

Definition is_snippetRequest (q : Request) : bool :=
  match q with
  | SnippetRequest => true
  | _ => false
  end.

(** A list of numbers goes strictly up. *)
Fixpoint ascending (l : list nat) : bool :=
  match l with
  | a :: r =>
      match r with
      | b :: _ => (a <? b) && ascending r
      | [] => true
      end
  | [] => true
  end.

End CascadeViews.

(** ** [bookProcessor.js] and the server: the text pipeline *)

Module TextPipeline.
Import Js BookInfoService ScreenshotExtractor BookProcessor Processor.

(** What [processBookCover] of [bookProcessor.js] resolves to: the
    refusal, an object with [isError: true], or the preview text with
    the record of the book. *)
Inductive TextResponse :=
| Refused (text : string)
| Preview (text : string) (bookInfo : BookInfo) (pageType : string).

(** The body of a reply: an object with the key [error], or the result
    of the pipeline. *)
Inductive Body :=
| ErrorBody (error : string)
| ResultBody (result : TextResponse).

Record Reply := {
  status : nat;
  body : Body
}.

Definition keyNotConfigured : string :=
  "OpenAI API key is not configured. Please set the OPENAI_API_KEY environment variable.".

Section Pipeline.

Context {W : Type}.
Variable H : Host W.
Variable keyConfigured : bool.
Variable P : Provider.
Variable parseDetails : string -> Exn + BookDetails.

(** The answers to the GETs made for a book; of [generatedExcerpt] and
    [openaiKey] no use is made here, the model being asked through the
    host and the key being [keyConfigured]. *)
Variable answers : BookInfo -> Sources.

Notation "x <- m ;; k" := (bind m (fun x => k))
  (at level 61, m at next level, right associativity).

(** The user message of the excerpt request, lines 247 to 249; the
    description is a non-empty string where the request is made. *)
Definition excerptPrompt (bookInfo : BookInfo) : string :=
  "Based on this book description, generate what the "
  ++ (if isFiction bookInfo then "second" else "first")
  ++ " page of actual content (not title/copyright pages) might contain. Make it authentic to the author's style. Description: "
  ++ show (description bookInfo).

(** Method 3, lines 235 to 258, with its call of the model made
    through the host: the call is an event of the run and moves the
    world.  A call that throws is caught and leaves [previewText] as it
    was. *)
Definition method3 (bookInfo : BookInfo) (st : Cascade) : @M W Cascade :=
  if negb (truthy (previewText st)) && truthy_opt (description bookInfo) && keyConfigured
  then
    catch
      (text <- call (GenerateText (excerptPrompt bookInfo))
                    (generateText H (excerptPrompt bookInfo)) ;;
       ret (found text "AI-generated excerpt based on book description"
              (ask ExcerptRequest st)))
      (fun _ => ret (ask ExcerptRequest st))
  else ret st.

(** [fetchBookPreviewText], lines 138 to 290, in a run: methods 1, 2
    and 4 are those of [BookProcessor], their GETs answered by [src];
    method 3 asks the host.  The outer [catch] is never entered. *)
Definition fetchBookPreviewText (src : Sources) (bookInfo : BookInfo) : @M W string :=
  let st := method2 src bookInfo (method1 src bookInfo start) in
  st <- method3 bookInfo st ;;
  let st := method4 src bookInfo st in
  ret (if negb (truthy (previewText st))
       then BookProcessor.createFallbackPreviewMessage bookInfo
       else formatBookPageContent bookInfo (previewText st) (sourceInfo st)).

(** [validateBookCover] and [identifyBook] of this file are those of
    the extractor's file, the name of the model apart. *)
Definition processBookCover (imageBuffer : string) : @M W TextResponse :=
  if negb keyConfigured then raise missingKey
  else
    isValidBookCover <- validateBookCover H imageBuffer ;;
    if negb isValidBookCover then ret (Refused notACover)
    else
      bookDetails <- identifyBook H parseDetails imageBuffer ;;
      let bookInfo := fetchBookInfo P bookDetails in
      pageContent <- fetchBookPreviewText (answers bookInfo) bookInfo ;;
      ret (Preview pageContent bookInfo
                   (if isFiction bookInfo then "second" else "first")).

(** The handler of [POST /api/process]; [file] is [req.file], the
    buffer of the uploaded image.  [res.json] without [res.status]
    replies with status 200. *)
Definition handler (file : option string) : @M W Reply :=
  catch
    (match file with
     | None => ret {| status := 400; body := ErrorBody "No image provided" |}
     | Some buffer =>
         if negb keyConfigured
         then ret {| status := 500; body := ErrorBody keyNotConfigured |}
         else
           result <- processBookCover buffer ;;
           ret {| status := 200; body := ResultBody result |}
     end)
    (fun error =>
       if includes error "not a valid book cover"
       then ret {| status := 400;
                   body := ErrorBody "The image does not appear to be a book cover. Please retake the photo." |}
       else ret {| status := 500;
                   body := ErrorBody ("An error occurred while processing the image: " ++ error) |}).

End Pipeline.

(** The sources [src] with the answer [r] of the model to the excerpt
    request and the key [key]. *)
Definition withExcerpt (src : Sources) (key : bool) (r : Exn + string) : Sources :=
  {| volumeDetail := volumeDetail src;
     pageContent := pageContent src;
     openLibrary := openLibrary src;
     archiveText := archiveText src;
     generatedExcerpt := r;
     volumeSnippet := volumeSnippet src;
     openaiKey := key |}.

(** Text sources that are all down. *)
Definition allDown (_ : BookInfo) : Sources :=
  {| volumeDetail := inl "Network Error";
     pageContent := inl "Network Error";
     openLibrary := inl "Network Error";
     archiveText := inl "Network Error";
     generatedExcerpt := inl "Network Error";
     volumeSnippet := inl "Network Error";
     openaiKey := true |}.

(** The state of the bench in which the model is asked about a page
    that is not the one looked for: it answers "No". *)
Definition benchNo : St Bench :=
  {| world := {| modelCalls := 2; shown := 1; closed := false |}; browser := false |}.

End TextPipeline.
(** Case analysis on every test of a hypothesis, innermost first. *)
Ltac crack E :=
  repeat match type of E with
    | context [match ?x with _ => _ end] =>
        match x with
        | context [match _ with _ => _ end] => fail 1
        | _ => destruct x eqn:?
        end
    end.

(** * Properties *)

Unset Implicit Arguments.
Local Open Scope list_scope.

(** ** The bibliographic resolver *)

Section ResolverFacts.
Import Js BookInfoService.

(** C2, at the input of the example.  The tags "Fiction" and
    "Science Fiction" classify as non-fiction: the second one contains
    the keyword "science".  The resolver, asked by ISBN, hands this
    verdict on. *)
Theorem science_fiction_is_classified_nonfiction :
  isFictionCategory (Some ["Fiction"; "Science Fiction"]) = false /\
  category_is_nonfiction "Fiction" = false /\
  category_is_nonfiction "Science Fiction" = true /\
  includes (toLowerCase "Science Fiction") "science" = true /\
  isFiction (fetchBookInfo (catalogue duneVolume) duneGuess) = false.
Proof. repeat split; vm_compute; reflexivity. Qed.

(** The general half of C2: tags none of which contains a word of the
    non-fiction vocabulary classify as fiction. *)
Lemma tags_without_keyword_are_fiction cs :
  (forall c, In c cs -> category_is_nonfiction c = false) ->
  isFictionCategory (Some cs) = true.
Proof.
  intros Hc. unfold isFictionCategory. destruct cs as [|c r]; [reflexivity|].
  apply negb_true_iff. apply not_true_is_false. intros E.
  apply existsb_exists in E. destruct E as (x & I & Ex).
  rewrite (Hc x I) in Ex. discriminate.
Qed.

Lemma tag_with_keyword_is_nonfiction cs c :
  In c cs -> category_is_nonfiction c = true -> isFictionCategory (Some cs) = false.
Proof.
  intros I Ec. unfold isFictionCategory. destruct cs as [|c0 r]; [destruct I|].
  apply negb_false_iff. apply existsb_exists. now exists c.
Qed.

Example biography_is_nonfiction :
  isFictionCategory (Some ["Biography & Autobiography"]) = false.
Proof. reflexivity. Qed.

Example plain_fiction_is_fiction : isFictionCategory (Some ["Fiction"]) = true.
Proof. reflexivity. Qed.

(** C8, at a volume without category tags.  Looked up by ISBN the
    handbook is fiction, the default of [isFictionCategory]; the
    heuristic on its description and title says non-fiction, and that is
    what the same volume gets when it is found by title. *)
Theorem isbn_lookup_skips_the_heuristic :
  v_categories handbookVolume = None /\
  isFiction (fetchBookInfo (catalogue handbookVolume)
               (handbookGuess (Some "9780691164076"))) = true /\
  improvedFictionDetection (v_categories handbookVolume)
    (or_else (v_description handbookVolume) "")
    (or_else (v_title handbookVolume) "") = false /\
  isFiction (fetchBookInfo (catalogue handbookVolume) (handbookGuess None)) = false.
Proof. repeat split; vm_compute; reflexivity. Qed.

(** On the ISBN path the verdict is the one of the tags alone, whatever
    the description and the title. *)
Lemma isbn_path_uses_tags_only P d i b :
  or_null (d_isbn d) = Some i -> fetchBookByISBN P i = inr b ->
  exists data it,
    get_isbn P i = inr data /\ first_item data = Some it /\
    isFiction (fetchBookInfo P d)
    = isFictionCategory (v_categories (volumeInfo it)).
Proof.
  intros Ei Eb. unfold fetchBookInfo. rewrite Ei, Eb.
  unfold fetchBookByISBN in Eb.
  destruct (get_isbn P i) as [e|data]; [discriminate|].
  destruct (first_item data) as [it|] eqn:F; [|discriminate].
  inversion Eb; subst. now exists data, it.
Qed.

(** On the title path the heuristic always decides: the record that
    [searchBookAPI] builds has no [categories]. *)
Lemma title_path_uses_heuristic P d b :
  or_null (d_isbn d) = None ->
  (exists t, or_null (d_title d) = Some t) ->
  (forall q, searchBookAPI P q = inr b) ->
  isFiction (fetchBookInfo P d)
  = improvedFictionDetection (Some [])
      (or_else (description b) "") (or_else (title b) "").
Proof.
  intros Ei [t Et] Eb. unfold fetchBookInfo, search_by_title. rewrite Ei, Et, Eb.
  assert (C : categories b = None).
  { specialize (Eb ""). unfold searchBookAPI in Eb.
    destruct (get_query P "") as [e|data]; [discriminate|].
    destruct (first_item data); [|discriminate]. now inversion Eb. }
  rewrite C. reflexivity.
Qed.

End ResolverFacts.

(** ** The screenshot extractor *)

Section ExtractorFacts.
Import Js ScreenshotExtractor.

Context {W : Type}.
Variable H : Host W.

Lemma count_app P t1 t2 : count P (t1 ++ t2) = count P t1 + count P t2.
Proof. unfold count. now rewrite filter_app, length_app. Qed.

Lemma count_none P Q t :
  (forall c, Q c = true -> P c = false) ->
  Forall (fun e => Q (fst e) = true) t -> count P t = 0.
Proof.
  intros PQ F. unfold count. induction F as [|e t Qe _ IH]; simpl; auto.
  now rewrite (PQ _ Qe).
Qed.

Lemma launched_app t1 t2 : launched (t1 ++ t2) = launched t1 || launched t2.
Proof. apply existsb_app. Qed.

Lemma launched_none Q t :
  (forall c, Q c = true -> is_launch c = false) ->
  Forall (fun e => Q (fst e) = true) t -> launched t = false.
Proof.
  intros PQ F. unfold launched. induction F as [|e t Qe _ IH]; simpl; auto.
  now rewrite (PQ _ Qe).
Qed.

Lemma bind_inv {A B} (m : @M W A) (f : A -> @M W B) s r s' t :
  bind m f s = (r, s', t) ->
  (exists e, r = inl e /\ m s = (inl e, s', t)) \/
  (exists a s1 t1 t2,
      m s = (inr a, s1, t1) /\ f a s1 = (r, s', t2) /\ t = t1 ++ t2).
Proof.
  unfold bind. destruct (m s) as [[[e|a] s1] t1].
  - intros E. inversion E; subst. left. now exists e.
  - destruct (f a s1) as [[r2 s2] t2] eqn:Ef. intros E. inversion E; subst.
    right. now exists a, s1, t1, t2.
Qed.

Lemma catch_inv {A} (m : @M W A) (h : Exn -> @M W A) s r s' t :
  catch m h s = (r, s', t) ->
  (exists a, r = inr a /\ m s = (inr a, s', t)) \/
  (exists e s1 t1 t2,
      m s = (inl e, s1, t1) /\ h e s1 = (r, s', t2) /\ t = t1 ++ t2).
Proof.
  unfold catch. destruct (m s) as [[[e|a] s1] t1].
  - destruct (h e s1) as [[r2 s2] t2] eqn:Eh. intros E. inversion E; subst.
    right. now exists e, s1, t1, t2.
  - intros E. inversion E; subst. left. now exists a.
Qed.

Lemma finally_inv {A} (m : @M W A) (f : @M W unit) s r s' t :
  finally m f s = (r, s', t) ->
  exists r1 s1 t1 r2 t2,
    m s = (r1, s1, t1) /\ f s1 = (r2, s', t2) /\ t = t1 ++ t2 /\
    (forall a, r = inr a -> r1 = inr a).
Proof.
  unfold finally. destruct (m s) as [[r1 s1] t1].
  destruct (f s1) as [[r2 s2] t2] eqn:Ef. intros E.
  exists r1, s1, t1, r2, t2.
  destruct r2 as [e|u]; injection E as Er Es Et; subst s2 t;
    repeat split; auto; intros a Ea; congruence.
Qed.

(** ** Confinement of the page loop *)

Lemma confined_ret {A} P (a : A) : confined P (@ret W A a).
Proof. intros s r s' t E. inversion E; subst. auto. Qed.

Lemma confined_bind {A B} P (m : @M W A) (f : A -> @M W B) :
  confined P m -> (forall a, confined P (f a)) -> confined P (bind m f).
Proof.
  intros Hm Hf s r s' t E. apply bind_inv in E.
  destruct E as [(e & -> & E) | (a & s1 & t1 & t2 & E1 & E2 & ->)].
  - eapply Hm; eauto.
  - apply Hm in E1. apply Hf in E2. destruct E1, E2. split.
    + congruence.
    + apply Forall_app; auto.
Qed.

Lemma confined_catch {A} P (m : @M W A) (h : Exn -> @M W A) :
  confined P m -> (forall e, confined P (h e)) -> confined P (catch m h).
Proof.
  intros Hm Hh s r s' t E. apply catch_inv in E.
  destruct E as [(a & -> & E) | (e & s1 & t1 & t2 & E1 & E2 & ->)].
  - eapply Hm; eauto.
  - apply Hm in E1. apply Hh in E2. destruct E1, E2. split.
    + congruence.
    + apply Forall_app; auto.
Qed.

Lemma confined_call {A} P c (op : W -> (Exn + A) * W) :
  P c = true -> confined P (call c op).
Proof.
  intros Pc s r s' t. unfold call. destruct (op (world s)) as [r1 w1].
  intros E. inversion E; subst. simpl. auto.
Qed.

Lemma confined_invoke P c : P c = true -> confined P (invoke H c).
Proof. apply confined_call. Qed.

Lemma confined_isFirstPage img : confined page_call (isFirstPage H img).
Proof.
  unfold isFirstPage.
  apply confined_catch; [|intros; apply confined_ret].
  apply confined_catch; [|intros; apply confined_ret].
  apply confined_bind; [apply confined_call; reflexivity|].
  intros text. apply confined_ret.
Qed.

Lemma confined_clickNext h : confined page_call (clickNext H h).
Proof.
  unfold clickNext. apply confined_catch; [|intros; apply confined_ret].
  destruct h; apply confined_invoke; reflexivity.
Qed.

Lemma confined_saveDebug : confined page_call (saveDebug H).
Proof.
  unfold saveDebug. apply confined_bind; [apply confined_call; reflexivity|].
  intros present. apply confined_bind.
  - destruct present; [apply confined_ret | apply confined_invoke; reflexivity].
  - intros _. apply confined_invoke; reflexivity.
Qed.

Lemma confined_iteration fic h i shots :
  confined page_call (iteration H fic h i shots).
Proof.
  unfold iteration. apply confined_bind; [apply confined_call; reflexivity|].
  intros img. apply confined_bind; [apply confined_isFirstPage|].
  intros verdict. cbv zeta. destruct (negb (coalesce_false verdict)).
  - apply confined_bind; [apply confined_clickNext | intros; apply confined_ret].
  - destruct (truthy img); [|apply confined_ret].
    apply confined_bind.
    + destruct fic; [apply confined_clickNext | apply confined_ret].
    + intros _. apply confined_bind; [apply confined_saveDebug|].
      intros _. apply confined_ret.
Qed.

Lemma confined_loop fic h rounds : forall i shots,
  confined page_call (loop H fic h rounds i shots).
Proof.
  induction rounds as [|k IH]; intros i shots; simpl.
  - apply confined_ret.
  - apply confined_bind; [apply confined_iteration|].
    intros [[|] shots']; [apply IH | apply confined_ret].
Qed.

(** ** The variable [browser] follows the launches *)

Lemma tracks_ret {A} P (a : A) : tracks P (@ret W A a).
Proof. intros s r s' t E. inversion E; subst. simpl. now rewrite orb_false_r. Qed.

Lemma tracks_bind {A B} P (m : @M W A) (f : A -> @M W B) :
  tracks P m -> (forall a, tracks P (f a)) -> tracks P (bind m f).
Proof.
  intros Hm Hf s r s' t E. apply bind_inv in E.
  destruct E as [(e & -> & E) | (a & s1 & t1 & t2 & E1 & E2 & ->)].
  - eapply Hm; eauto.
  - apply Hm in E1. apply Hf in E2. destruct E1 as [B1 F1], E2 as [B2 F2]. split.
    + rewrite launched_app, B2, B1. now rewrite orb_assoc.
    + apply Forall_app; auto.
Qed.

Lemma tracks_catch {A} P (m : @M W A) (h : Exn -> @M W A) :
  tracks P m -> (forall e, tracks P (h e)) -> tracks P (catch m h).
Proof.
  intros Hm Hh s r s' t E. apply catch_inv in E.
  destruct E as [(a & -> & E) | (e & s1 & t1 & t2 & E1 & E2 & ->)].
  - eapply Hm; eauto.
  - apply Hm in E1. apply Hh in E2. destruct E1 as [B1 F1], E2 as [B2 F2]. split.
    + rewrite launched_app, B2, B1. now rewrite orb_assoc.
    + apply Forall_app; auto.
Qed.

Lemma tracks_weaken {A} (P Q : Call -> bool) (m : @M W A) :
  (forall c, P c = true -> Q c = true) -> tracks P m -> tracks Q m.
Proof.
  intros PQ Hm s r s' t E. apply Hm in E. destruct E as [B F]. split; [exact B|].
  eapply Forall_impl; [|exact F]. intros e. apply PQ.
Qed.

Lemma tracks_confined {A} P (m : @M W A) :
  (forall c, P c = true -> is_launch c = false) ->
  confined P m -> tracks P m.
Proof.
  intros HP Hm s r s' t E. apply Hm in E. destruct E as [B F]. split; [|exact F].
  rewrite (launched_none P); [now rewrite orb_false_r | exact HP | exact F].
Qed.

Lemma tracks_setup {A} c (op : W -> (Exn + A) * W) :
  is_launch c = false -> setup_call c = true -> tracks setup_call (call c op).
Proof.
  intros L S s r s' t. unfold call. destruct (op (world s)) as [r1 w1].
  intros E. inversion E; subst. unfold launched. cbn. rewrite L. cbn.
  split; [now rewrite orb_false_r | repeat constructor; exact S].
Qed.

Lemma tracks_get_browser : tracks setup_call (@get_browser W).
Proof. intros s r s' t E. inversion E; subst. simpl. now rewrite orb_false_r. Qed.

(** The two launches, each with the assignment that follows it. *)
Lemma tracks_launch {A} c (k : @M W A) :
  is_launch c = true -> (forall s, exists a, k s = (inr a, s, [])) ->
  tracks setup_call (bind (invoke H c) (fun _ => bind set_browser (fun _ => k))).
Proof.
  intros L K s r s' t. unfold tracks, bind, invoke, call, set_browser, launched.
  assert (C : setup_call c = true) by (destruct c; try discriminate; reflexivity).
  destruct (perform H c (world s)) as [[e|[]] w1]; cbn.
  - intros E. inversion E; subst. cbn. rewrite ?andb_false_r, ?orb_false_r.
    split; [reflexivity|]. repeat constructor. exact C.
  - destruct (K {| world := w1; browser := true |}) as [a ->].
    intros E. inversion E; subst. cbn. rewrite L, ?orb_true_r. cbn.
    split; [reflexivity|]. repeat constructor. exact C.
Qed.

Lemma tracks_configure : tracks setup_call (configure H).
Proof.
  unfold configure. destruct (production H).
  - apply tracks_catch; [|intros; apply tracks_ret].
    apply tracks_bind; [apply tracks_setup; reflexivity | intros; apply tracks_ret].
  - apply tracks_catch.
    + apply tracks_bind; [apply tracks_setup; reflexivity | intros; apply tracks_ret].
    + intros _. apply tracks_catch; [|intros; apply tracks_ret].
      apply tracks_launch; [reflexivity|]. intros s. now exists ConfigEmpty.
Qed.

Lemma tracks_openViewer : tracks setup_call (openViewer H).
Proof.
  unfold openViewer.
  apply tracks_bind; [apply tracks_configure | intros cfg].
  apply tracks_bind; [apply tracks_get_browser | intros b].
  apply tracks_bind.
  { destruct b; simpl; [apply tracks_ret|].
    change (tracks setup_call
              (bind (invoke H (Launch cfg))
                    (fun _ => bind set_browser (fun _ => @ret W unit tt)))).
    apply tracks_launch; [reflexivity|]. intros s. now exists tt. }
  intros _.
  repeat (apply tracks_bind; [apply tracks_setup; reflexivity | intros ?]).
  apply tracks_setup; reflexivity.
Qed.

Lemma tracks_loop fic h rounds i shots :
  tracks page_call (loop H fic h rounds i shots).
Proof.
  apply tracks_confined; [|apply confined_loop].
  intros [] E; try discriminate; auto.
Qed.

Lemma tracks_tryBlock fic : tracks session_call (tryBlock H fic).
Proof.
  unfold tryBlock. apply tracks_bind.
  - apply (tracks_weaken setup_call); [|apply tracks_openViewer].
    intros [] E; try discriminate; reflexivity.
  - intros h. apply tracks_bind.
    + apply (tracks_weaken page_call); [|apply tracks_loop].
      intros [] E; try discriminate; reflexivity.
    + intros shots. apply tracks_ret.
Qed.

Lemma closeBrowser_inv s r s' t :
  closeBrowser H s = (r, s', t) ->
  if browser s then exists ok, t = [(Close, ok)] else t = [].
Proof.
  unfold closeBrowser, bind, get_browser, invoke, call, ret.
  destruct (browser s); cbn.
  - destruct (perform H Close (world s)) as [r1 w1]. intros E.
    exists (outcome r1). now inversion E.
  - intros E. now inversion E.
Qed.

(** C4. Every run in which a launch call returned, whether it ends in a
    found page, in an exhausted loop or in the [catch] branch, makes
    exactly one call of [close], and that call is its last one. *)
Theorem close_on_every_exit fic w r s t :
  run H fic w = (r, s, t) ->
  launched t = true ->
  exists t0 ok, t = t0 ++ [(Close, ok)] /\ count is_close t0 = 0.
Proof.
  unfold run, extractBookScreenshots. intros E L.
  apply finally_inv in E.
  destruct E as (r1 & s1 & t1 & r2 & t2 & E1 & E2 & -> & _).
  assert (T : tracks session_call
                (catch (tryBlock H fic)
                   (fun error => ret {| success := false; screenshots := [];
                                        message := "Error extracting screenshots: " ++ error |}))).
  { apply tracks_catch; [apply tracks_tryBlock | intros; apply tracks_ret]. }
  apply T in E1. destruct E1 as [B F]. simpl in B.
  apply closeBrowser_inv in E2.
  rewrite launched_app in L.
  destruct (browser s1).
  - destruct E2 as [ok ->]. exists t1, ok. split; [reflexivity|].
    apply (count_none is_close session_call); [|exact F].
    intros c. unfold session_call. now rewrite negb_true_iff.
  - subst t2. simpl in L. rewrite orb_false_r in L. congruence.
Qed.

(** X28. Conversely, a run in which no launch call returned never calls
    [close]. *)
Lemma no_close_without_launch fic w r s t :
  run H fic w = (r, s, t) -> launched t = false -> count is_close t = 0.
Proof.
  unfold run, extractBookScreenshots. intros E L.
  apply finally_inv in E.
  destruct E as (r1 & s1 & t1 & r2 & t2 & E1 & E2 & -> & _).
  assert (T : tracks session_call
                (catch (tryBlock H fic)
                   (fun error => ret {| success := false; screenshots := [];
                                        message := "Error extracting screenshots: " ++ error |}))).
  { apply tracks_catch; [apply tracks_tryBlock | intros; apply tracks_ret]. }
  apply T in E1. destruct E1 as [B F]. simpl in B.
  apply closeBrowser_inv in E2.
  rewrite launched_app in L. apply orb_false_iff in L. destruct L as [L1 L2].
  rewrite L1 in B. rewrite B in E2. subst t2. rewrite app_nil_r.
  apply (count_none is_close session_call); [|exact F].
  intros c. unfold session_call. now rewrite negb_true_iff.
Qed.

(** ** One round and the loop *)

Lemma iteration_spec fic h i shots s r s' t :
  iteration H fic h i shots s = (r, s', t) ->
  count is_capture t = 1 /\ count is_classification t <= 1 /\
  match r with
  | inr (Continue, shots') => shots' = shots /\ count is_classification t = 1
  | inr (Break, shots') =>
      count is_classification t = 1 /\
      exists img,
        shots' = shots ++ [ {| index := i; base64Imagee := img |} ] /\
        In (GenerateText (dataUrl img), true) t
  | inl _ => True
  end.
Proof.
  unfold iteration, isFirstPage, clickNext, saveDebug, invoke, bind, catch, call, ret.
  intros E. cbn in E. crack E.
  all: cbn in *; try discriminate.
  all: inversion E; subst; clear E; cbn; repeat split; auto; try lia.
  all: eexists; split; [reflexivity|]; unfold dataUrl; cbn; tauto.
Qed.

Lemma loop_spec fic h rounds : forall i shots s r s' t,
  loop H fic h rounds i shots s = (r, s', t) ->
  count is_classification t <= count is_capture t /\
  count is_capture t <= rounds /\
  forall shots', r = inr shots' ->
    shots' = shots \/
    exists j img,
      shots' = shots ++ [ {| index := j; base64Imagee := img |} ] /\
      i <= j /\ j < i + rounds /\
      count is_classification t = S j - i /\
      In (GenerateText (dataUrl img), true) t.
Proof.
  induction rounds as [|k IH]; intros i shots s r s' t; cbn [loop].
  - intros E. inversion E; subst. cbn [count filter List.length]. repeat split; auto.
    intros shots' E'. inversion E'. now left.
  - intros E. apply bind_inv in E.
    destruct E as [(e & -> & E) | ([[|] shots1] & s1 & t1 & t2 & E1 & E2 & ->)].
    + apply iteration_spec in E. destruct E as (C1 & C2 & _).
      repeat split; try lia. discriminate.
    + apply iteration_spec in E1. destruct E1 as (C1 & C2 & -> & C3).
      apply IH in E2. destruct E2 as (D1 & D2 & D3).
      rewrite !count_app. repeat split; try lia.
      intros shots' E'. destruct (D3 _ E') as [->|(j & img & -> & J1 & J2 & J3 & J4)].
      * now left.
      * right. exists j, img.
        split; [reflexivity|]. split; [lia|]. split; [lia|]. split; [lia|].
        apply in_or_app. now right.
    + apply iteration_spec in E1. destruct E1 as (C1 & C2 & C3 & img & -> & I).
      inversion E2; subst. rewrite app_nil_r. repeat split; try lia.
      intros shots' E'. inversion E'; subst. right. exists i, img.
      split; [reflexivity|]. split; [lia|]. split; [lia|]. split; [lia|].
      exact I.
Qed.

(** The run, cut at the loop. *)
Lemma run_inv fic w r s t :
  run H fic w = (r, s, t) ->
  exists t0 t1 t2,
    t = t0 ++ t1 ++ t2 /\
    Forall (fun e => setup_call (fst e) = true) t0 /\
    Forall (fun e => is_close (fst e) = true) t2 /\
    ((t1 = [] /\
      forall res, r = inr res ->
        success res = false /\ screenshots res = [] /\
        exists e, message res = ("Error extracting screenshots: " ++ e)%string)
     \/
     exists h s0 r1 s1,
       loop H fic h maxAttempts 1 [] s0 = (r1, s1, t1) /\
       forall res, r = inr res ->
         match r1 with
         | inr shots =>
             res = {| success := 0 <? List.length shots; screenshots := shots;
                      message := ("Successfully captured "
                                  ++ show_nat (List.length shots) ++ " screenshots")%string |}
         | inl e =>
             res = {| success := false; screenshots := [];
                      message := ("Error extracting screenshots: " ++ e)%string |}
         end).
Proof.
  unfold run, extractBookScreenshots. intros E.
  apply finally_inv in E.
  destruct E as (r1 & s1 & t1 & r2 & t2 & E1 & E2 & -> & R).
  assert (F2 : Forall (fun e => is_close (fst e) = true) t2).
  { apply closeBrowser_inv in E2. destruct (browser s1).
    - destruct E2 as [ok ->]. repeat constructor.
    - subst. constructor. }
  apply catch_inv in E1.
  destruct E1 as [(res & -> & E1) | (e & s2 & t3 & t4 & E1 & E3 & ->)].
  - unfold tryBlock in E1. apply bind_inv in E1.
    destruct E1 as [(e & Habs & _) | (h & s3 & t3 & t4 & E1 & E3 & ->)]; [discriminate|].
    apply bind_inv in E3.
    destruct E3 as [(e & Habs & _) | (shots & s4 & t5 & t6 & E3 & E4 & ->)]; [discriminate|].
    inversion E4; subst. exists t3, t5, t2.
    rewrite app_nil_r, <- app_assoc. split; [reflexivity|].
    split; [eapply tracks_openViewer; eauto|]. split; [exact F2|].
    right. exists h, s3, (inr shots), s1. split; [exact E3|].
    intros res' Er. apply R in Er. now inversion Er.
  - inversion E3; subst. rewrite app_nil_r.
    unfold tryBlock in E1. apply bind_inv in E1.
    destruct E1 as [(e' & Ee & E1) | (h & s3 & t3' & t4 & E1 & E4 & ->)].
    + inversion Ee; subst e'. exists t3, [], t2. split; [reflexivity|].
      split; [eapply tracks_openViewer; eauto|]. split; [exact F2|].
      left. split; [reflexivity|]. intros res Er. apply R in Er. inversion Er; subst.
      simpl. split; [reflexivity|]. split; [reflexivity|]. now exists e.
    + apply bind_inv in E4.
      destruct E4 as [(e' & Ee & E4) | (shots & s4 & t5 & t6 & E4 & E5 & ->)].
      * inversion Ee; subst e'. exists t3', t4, t2.
        rewrite <- app_assoc. split; [reflexivity|].
        split; [eapply tracks_openViewer; eauto|]. split; [exact F2|].
        right. exists h, s3, (inl e), s1. split; [exact E4|].
        intros res Er. apply R in Er. now inversion Er.
      * inversion E5.
Qed.

(** C5. A run makes at most 15 classification calls: one for each
    screenshot taken, at most 15 screenshots, and when a page is kept
    the number of classification calls is the number of the round that
    found it. *)
Theorem classification_calls_bounded fic w r s t :
  run H fic w = (r, s, t) ->
  count is_classification t <= 15 /\
  count is_classification t <= count is_capture t /\
  count is_capture t <= 15 /\
  forall res shot, r = inr res -> In shot (screenshots res) ->
    count is_classification t = index shot.
Proof.
  intros E. apply run_inv in E.
  destruct E as (t0 & t1 & t2 & -> & F0 & F2 & Hmid).
  assert (Z0 : forall P, (forall c, setup_call c = true -> P c = false) -> count P t0 = 0).
  { intros P HP. now apply (count_none P setup_call). }
  assert (Z2 : forall P, (forall c, is_close c = true -> P c = false) -> count P t2 = 0).
  { intros P HP. now apply (count_none P is_close). }
  rewrite !count_app.
  rewrite (Z0 is_classification), (Z0 is_capture),
          (Z2 is_classification), (Z2 is_capture);
    try (intros []; simpl; congruence).
  destruct Hmid as [[-> Hres] | (h & s0 & r1 & s1 & L & Hres)].
  - cbn. repeat split; try lia. intros res shot Er I.
    destruct (Hres _ Er) as (_ & N & _). rewrite N in I. destruct I.
  - apply loop_spec in L. destruct L as (L1 & L2 & L3).
    unfold maxAttempts in L2. repeat split; try lia.
    intros res shot Er I. specialize (Hres _ Er).
    destruct r1 as [e|shots]; subst res; simpl in I; [destruct I|].
    destruct (L3 _ eq_refl) as [->|(j & img & -> & J1 & J2 & J3 & J4)]; [destruct I|].
    simpl in I. destruct I as [<-|[]]. simpl. lia.
Qed.

(** C10. A result that comes from the [catch] branch, recognised by its
    message, has [success = false] and no screenshots. *)
Theorem error_path_returns_no_screenshots fic w res s t :
  run H fic w = (inr res, s, t) ->
  startsWith "Error extracting screenshots: " (message res) = true ->
  success res = false /\ screenshots res = [].
Proof.
  intros E M. apply run_inv in E.
  destruct E as (t0 & t1 & t2 & -> & F0 & F2 & Hmid).
  destruct Hmid as [[-> Hres] | (h & s0 & r1 & s1 & L & Hres)].
  - destruct (Hres _ eq_refl) as (S & N & _). auto.
  - specialize (Hres _ eq_refl). destruct r1 as [e|shots]; subst res; auto.
    simpl in M. discriminate.
Qed.

(** ** A classifier that throws and one that answers "no" *)



















(** The wrapper itself never throws, and answers [undefined] when the
    model call does. *)
Lemma isFirstPage_never_throws img s :
  exists v s' t, isFirstPage H img s = (inr v, s', t).
Proof.
  unfold isFirstPage, bind, catch, call, ret.
  destruct (generateText H _ (world s)) as [[e|text] w1]; cbn; eauto.
Qed.

Lemma isFirstPage_undefined img s e w1 :
  generateText H (dataUrl img) (world s) = (inl e, w1) ->
  isFirstPage H img s =
    (inr None, {| world := w1; browser := browser s |},
     [(GenerateText (dataUrl img), false)]).
Proof.
  unfold isFirstPage, bind, catch, call, ret, dataUrl. intros ->. reflexivity.
Qed.

(** A round in which the classifier answers "not yet" and the click
    throws ends in [Continue], with the screenshots it was given. *)
Lemma failed_click_round fic handle i shots s img w1 text w2 e w3 :
  capture H (world s) = (inr img, w1) ->
  generateText H (dataUrl img) w1 = (inr text, w2) ->
  includes (toLowerCase (trim text)) "yes" = false ->
  perform H (clickCall handle) w2 = (inl e, w3) ->
  iteration H fic handle i shots s =
    (inr (Continue, shots), {| world := w3; browser := browser s |},
     [(TakeScreenshot, true); (GenerateText (dataUrl img), true);
      (clickCall handle, false)]).
Proof.
  intros C G N P.
  unfold iteration, isFirstPage, clickNext, invoke, bind, catch, call, ret, dataUrl in *.
  cbn in G. rewrite C. cbn. rewrite G. cbn. rewrite N. cbn.
  destruct handle; cbn in *; rewrite P; reflexivity.
Qed.

(** C3, as the code has it.  When the classifier answers "not yet" and
    the click throws, the loop goes on: the rounds that are left run
    from the state the failed click left, with the same screenshots. *)
Theorem failed_click_goes_on fic handle k i shots s img w1 text w2 e w3 :
  capture H (world s) = (inr img, w1) ->
  generateText H (dataUrl img) w1 = (inr text, w2) ->
  includes (toLowerCase (trim text)) "yes" = false ->
  perform H (clickCall handle) w2 = (inl e, w3) ->
  loop H fic handle (S k) i shots s =
    let '(r, s', t) :=
      loop H fic handle k (S i) shots {| world := w3; browser := browser s |} in
    (r, s',
     [(TakeScreenshot, true); (GenerateText (dataUrl img), true);
      (clickCall handle, false)] ++ t).
Proof.
  intros C G N P. cbn [loop]. unfold bind at 1.
  rewrite (failed_click_round fic handle i shots s img w1 text w2 e w3 C G N P).
  destruct (loop H fic handle k (S i) shots _) as [[r s'] t]. reflexivity.
Qed.

(** The viewer never lets the page be turned and the classifier never
    affirms, whatever the world does otherwise: [Stuck] is a set of
    worlds in which this holds and which such a round does not leave. *)
Section NeverReady.

Variable Stuck : W -> Prop.
Variable handle : bool.

Hypothesis stuck_round : forall w, Stuck w ->
  exists img w1 text w2 e w3,
    capture H w = (inr img, w1) /\
    generateText H (dataUrl img) w1 = (inr text, w2) /\
    includes (toLowerCase (trim text)) "yes" = false /\
    perform H (clickCall handle) w2 = (inl e, w3) /\
    Stuck w3.

(** X30. Then the loop uses up its rounds, trying the click in each of
    them, and returns the screenshots it started with. *)
Lemma never_ready_exhausts fic rounds : forall i shots s,
  Stuck (world s) ->
  exists s' t,
    loop H fic handle rounds i shots s = (inr shots, s', t) /\
    Stuck (world s') /\
    count is_click t = rounds /\
    count is_classification t = rounds /\
    count is_capture t = rounds.
Proof.
  induction rounds as [|k IH]; intros i shots s St0.
  - exists s, []. repeat split; auto.
  - destruct (stuck_round _ St0) as (img & w1 & text & w2 & e & w3 & C & G & N & P & St3).
    cbn [loop]. unfold bind at 1.
    rewrite (failed_click_round fic handle i shots s img w1 text w2 e w3 C G N P).
    destruct (IH (S i) shots {| world := w3; browser := browser s |} St3)
      as (s' & t & L & St' & K1 & K2 & K3).
    rewrite L. exists s'. eexists. split; [reflexivity|]. split; [exact St'|].
    rewrite !count_app, K1, K2, K3. destruct handle; repeat split; reflexivity.
Qed.

End NeverReady.

End ExtractorFacts.

(** ** Runs on concrete previews *)

Section Runs.
Import Js ScreenshotExtractor.

(** X29. In every run that keeps a screenshot, the picture kept is one
    the classifier was asked about and answered. *)
Lemma kept_picture_was_classified (W : Type) (H : Host W) fic w res s t shot :
  run H fic w = (inr res, s, t) ->
  In shot (screenshots res) ->
  In (GenerateText (dataUrl (base64Imagee shot)), true) t.
Proof.
  intros E I. apply run_inv in E.
  destruct E as (t0 & t1 & t2 & -> & F0 & F2 & Hmid).
  destruct Hmid as [[-> Hres] | (h & s0 & r1 & s1 & L & Hres)].
  - destruct (Hres _ eq_refl) as (_ & N & _). rewrite N in I. destruct I.
  - specialize (Hres _ eq_refl). apply loop_spec in L. destruct L as (_ & _ & L3).
    destruct r1 as [e|shots]; subst res; simpl in I; [destruct I|].
    destruct (L3 _ eq_refl) as [->|(j & img & -> & _ & _ & _ & J)]; [destruct I|].
    simpl in I. destruct I as [<-|[]]. simpl.
    apply in_or_app. right. apply in_or_app. now left.
Qed.

(** C1, at a fiction book.  The viewer starts on the title page; the
    second picture is the first content page.  The run turns the page
    once after the classifier's "Yes" and leaves the viewer on page 3,
    but the screenshot it keeps is the one taken before that click, the
    first content page: no screenshot is taken after the click. *)
Theorem fiction_keeps_first_content_page :
  let '(r, s, t) := run threePages true 1 in
  r = inr {| success := true;
             screenshots := [ {| index := 2; base64Imagee := pictures 2 |} ];
             message := "Successfully captured 1 screenshots" |} /\
  world s = 3 /\
  pictures 3 <> pictures 2 /\
  t = [ (GetChromePath, true); (Launch (ConfigPath "/usr/bin/chromium"), true);
        (NewPage, true); (SetViewport, true); (SetUserAgent, true);
        (Goto, true); (WaitForFunction, true);
        (TakeScreenshot, true); (GenerateText (dataUrl (pictures 1)), true);
        (ClickHandle, true);
        (TakeScreenshot, true); (GenerateText (dataUrl (pictures 2)), true);
        (ClickHandle, true);
        (ExistsSync, true); (WriteFileSync, true); (Close, true) ].
Proof. vm_compute. repeat split; try reflexivity; discriminate. Qed.

(** For a book that is not fiction the same picture is kept, and the
    viewer stays on it. *)
Example nonfiction_keeps_first_content_page :
  let '(r, s, t) := run threePages false 1 in
  r = inr {| success := true;
             screenshots := [ {| index := 2; base64Imagee := pictures 2 |} ];
             message := "Successfully captured 1 screenshots" |} /\
  world s = 2 /\ count is_click t = 1.
Proof. vm_compute. repeat split; reflexivity. Qed.

(** C3 as stated fails on a preview that ends on its title page: the
    first round has a "No" and a click that throws, yet the loop does
    not end there with what it has; the click is tried in each of the
    15 rounds. *)
Lemma end_of_preview_click_is_retried :
  let s0 := {| world := 1; browser := true |} in
  capture titleOnly 1 = (inr (pictures 1), 1) /\
  generateText titleOnly (dataUrl (pictures 1)) 1 = (inr "No", 1) /\
  includes (toLowerCase (trim "No")) "yes" = false /\
  perform titleOnly ClickHandle 1
    = (inl "Node is either not clickable or not an Element", 1) /\
  loop titleOnly true true maxAttempts 1 [] s0
    <> (inr [], s0,
        [ (TakeScreenshot, true); (GenerateText (dataUrl (pictures 1)), true);
          (ClickHandle, false) ]) /\
  count is_click (snd (loop titleOnly true true maxAttempts 1 [] s0)) = 15 /\
  count is_classification (snd (run titleOnly true 1)) = 15.
Proof. vm_compute. repeat split; try reflexivity; discriminate. Qed.

(** Nor is the result "not found" whenever a click has thrown: on a
    preview whose control is not ready at first, the second try turns
    the page and the third round finds the content. *)
Example failed_click_then_found :
  let '(r, s, t) := run (sluggish pictures (recognises (pictures 2))) false 0 in
  r = inr {| success := true;
             screenshots := [ {| index := 3; base64Imagee := pictures 2 |} ];
             message := "Successfully captured 1 screenshots" |} /\
  firstn 3 (skipn 7 t)
  = [ (TakeScreenshot, true); (GenerateText (dataUrl (pictures 1)), true);
      (ClickHandle, false) ].
Proof. vm_compute. split; reflexivity. Qed.

Lemma failed_click_goes_on_witness :
  let s0 := {| world := 1; browser := true |} in
  capture titleOnly (world s0) = (inr (pictures 1), 1) /\
  generateText titleOnly (dataUrl (pictures 1)) 1 = (inr "No", 1) /\
  includes (toLowerCase (trim "No")) "yes" = false /\
  perform titleOnly (clickCall true) 1
    = (inl "Node is either not clickable or not an Element", 1) /\
  loop titleOnly true true 15 1 [] s0 =
    let '(r, s', t) :=
      loop titleOnly true true 14 2 [] {| world := 1; browser := browser s0 |} in
    (r, s',
     [(TakeScreenshot, true); (GenerateText (dataUrl (pictures 1)), true);
      (clickCall true, false)] ++ t).
Proof.
  cbv zeta. do 4 (split; [reflexivity|]).
  apply (failed_click_goes_on titleOnly true true 14 1 []
           {| world := 1; browser := true |} (pictures 1) 1 "No" 1
           "Node is either not clickable or not an Element" 1);
    reflexivity.
Defined.

(** The three ways out: a found page, an exhausted loop, a navigation
    fault. *)
Lemma close_on_every_exit_witness :
  (launched (snd (run threePages true 1)) = true /\
   exists t0 ok, snd (run threePages true 1) = t0 ++ [(Close, ok)]
                 /\ count is_close t0 = 0) /\
  (launched (snd (run titleOnly true 1)) = true /\
   exists t0 ok, snd (run titleOnly true 1) = t0 ++ [(Close, ok)]
                 /\ count is_close t0 = 0) /\
  (launched (snd (run (unreachable threePages) true 1)) = true /\
   exists t0 ok, snd (run (unreachable threePages) true 1) = t0 ++ [(Close, ok)]
                 /\ count is_close t0 = 0).
Proof.
  split; [|split]; (split; [reflexivity|]).
  - apply (close_on_every_exit threePages true 1
             (fst (fst (run threePages true 1))) (snd (fst (run threePages true 1))));
      reflexivity.
  - apply (close_on_every_exit titleOnly true 1
             (fst (fst (run titleOnly true 1))) (snd (fst (run titleOnly true 1))));
      reflexivity.
  - apply (close_on_every_exit (unreachable threePages) true 1
             (fst (fst (run (unreachable threePages) true 1)))
             (snd (fst (run (unreachable threePages) true 1))));
      reflexivity.
Defined.

Example exits_of_the_three_runs :
  success_of (run threePages true 1) = Some true /\
  message_of (run titleOnly true 1) = Some "Successfully captured 0 screenshots" /\
  message_of (run (unreachable threePages) true 1)
  = Some "Error extracting screenshots: Navigation timeout of 30000 ms exceeded".
Proof. vm_compute. repeat split; reflexivity. Qed.

Lemma classification_calls_bounded_witness :
  let X := run threePages true 1 in
  X = (fst (fst X), snd (fst X), snd X) /\
  count is_classification (snd X) <= 15 /\
  count is_classification (snd X) <= count is_capture (snd X) /\
  count is_capture (snd X) <= 15 /\
  forall res shot, fst (fst X) = inr res -> In shot (screenshots res) ->
    count is_classification (snd X) = index shot.
Proof.
  cbv zeta. split; [reflexivity|].
  apply (classification_calls_bounded threePages true 1
           (fst (fst (run threePages true 1))) (snd (fst (run threePages true 1)))).
  reflexivity.
Defined.

(** The ceiling is reached when no page is ever affirmed, and the
    found round is counted when one is. *)
Example classification_counts :
  count is_classification (snd (run titleOnly true 1)) = 15 /\
  count is_classification (snd (run threePages true 1)) = 2 /\
  count is_classification (snd (run (modelDown threePages) true 1)) = 15.
Proof. vm_compute. repeat split; reflexivity. Qed.

(** The debug file cannot be written after the screenshot was pushed:
    the result comes from the [catch] branch and is empty. *)
Lemma error_path_returns_no_screenshots_witness :
  let X := run (readOnlyDisk threePages) false 1 in
  let res := {| success := false; screenshots := [];
                message := "Error extracting screenshots: EACCES: permission denied" |} in
  X = (inr res, snd (fst X), snd X) /\
  startsWith "Error extracting screenshots: " (message res) = true /\
  In (WriteFileSync, false) (snd X) /\
  success res = false /\ screenshots res = [].
Proof.
  cbv zeta. split; [reflexivity|]. split; [reflexivity|].
  split; [vm_compute; tauto|].
  apply (error_path_returns_no_screenshots (readOnlyDisk threePages) false 1
           {| success := false; screenshots := [];
              message := "Error extracting screenshots: EACCES: permission denied" |}
           (snd (fst (run (readOnlyDisk threePages) false 1)))
           (snd (run (readOnlyDisk threePages) false 1)));
    reflexivity.
Defined.

(** With the model down, every round counts as "not yet": the run is
    the one of a model that says "no" each time. *)
Example model_down_is_fifteen_noes :
  let '(r, s, t) := run (modelDown threePages) true 1 in
  r = inr {| success := false; screenshots := [];
             message := "Successfully captured 0 screenshots" |} /\
  count is_click t = 15 /\ world s = 3.
Proof. vm_compute. repeat split; reflexivity. Qed.

End Runs.

(** ** The fallback text cascade *)

Section CascadeFacts.
Import Js BookInfoService BookProcessor.

Variable src : Sources.
Variable bookInfo : BookInfo.

Lemma slice_from_late {A} (a b : nat) (l : list A) : forall i,
  a <= i -> slice_from i a b l = firstn (b - i) l.
Proof.
  induction l as [|x r IH]; intros i Hi; cbn [slice_from].
  - now rewrite firstn_nil.
  - destruct (Nat.leb_spec a i); [|lia]. cbn [andb].
    destruct (Nat.ltb_spec i b).
    + rewrite IH by lia. replace (b - i) with (S (b - S i)) by lia. reflexivity.
    + rewrite IH by lia. replace (b - S i) with 0 by lia.
      replace (b - i) with 0 by lia. reflexivity.
Qed.

Lemma slice_from_early {A} (a b : nat) (l : list A) : forall i,
  i <= a -> slice_from i a b l = firstn (b - a) (skipn (a - i) l).
Proof.
  induction l as [|x r IH]; intros i Hi; cbn [slice_from].
  - now rewrite skipn_nil, firstn_nil.
  - destruct (Nat.eq_dec i a) as [->|Hne].
    + rewrite Nat.sub_diag. cbn [skipn]. rewrite <- (slice_from_late a b (x :: r) a) by lia.
      reflexivity.
    + destruct (Nat.leb_spec a i); [lia|]. cbn [andb].
      rewrite IH by lia. replace (a - i) with (S (a - S i)) by lia. reflexivity.
Qed.

Lemma slice_window {A} (a n : nat) (l : list A) :
  slice a (a + n) l = firstn n (skipn a l).
Proof.
  unfold slice. rewrite slice_from_early by lia.
  now replace (a + n - a) with n by lia; rewrite Nat.sub_0_r.
Qed.

Lemma floorTenth_div n : floorTenth n = n / 10.
Proof.
  unfold floorTenth, Qfloor, Qmult, inject_Z. cbn [Qnum Qden].
  rewrite Z.mul_1_r. change (Z.pos (1 * 10)) with (Z.of_nat 10).
  rewrite <- Nat2Z.inj_div. apply Nat2Z.id.
Qed.

(** The binary64 product agrees, for every transcript of fewer than
    2000 paragraphs; from 300 paragraphs on the cap of 30 applies. *)
Example floorTenth_is_the_double_floor :
  forallb (fun n => isFloorOf (floorTenth n) (PrimFloat.mul (doubleOfNat n) tenth))
          (seq 0 2000) = true.
Proof. vm_compute. reflexivity. Qed.

Lemma longer_is_truthy w n : (n <? String.length w) = true -> truthy w = true.
Proof. destruct w; cbn; [intros; discriminate | reflexivity]. Qed.

Lemma sapp_nil_r (s : string) : (s ++ "")%string = s.
Proof. induction s as [|c s IH]; cbn; [reflexivity | now rewrite IH]. Qed.

Lemma sapp_assoc (a b c : string) : ((a ++ b) ++ c)%string = (a ++ b ++ c)%string.
Proof. induction a as [|x a IH]; cbn; [reflexivity | now rewrite IH]. Qed.

(** Inside a run of line feeds the code skips what [dropFeeds] drops. *)
Lemma split_run r : forall p,
  split_from r p true = split_from (dropFeeds r) p false.
Proof.
  induction r as [|c r IH]; intros p; [reflexivity|].
  cbn [split_from dropFeeds andb].
  destruct (Ascii.eqb c nl) eqn:Ec; [apply IH|].
  cbn [split_from andb]. now rewrite Ec.
Qed.

(** The code's paragraph in progress is completed by the text before
    the next boundary; the rest is cut from the text after it. *)
Lemma split_uptoBoundary s : forall acc,
  split_from s acc false
  = (acc ++ fst (uptoBoundary s))%string ::
    match snd (uptoBoundary s) with
    | Some r => split_from r "" false
    | None => []
    end.
Proof.
  induction s as [|c r IH]; intros acc.
  - cbn. now rewrite sapp_nil_r.
  - cbn [split_from andb uptoBoundary].
    destruct r as [|d r'].
    + rewrite andb_false_r. cbn. reflexivity.
    + cbn [startsWith]. rewrite andb_true_r, (Ascii.eqb_sym nl d).
      destruct (Ascii.eqb c nl && Ascii.eqb d nl) eqn:B.
      * cbn [fst snd]. rewrite sapp_nil_r. f_equal. apply split_run.
      * rewrite IH.
        destruct (uptoBoundary (String d r')) as [unit rest]. cbn [fst snd].
        now rewrite sapp_assoc.
Qed.

Lemma dropFeeds_length r : String.length (dropFeeds r) <= String.length r.
Proof.
  induction r as [|c r IH]; cbn [dropFeeds]; [lia|].
  destruct (Ascii.eqb c nl); cbn [String.length]; lia.
Qed.

Lemma uptoBoundary_shorter s : forall unit r,
  uptoBoundary s = (unit, Some r) -> String.length r < String.length s.
Proof.
  induction s as [|c s IH]; intros unit r E; [discriminate|].
  cbn [uptoBoundary] in E. destruct s as [|d s']; [discriminate|].
  destruct (Ascii.eqb c nl && Ascii.eqb d nl).
  - pose proof (dropFeeds_length (String d s')) as D.
    remember (dropFeeds (String d s')) as dropped.
    inversion E; subst r. cbn [String.length] in *. lia.
  - destruct (uptoBoundary (String d s')) as [u rest] eqn:U.
    inversion E; subst. specialize (IH _ _ eq_refl). cbn [String.length] in *. lia.
Qed.

Lemma units_split fuel : forall s,
  String.length s <= fuel -> unitsWithin fuel s = split_from s "" false.
Proof.
  induction fuel as [|k IH]; intros s L; rewrite split_uptoBoundary.
  - destruct s; [reflexivity | cbn in L; lia].
  - cbn [unitsWithin].
    destruct (uptoBoundary s) as [unit [r|]] eqn:U; cbn [fst snd]; [|reflexivity].
    apply uptoBoundary_shorter in U. rewrite IH by lia. reflexivity.
Qed.

(** The paragraph units of the specification are the pieces the code
    cuts. *)
Lemma paragraphUnits_split s : paragraphUnits s = splitParagraphs s.
Proof. unfold paragraphUnits, splitParagraphs. now apply units_split. Qed.

(** The text the code slices and joins, over the paragraph units. *)
Lemma archivePage_units fullText isFiction :
  archivePage fullText isFiction
  = join blankLine
      (firstn 10
         (skipn (Nat.min 30 (List.length (paragraphUnits fullText) / 10)
                 + (if isFiction then 5 else 0))
            (paragraphUnits fullText))).
Proof.
  unfold archivePage. rewrite floorTenth_div, paragraphUnits_split.
  set (paragraphs := splitParagraphs fullText).
  set (front := Nat.min 30 (List.length paragraphs / 10)).
  assert (E : (if isFiction then front + 5 else front)
              = front + (if isFiction then 5 else 0)).
  { destruct isFiction; lia. }
  now rewrite E, slice_window.
Qed.

(** C7. The window of the archive method is the one the specification
    describes: the transcript cut into paragraph units at blank-line
    boundaries, a tenth of them skipped, thirty at most, five more for
    fiction, the next ten joined by blank lines, kept exactly when
    longer than 200 characters. *)
Theorem archive_window_as_specified fullText isFiction :
  archiveWindow fullText isFiction = windowSpec fullText isFiction.
Proof.
  unfold archiveWindow, windowSpec.
  rewrite archivePage_units. cbv zeta.
  destruct (200 <? String.length _) eqn:L.
  - now rewrite (longer_is_truthy _ _ L).
  - now rewrite andb_false_r.
Qed.

(** *** The cascade is a waterfall *)

Lemma archiveWindow_truthy fullText isFiction w :
  archiveWindow fullText isFiction = Some w -> truthy w = true.
Proof.
  unfold archiveWindow.
  destruct (truthy (archivePage fullText isFiction)) eqn:T; cbn [andb];
    [|discriminate].
  destruct (200 <? _); [|discriminate]. intros E. inversion E; subst. exact T.
Qed.

Lemma method_skips m st :
  m <> ProviderPageContent -> truthy (previewText st) = true ->
  runMethod m src bookInfo st = st.
Proof.
  intros Hm T. destruct m; try congruence; cbn [runMethod];
    unfold method2, method3, method4; now rewrite T.
Qed.

Lemma method_runs m st :
  truthy (previewText st) = false ->
  extends st (runMethod m src bookInfo start) (runMethod m src bookInfo st).
Proof.
  intros T. unfold extends.
  destruct m; cbn [runMethod];
    unfold method1, method2, method3, method4, ask, found, start;
    cbn [previewText sourceInfo requests truthy negb andb app]; rewrite ?T;
    cbn [negb andb].
  - destruct (volumeDetail src) as [e|v]; [cbn; auto|].
    destruct (viewable v); [|cbn; auto].
    destruct (pageContent src) as [e|[c|]]; cbn; auto.
    + now rewrite <- app_assoc.
    + destruct (truthy c) eqn:Tc; cbn; rewrite ?Tc; rewrite <- app_assoc; auto.
    + now rewrite <- app_assoc.
  - destruct (truthy_opt (isbn bookInfo)); [|cbn; rewrite app_nil_r; auto].
    destruct (openLibrary src) as [e|[ol|]]; cbn; auto.
    destruct (match preview ol with Some p => (p =? "full")%string | None => false end);
      [|cbn; auto].
    destruct (truthy_opt _); [|cbn; auto].
    destruct (archiveText src) as [e|fullText]; cbn; try (rewrite <- app_assoc; auto).
    destruct (archiveWindow fullText (isFiction bookInfo)) as [w|] eqn:Ew; cbn;
      rewrite <- ?app_assoc; [rewrite (archiveWindow_truthy _ _ _ Ew)|]; auto.
  - destruct (truthy_opt (description bookInfo) && openaiKey src);
      [|cbn; rewrite app_nil_r; auto].
    destruct (generatedExcerpt src) as [e|text]; cbn; auto.
    destruct (truthy text) eqn:Tt; auto.
  - destruct (volumeSnippet src) as [e|[sn|]]; cbn; auto.
    destruct (truthy sn); cbn; auto.
    destruct (truthy (cleanSnippet sn)) eqn:Tc; auto.
Qed.

Lemma yields_truthy label t :
  yields label (Some t) = if truthy t then Some (t, label) else None.
Proof. now destruct t. Qed.

Lemma permits_viewable flag : permits flag = viewable flag.
Proof.
  destruct flag as [f|]; [|reflexivity].
  cbn. now rewrite orb_false_r.
Qed.

Lemma window_of_the_code fullText isFiction :
  archiveWindow fullText isFiction = windowSpec fullText isFiction.
Proof.
  unfold archiveWindow, windowSpec.
  rewrite archivePage_units. cbv zeta.
  destruct (200 <? String.length _) eqn:L;
    [rewrite (longer_is_truthy _ _ L) | rewrite andb_false_r]; reflexivity.
Qed.

(** A method of the specification, tried alone, asks and yields what
    the method of the code does on an empty [previewText]. *)
Lemma attempt_runs m :
  attempt src bookInfo m
  = (requests (runMethod m src bookInfo start),
     if truthy (previewText (runMethod m src bookInfo start))
     then Some (previewText (runMethod m src bookInfo start),
                sourceInfo (runMethod m src bookInfo start))
     else None).
Proof.
  destruct m; cbn [attempt runMethod];
    unfold method1, method2, method3, method4, ask, found, start;
    cbn [previewText sourceInfo requests truthy negb andb app].
  - destruct (volumeDetail src) as [e|flag]; cbn [answered]; [reflexivity|].
    rewrite permits_viewable. destruct (viewable flag); [|reflexivity].
    destruct (pageContent src) as [e|[content|]]; cbn [answered];
      [reflexivity| |reflexivity].
    rewrite yields_truthy.
    destruct (truthy content) eqn:T; cbn [previewText sourceInfo requests];
      now rewrite ?T.
  - destruct (isbn bookInfo) as [[|c i]|]; cbn [or_null truthy_opt truthy];
      try reflexivity.
    destruct (openLibrary src) as [e|[entry|]]; cbn [answered archiveItem];
      try reflexivity.
    destruct (preview entry) as [p|]; [|reflexivity].
    destruct (ia entry) as [[|item items]|]; cbn [truthy_opt];
      [destruct (String.eqb p "full"); reflexivity| |destruct (String.eqb p "full"); reflexivity].
    destruct (String.eqb p "full"); cbn [andb]; [|reflexivity].
    destruct item as [|c0 item]; cbn [String.eqb negb truthy]; [reflexivity|].
    destruct (archiveText src) as [e|transcript]; cbn [answered]; [reflexivity|].
    rewrite window_of_the_code.
    destruct (windowSpec transcript (isFiction bookInfo)) as [window|] eqn:Ew;
      cbn [previewText sourceInfo requests]; [|reflexivity].
    rewrite <- window_of_the_code in Ew.
    now rewrite (archiveWindow_truthy _ _ _ Ew).
  - destruct (description bookInfo) as [[|c d]|]; cbn [or_null truthy_opt truthy andb];
      try reflexivity.
    destruct (openaiKey src); [|reflexivity].
    destruct (generatedExcerpt src) as [e|text]; cbn [answered]; [reflexivity|].
    rewrite yields_truthy. cbn [previewText sourceInfo requests].
    now destruct (truthy text).
  - destruct (volumeSnippet src) as [e|[textSnippet|]]; cbn [answered];
      try reflexivity.
    rewrite yields_truthy.
    destruct (truthy textSnippet) eqn:T; cbn [previewText sourceInfo requests].
    + now destruct (truthy (cleanSnippet textSnippet)).
    + destruct textSnippet; [reflexivity|discriminate].
Qed.

Lemma guarded_methods ms : forall st,
  ~ In ProviderPageContent ms ->
  let fin := fold_left (fun st m => runMethod m src bookInfo st) ms st in
  if truthy (previewText st) then fin = st
  else settled st fin (waterfall src bookInfo ms).
Proof.
  induction ms as [|m rest IH]; intros st Hm; cbn [fold_left waterfall].
  - destruct (truthy (previewText st)) eqn:T; [reflexivity|].
    split; cbn; [now rewrite app_nil_r | exact T].
  - assert (Hrest : ~ In ProviderPageContent rest) by (intros I; apply Hm; now right).
    assert (Hne : m <> ProviderPageContent) by (intros ->; apply Hm; now left).
    specialize (IH (runMethod m src bookInfo st) Hrest). cbv zeta in IH.
    destruct (truthy (previewText st)) eqn:T.
    + rewrite (method_skips m st Hne T) in *. now rewrite T in IH.
    + destruct (method_runs m st T) as [R P]. rewrite attempt_runs.
      destruct (truthy (previewText (runMethod m src bookInfo start))) eqn:Ta.
      * destruct P as [P1 P2]. rewrite P1, Ta in IH. rewrite IH.
        split; cbn; auto.
      * rewrite P in IH. destruct IH as [I1 I2].
        destruct (waterfall src bookInfo rest) as [later y]. cbn in *.
        split; [now rewrite I1, R, <- app_assoc | exact I2].
Qed.

(** C6. [fetchBookPreviewText] is the waterfall of the specification
    over its four methods in their order, ending in the templated
    message: same text, same requests in the same order.  A method
    whose provider throws, that is not applicable or that finds nothing
    yields nothing and the next one is tried; after a method that
    yields a text no request is made. *)
Theorem cascade_is_waterfall :
  fetchBookPreviewText src bookInfo = waterfallText src bookInfo.
Proof.
  unfold fetchBookPreviewText, waterfallText, cascade, methodOrder.
  pose proof (guarded_methods [ArchiveFullText; GeneratedExcerpt; BibliographicSnippet]
                (method1 src bookInfo start)) as G.
  cbn [fold_left runMethod] in G.
  assert (Hm : ~ In ProviderPageContent [ArchiveFullText; GeneratedExcerpt; BibliographicSnippet]).
  { cbn. intuition discriminate. }
  specialize (G Hm). cbv zeta in G. clear Hm.
  remember [ArchiveFullText; GeneratedExcerpt; BibliographicSnippet] as rest eqn:Er.
  cbn [waterfall]. rewrite attempt_runs. cbn [runMethod].
  set (st1 := method1 src bookInfo start) in *.
  destruct (truthy (previewText st1)) eqn:T1.
  - rewrite G, T1. reflexivity.
  - destruct G as [G1 G2].
    destruct (waterfall src bookInfo rest) as [later [[text source]|]]; cbn in G1, G2.
    + destruct G2 as (<- & <- & T). rewrite T. cbn [negb]. now rewrite G1.
    + rewrite G2. cbn [negb]. now rewrite G1.
Qed.

(** A method whose provider throws yields nothing. *)
Lemma failing_method_yields_nothing m e1 e2 e3 e4 :
  volumeDetail src = inl e1 ->
  openLibrary src = inl e2 ->
  generatedExcerpt src = inl e3 ->
  volumeSnippet src = inl e4 ->
  snd (attempt src bookInfo m) = None.
Proof.
  intros E1 E2 E3 E4. rewrite attempt_runs. cbn [snd].
  destruct m; cbn [runMethod];
    unfold method1, method2, method3, method4; rewrite ?E1, ?E2, ?E3, ?E4; cbn.
  - reflexivity.
  - destruct (truthy_opt (isbn bookInfo)); reflexivity.
  - destruct (truthy_opt (description bookInfo) && openaiKey src); reflexivity.
  - reflexivity.
Qed.

(** When every provider throws, each applicable method is still tried,
    in order, and the templated message is the result. *)
Lemma errors_fall_through_to_template e1 e2 e3 e4 :
  volumeDetail src = inl e1 ->
  openLibrary src = inl e2 ->
  generatedExcerpt src = inl e3 ->
  volumeSnippet src = inl e4 ->
  fetchBookPreviewText src bookInfo =
  (createFallbackPreviewMessage bookInfo,
   [VolumeDetailRequest]
   ++ (if truthy_opt (isbn bookInfo) then [OpenLibraryRequest] else [])
   ++ (if truthy_opt (description bookInfo) && openaiKey src
       then [ExcerptRequest] else [])
   ++ [SnippetRequest]).
Proof.
  intros E1 E2 E3 E4.
  unfold fetchBookPreviewText, cascade, method1, method2, method3, method4.
  rewrite E1. cbn. rewrite ?E2.
  destruct (truthy_opt (isbn bookInfo)); cbn; rewrite ?E2; cbn;
    destruct (truthy_opt (description bookInfo) && openaiKey src); cbn;
    rewrite ?E3; cbn; rewrite E4; reflexivity.
Qed.

End CascadeFacts.

Section CascadeRuns.
Import Js BookInfoService BookProcessor.

Example paragraphs_of_a_transcript :
  splitParagraphs (join blankLine ["Title"; "Copyright"] ++ line "" ++ blankLine
                   ++ line "Chapter 1" ++ "It was a dark night.")%string
  = ["Title"; "Copyright"; (line "Chapter 1" ++ "It was a dark night.")%string].
Proof. reflexivity. Qed.

(** The provider's page content wins: the archive, the model and the
    snippet are not asked, though each would have answered. *)
Example first_method_wins :
  fetchBookPreviewText everythingAnswers duneInfo
  = (formatBookPageContent duneInfo "A beginning is the time for taking the most delicate care."
       "Google Books API page content",
     [VolumeDetailRequest; PageContentRequest]).
Proof. reflexivity. Qed.

(** With the page content refused, the snippet is reached after the
    archive and the model have been tried. *)
Example snippet_is_last :
  snd (fetchBookPreviewText snippetOnly duneInfo)
  = [VolumeDetailRequest; PageContentRequest; OpenLibraryRequest; ExcerptRequest;
     SnippetRequest] /\
  fst (fetchBookPreviewText snippetOnly duneInfo)
  = formatBookPageContent duneInfo "A beginning is the time" "Google Books snippet".
Proof. split; reflexivity. Qed.

End CascadeRuns.

(** * Further properties *)

(** ** The resolver *)

Section ResolverMore.
Import Js BookInfoService ResolverViews.

Lemma startsWith_app p s : startsWith p (p ++ s)%string = true.
Proof.
  induction p as [|a p IH]; cbn; [reflexivity|].
  now rewrite Ascii.eqb_refl, IH.
Qed.

Lemma includes_prefix_app p s : includes (p ++ s)%string p = true.
Proof.
  destruct p as [|a p]; [destruct s; reflexivity|].
  cbn [append includes]. change (String a (p ++ s)%string) with ((String a p) ++ s)%string.
  now rewrite startsWith_app.
Qed.

Lemma includes_app_l a s p : includes s p = true -> includes (a ++ s)%string p = true.
Proof.
  intros I. induction a as [|c a IH]; cbn [append]; [exact I|].
  cbn [includes]. rewrite IH. apply orb_true_r.
Qed.

Lemma includes_middle a k b : includes (a ++ k ++ b)%string k = true.
Proof. apply includes_app_l, includes_prefix_app. Qed.

Lemma toLowerCase_app a b :
  toLowerCase (a ++ b)%string = (toLowerCase a ++ toLowerCase b)%string.
Proof. induction a as [|c a IH]; cbn; [reflexivity | now rewrite IH]. Qed.

(** X1. A tag list is fiction exactly when each of its two parts is:
    one non-fiction tag anywhere decides, and the order of the tags does
    not matter. *)
Theorem isFictionCategory_app cs ds :
  isFictionCategory (Some (cs ++ ds))
  = isFictionCategory (Some cs) && isFictionCategory (Some ds).
Proof.
  assert (E : forall l, isFictionCategory (Some l) = negb (existsb category_is_nonfiction l)).
  { intros [|c l]; reflexivity. }
  rewrite !E, existsb_app. apply negb_orb.
Qed.

(** X2. A tag that contains a word of the non-fiction vocabulary, in
    any letter case and with any text around it, makes the whole list
    non-fiction. *)
Theorem keyword_anywhere_is_nonfiction cs pre k post :
  In (toLowerCase k) nonFictionKeywords ->
  In (pre ++ k ++ post)%string cs ->
  isFictionCategory (Some cs) = false.
Proof.
  intros K I. apply (tag_with_keyword_is_nonfiction cs (pre ++ k ++ post)%string I).
  unfold category_is_nonfiction. rewrite !toLowerCase_app.
  apply orb_true_iff. left. apply existsb_exists.
  exists (toLowerCase k). split; [exact K | apply includes_middle].
Qed.

Lemma keyword_anywhere_is_nonfiction_witness :
  In (toLowerCase "SCIENCE") nonFictionKeywords /\
  In ("Juvenile " ++ "SCIENCE" ++ " Fiction")%string ["Fiction"; "Juvenile SCIENCE Fiction"] /\
  isFictionCategory (Some ["Fiction"; "Juvenile SCIENCE Fiction"]) = false.
Proof.
  assert (K : In (toLowerCase "SCIENCE") nonFictionKeywords) by (cbn; tauto).
  assert (I : In ("Juvenile " ++ "SCIENCE" ++ " Fiction")%string
                 ["Fiction"; "Juvenile SCIENCE Fiction"]) by (cbn; tauto).
  split; [exact K|]. split; [exact I|].
  exact (keyword_anywhere_is_nonfiction _ "Juvenile " "SCIENCE" " Fiction" K I).
Defined.

Lemma count_signals_hits words desc q :
  (count_signals words desc q == q + inject_Z (Z.of_nat (hits words desc)))%Q.
Proof.
  unfold count_signals, hits. revert q.
  induction words as [|w ws IH]; intros q; cbn [fold_left filter].
  - cbn. unfold inject_Z. ring.
  - destruct (includes desc w); rewrite IH.
    + cbn [List.length]. rewrite Nat2Z.inj_succ, <- Z.add_1_l, inject_Z_plus. ring.
    + reflexivity.
Qed.

Lemma Qle_bool_whole (n f : nat) (b : Q) :
  (0 <= b)%Q -> (b < 1)%Q ->
  Qle_bool (inject_Z (Z.of_nat n)) (inject_Z (Z.of_nat f) + b) = (n <=? f).
Proof.
  intros B0 B1. destruct (Nat.leb_spec n f) as [L|L].
  - apply Qle_bool_iff.
    apply Qle_trans with (inject_Z (Z.of_nat f)).
    + rewrite <- Zle_Qle. lia.
    + rewrite <- (Qplus_0_r (inject_Z (Z.of_nat f))) at 1.
      apply Qplus_le_r. exact B0.
  - apply not_true_is_false. intros E. apply Qle_bool_iff in E.
    assert (Hlt : (inject_Z (Z.of_nat f) + b < inject_Z (Z.of_nat f) + 1)%Q).
    { apply Qplus_lt_r. exact B1. }
    assert (Hn : (inject_Z (Z.of_nat f) + 1 <= inject_Z (Z.of_nat n))%Q).
    { change 1%Q with (inject_Z 1). rewrite <- inject_Z_plus, <- Zle_Qle. lia. }
    apply (Qlt_irrefl (inject_Z (Z.of_nat n))).
    eapply Qle_lt_trans; [exact E|]. eapply Qlt_le_trans; [exact Hlt | exact Hn].
Qed.

(** The two counters, in terms of the whole totals. *)
Lemma signals_totals description title :
  exists b : Q,
    (0 <= b)%Q /\ (b < 1)%Q /\
    (fst (signals description title)
     == inject_Z (Z.of_nat (fictionTotal description)) + b)%Q /\
    (snd (signals description title)
     == inject_Z (Z.of_nat (nonfictionTotal description title)))%Q.
Proof.
  assert (Z0 : (0 <= 0)%Q) by (unfold Qle; cbn; lia).
  assert (Z1 : (0 < 1)%Q) by reflexivity.
  assert (H0 : (0 <= 1 # 2)%Q) by (unfold Qle; cbn; lia).
  assert (H1 : (1 # 2 < 1)%Q) by reflexivity.
  unfold signals, fictionTotal, nonfictionTotal.
  destruct (truthy description); destruct (truthy title); cbn [andb fst snd].
  - destruct (matches_title_pattern _); destruct (split_length " " title <=? 3);
      cbn [fst snd];
      [ exists (1 # 2)%Q | exists 0%Q | exists (1 # 2)%Q | exists 0%Q ];
      (split; [assumption|]); (split; [assumption|]);
      rewrite !count_signals_hits, ?Nat2Z.inj_add, ?inject_Z_plus;
      split; cbn [Z.of_nat Pos.of_succ_nat Pos.succ]; unfold inject_Z; ring.
  - exists 0%Q. split; [assumption|]. split; [assumption|].
    rewrite !count_signals_hits, ?Nat2Z.inj_add, ?inject_Z_plus.
    split; cbn [Z.of_nat]; unfold inject_Z; ring.
  - destruct (matches_title_pattern _); destruct (split_length " " title <=? 3);
      cbn [fst snd];
      [ exists (1 # 2)%Q | exists 0%Q | exists (1 # 2)%Q | exists 0%Q ];
      (split; [assumption|]); (split; [assumption|]);
      split; cbn; unfold inject_Z; ring.
  - exists 0%Q. split; [assumption|]. split; [assumption|].
    split; cbn; unfold inject_Z; ring.
Qed.

(** X3. Without category tags the verdict is fiction exactly when the
    non-fiction total (vocabulary words found in the description, plus
    two for an instructional title) does not exceed the fiction total:
    a tie is fiction, and the half point of a short title never changes
    the verdict. *)
Theorem heuristic_closed_form tags description title :
  tags = None \/ tags = Some [] ->
  improvedFictionDetection tags description title
  = (nonfictionTotal description title <=? fictionTotal description).
Proof.
  intros T.
  assert (E : improvedFictionDetection tags description title
              = let '(f, n) := signals description title in
                if Qgtb f n then true else if Qgtb n f then false else true).
  { destruct T as [-> | ->]; reflexivity. }
  rewrite E. clear E T.
  destruct (signals_totals description title) as (b & B0 & B1 & F & N).
  destruct (signals description title) as [f n]. cbn [fst snd] in F, N.
  assert (V : (if Qgtb f n then true else if Qgtb n f then false else true)
              = Qle_bool n f).
  { unfold Qgtb. destruct (Qle_bool f n) eqn:A; destruct (Qle_bool n f) eqn:B;
      cbn; try reflexivity.
    exfalso. apply not_true_iff_false in A, B. rewrite Qle_bool_iff in A, B.
    destruct (Qlt_le_dec n f) as [L|L]; [apply B, Qlt_le_weak, L | apply A, L]. }
  rewrite V. rewrite <- (Qle_bool_whole _ _ b B0 B1).
  destruct (Qle_bool n f) eqn:A.
  - symmetry. apply Qle_bool_iff. apply Qle_bool_iff in A. now rewrite <- N, <- F.
  - symmetry. apply not_true_iff_false. apply not_true_iff_false in A.
    rewrite Qle_bool_iff in *. intros L. apply A. now rewrite N, F.
Qed.

Lemma heuristic_closed_form_witness :
  (Some (@nil string) = None \/ Some (@nil string) = Some []) /\
  improvedFictionDetection (Some []) "A guide to the stars" "Dune"
  = (nonfictionTotal "A guide to the stars" "Dune" <=? fictionTotal "A guide to the stars").
Proof.
  split; [now right|].
  apply (heuristic_closed_form (Some []) "A guide to the stars" "Dune"). now right.
Defined.

(** The short title alone never makes a book fiction that its
    description calls non-fiction. *)
Example short_title_does_not_tip :
  improvedFictionDetection None "A guide to the stars" "Dune" = false /\
  (fst (signals "A guide to the stars" "Dune") == 1 # 2)%Q /\
  (snd (signals "A guide to the stars" "Dune") == 1)%Q.
Proof. repeat split. Qed.

(** X4. When the exact-ISBN lookup gives a volume, its record is the
    result, with the ISBN that was asked for; what the free-text search
    would answer plays no part. *)
Theorem isbn_hit_is_final P1 P2 d i b :
  or_null (d_isbn d) = Some i ->
  (forall j, get_isbn P2 j = get_isbn P1 j) ->
  fetchBookByISBN P1 i = inr b ->
  fetchBookInfo P1 d = b /\ fetchBookInfo P2 d = b /\ isbn b = Some i.
Proof.
  intros Ei Eq Eb.
  assert (Eb2 : fetchBookByISBN P2 i = inr b).
  { unfold fetchBookByISBN in *. now rewrite Eq. }
  unfold fetchBookInfo. rewrite Ei, Eb, Eb2. repeat split.
  unfold fetchBookByISBN in Eb.
  destruct (get_isbn P1 i) as [e|data]; [discriminate|].
  destruct (first_item data); [|discriminate]. now inversion Eb.
Qed.

Lemma isbn_hit_is_final_witness :
  let b := {| title := Some "How to Solve It"; author := Some "George Polya";
              isFiction := true; isbn := Some "9780691164076";
              description := v_description handbookVolume; previewLink := None;
              id := Some "volume-1"; categories := None |} in
  or_null (d_isbn (handbookGuess (Some "9780691164076"))) = Some "9780691164076" /\
  fetchBookByISBN (catalogue handbookVolume) "9780691164076" = inr b /\
  fetchBookInfo (catalogue handbookVolume) (handbookGuess (Some "9780691164076")) = b /\
  fetchBookInfo {| get_isbn := get_isbn (catalogue handbookVolume);
                   get_query := get_query offline |}
                (handbookGuess (Some "9780691164076")) = b /\
  isbn b = Some "9780691164076".
Proof.
  cbv zeta. split; [reflexivity|]. split; [reflexivity|].
  apply (isbn_hit_is_final (catalogue handbookVolume)
           {| get_isbn := get_isbn (catalogue handbookVolume);
              get_query := get_query offline |}
           (handbookGuess (Some "9780691164076")) "9780691164076");
    reflexivity.
Defined.

Lemma missed_isbn P i : misses (get_isbn P i) -> exists e, fetchBookByISBN P i = inl e.
Proof.
  unfold misses, fetchBookByISBN. destruct (get_isbn P i) as [e|data].
  - intros _. now exists e.
  - intros ->. eexists. reflexivity.
Qed.

Lemma missed_query P q : misses (get_query P q) -> exists e, searchBookAPI P q = inl e.
Proof.
  unfold misses, searchBookAPI. destruct (get_query P q) as [e|data].
  - intros _. now exists e.
  - intros ->. eexists. reflexivity.
Qed.

(** X5. When neither lookup gives a volume (the provider throws or
    answers without items), the result is the record built from the
    guess alone: its title and author or the "Unknown" placeholders,
    its ISBN and no provider field.  Its classification is the one of
    the guess, read by truthiness: a guess without the key gives
    fiction, a guess of [null] gives non-fiction. *)
Theorem total_failure_gives_defaults P d :
  (forall i, misses (get_isbn P i)) ->
  (forall q, misses (get_query P q)) ->
  fetchBookInfo P d = defaults d /\
  title (fetchBookInfo P d) = Some (or_else (d_title d) "Unknown Title") /\
  author (fetchBookInfo P d) = Some (or_else (d_author d) "Unknown Author") /\
  isbn (fetchBookInfo P d) = or_null (d_isbn d) /\
  id (fetchBookInfo P d) = None /\
  description (fetchBookInfo P d) = None /\
  previewLink (fetchBookInfo P d) = None /\
  isFiction (fetchBookInfo P d)
  = match d_isFiction d with
    | Missing => true
    | Null => false
    | Given f => f
    end.
Proof.
  intros Mi Mq.
  assert (E : fetchBookInfo P d = defaults d).
  { assert (S : search_by_title P d = defaults d).
    { unfold search_by_title. destruct (or_null (d_title d)) as [t|]; [|reflexivity].
      match goal with
      | |- context [searchBookAPI P ?q] => destruct (missed_query P q (Mq q)) as [e ->]
      end. reflexivity. }
    unfold fetchBookInfo. destruct (or_null (d_isbn d)) as [i|]; [|exact S].
    destruct (missed_isbn P i (Mi i)) as [e ->]. exact S. }
  rewrite E. repeat split.
Qed.

Lemma total_failure_gives_defaults_witness :
  (forall i, misses (get_isbn offline i)) /\
  (forall q, misses (get_query offline q)) /\
  title (fetchBookInfo offline undecidedGuess) = Some "Dune"%string /\
  author (fetchBookInfo offline undecidedGuess) = Some "Unknown Author"%string /\
  isFiction (fetchBookInfo offline undecidedGuess) = false.
Proof.
  assert (Mi : forall i, misses (get_isbn offline i)) by (intros i; exact I).
  assert (Mq : forall q, misses (get_query offline q)) by (intros q; exact I).
  split; [exact Mi|]. split; [exact Mq|].
  destruct (total_failure_gives_defaults offline undecidedGuess Mi Mq)
    as (_ & T & A & _ & _ & _ & _ & F).
  split; [exact T|]. split; [exact A|]. exact F.
Defined.

Lemma untagged_search P q :
  match searchBookAPI P q, searchBookAPI (untaggedSearch P) q with
  | inr b, inr b' =>
      title b' = title b /\ author b' = author b /\ isbn b' = isbn b /\
      description b' = description b /\ previewLink b' = previewLink b /\
      id b' = id b /\ categories b' = categories b
  | inl e, inl e' => e = e'
  | _, _ => False
  end.
Proof.
  unfold searchBookAPI, untaggedSearch. cbn [get_query].
  destruct (get_query P q) as [e|data]; [reflexivity|].
  unfold first_item, untaggedData. cbn [items].
  destruct (items data) as [[|it l]|]; cbn; try reflexivity.
  repeat split.
Qed.

(** X6. On the free-text path the category tags of the provider play no
    part: the resolver gives the same record when every tag is removed
    from the provider's answers. *)
Theorem title_path_ignores_tags P d :
  (forall i, or_null (d_isbn d) = Some i -> exists e, fetchBookByISBN P i = inl e) ->
  fetchBookInfo (untaggedSearch P) d = fetchBookInfo P d.
Proof.
  intros Hi.
  assert (S : search_by_title (untaggedSearch P) d = search_by_title P d).
  { unfold search_by_title. destruct (or_null (d_title d)) as [t|]; [|reflexivity].
    match goal with
    | |- context [searchBookAPI P ?q] =>
        pose proof (untagged_search P q) as U;
        destruct (searchBookAPI P q) as [e|b];
        destruct (searchBookAPI (untaggedSearch P) q) as [e'|b']
    end; try contradiction; [reflexivity|].
    destruct U as (U1 & U2 & U3 & U4 & U5 & U6 & U7).
    unfold set_isFiction. now rewrite U1, U2, U3, U4, U5, U6, U7. }
  unfold fetchBookInfo. destruct (or_null (d_isbn d)) as [i|]; [|exact S].
  destruct (Hi i eq_refl) as [e E].
  assert (E' : fetchBookByISBN (untaggedSearch P) i = inl e) by exact E.
  rewrite E, E'. exact S.
Qed.

(** A volume tagged as a biography whose description reads like a
    novel is fiction when it is found by its title. *)
Lemma title_path_ignores_tags_witness :
  (forall i, or_null (d_isbn (titleGuess "Long Walk")) = Some i ->
             exists e, fetchBookByISBN (catalogue biographyVolume) i = inl e) /\
  fetchBookInfo (untaggedSearch (catalogue biographyVolume)) (titleGuess "Long Walk")
  = fetchBookInfo (catalogue biographyVolume) (titleGuess "Long Walk") /\
  isFictionCategory (v_categories biographyVolume) = false /\
  isFiction (fetchBookInfo (catalogue biographyVolume) (titleGuess "Long Walk")) = true.
Proof.
  assert (Hi : forall i, or_null (d_isbn (titleGuess "Long Walk")) = Some i ->
                 exists e, fetchBookByISBN (catalogue biographyVolume) i = inl e).
  { intros i E. discriminate E. }
  split; [exact Hi|].
  split; [exact (title_path_ignores_tags (catalogue biographyVolume)
                   (titleGuess "Long Walk") Hi)|].
  split; reflexivity.
Defined.

End ResolverMore.

(** ** The screenshot extractor *)

Section ExtractorMore.
Import Js ScreenshotExtractor Processor.

Context {W : Type}.
Variable H : Host W.

Lemma iteration_more fic h i shots s r s' t :
  iteration H fic h i shots s = (r, s', t) ->
  count is_click t <= 1 /\ count is_capture t = 1 /\ count is_fileWrite t <= 2 /\
  match r with
  | inr (Continue, shots') => shots' = shots /\ count is_fileWrite t = 0
  | inr (Break, shots') =>
      exists img,
        shots' = shots ++ [ {| index := i; base64Imagee := img |} ] /\
        truthy img = true /\
        count is_click t = (if fic then 1 else 0)
  | inl _ => True
  end.
Proof.
  unfold iteration, isFirstPage, clickNext, saveDebug, invoke, bind, catch, call, ret.
  intros E. cbn in E. crack E.
  all: cbn in *; try discriminate.
  all: inversion E; subst; clear E; cbn; repeat split; auto; try lia.
  all: eexists; split; [reflexivity|]; split; [assumption | reflexivity].
Qed.

Lemma loop_more fic h rounds : forall i shots s r s' t,
  loop H fic h rounds i shots s = (r, s', t) ->
  count is_click t <= count is_capture t /\
  count is_fileWrite t <= 2 /\
  forall shots', r = inr shots' ->
    (shots' = shots /\ count is_fileWrite t = 0) \/
    exists j img,
      shots' = shots ++ [ {| index := j; base64Imagee := img |} ] /\
      truthy img = true /\ i <= j /\ j < i + rounds /\
      count is_click t + (if fic then 0 else 1) <= S j - i.
Proof.
  induction rounds as [|k IH]; intros i shots s r s' t; cbn [loop].
  - intros E. inversion E; subst. cbn [count filter List.length].
    repeat split; auto; try lia. intros shots' E'. inversion E'. now left.
  - intros E. apply bind_inv in E.
    destruct E as [(e & -> & E) | ([[|] shots1] & s1 & t1 & t2 & E1 & E2 & ->)].
    + apply iteration_more in E. destruct E as (C1 & C2 & C3 & _).
      repeat split; try lia. discriminate.
    + apply iteration_more in E1. destruct E1 as (C1 & C2 & C3 & -> & C4).
      apply IH in E2. destruct E2 as (D1 & D2 & D3).
      rewrite !count_app. repeat split; try lia.
      intros shots' E'.
      destruct (D3 _ E') as [[-> F]|(j & img & -> & T & J1 & J2 & J3)].
      * left. split; [reflexivity | lia].
      * right. exists j, img.
        split; [reflexivity|]. split; [exact T|]. split; [lia|]. split; [lia|].
        destruct fic; lia.
    + apply iteration_more in E1. destruct E1 as (C1 & C2 & C3 & img & -> & T & C4).
      inversion E2; subst. rewrite app_nil_r. repeat split; try lia.
      intros shots' E'. inversion E'; subst. right. exists i, img.
      split; [reflexivity|]. split; [exact T|]. split; [lia|]. split; [lia|].
      rewrite C4. destruct fic; lia.
Qed.

(** X7. A run that returns keeps at most one screenshot, and [success]
    says whether it kept one; the screenshot kept is not empty and
    carries the number of a round, from 1 to 15. *)
Theorem one_screenshot_at_most fic w res s t :
  run H fic w = (inr res, s, t) ->
  List.length (screenshots res) <= 1 /\
  success res = (List.length (screenshots res) =? 1) /\
  forall shot, In shot (screenshots res) ->
    1 <= index shot /\ index shot <= 15 /\ truthy (base64Imagee shot) = true.
Proof.
  intros E. apply run_inv in E.
  destruct E as (t0 & t1 & t2 & -> & F0 & F2 & Hmid).
  assert (Empty : forall r0 : Result,
            success r0 = false -> screenshots r0 = [] ->
            List.length (screenshots r0) <= 1 /\
            success r0 = (List.length (screenshots r0) =? 1) /\
            forall shot, In shot (screenshots r0) ->
              1 <= index shot /\ index shot <= 15 /\ truthy (base64Imagee shot) = true).
  { intros r0 S N. rewrite S, N. split; [cbn; lia|]. split; [reflexivity|].
    intros shot []. }
  destruct Hmid as [[-> Hres] | (h & s0 & r1 & s1 & L & Hres)].
  - destruct (Hres _ eq_refl) as (S & N & _). now apply Empty.
  - specialize (Hres _ eq_refl). apply loop_more in L. destruct L as (_ & _ & L3).
    destruct r1 as [e|shots]; subst res; [now apply Empty|].
    destruct (L3 _ eq_refl) as [[-> _]|(j & img & -> & T & J1 & J2 & _)];
      [now apply Empty|].
    cbn [screenshots success app List.length]. split; [lia|]. split; [reflexivity|].
    intros shot [<-|[]]. cbn [index base64Imagee]. unfold maxAttempts in J2.
    split; [lia|]. split; [lia | exact T].
Qed.

(** X8. The page is turned at most once per screenshot taken.  When a
    page is kept in round [j], a book that is not fiction has had at
    most [j - 1] clicks, none after the affirmed page, and a fiction
    book at most [j]. *)
Theorem page_turns_bounded fic w r s t :
  run H fic w = (r, s, t) ->
  count is_click t <= count is_capture t /\
  forall res shot, r = inr res -> In shot (screenshots res) ->
    count is_click t + (if fic then 0 else 1) <= index shot.
Proof.
  intros E. apply run_inv in E.
  destruct E as (t0 & t1 & t2 & -> & F0 & F2 & Hmid).
  assert (Z0 : forall P, (forall c, setup_call c = true -> P c = false) -> count P t0 = 0).
  { intros P HP. now apply (count_none P setup_call). }
  assert (Z2 : forall P, (forall c, is_close c = true -> P c = false) -> count P t2 = 0).
  { intros P HP. now apply (count_none P is_close). }
  rewrite !count_app.
  rewrite (Z0 is_click), (Z0 is_capture), (Z2 is_click), (Z2 is_capture);
    try (intros []; simpl; congruence).
  destruct Hmid as [[-> Hres] | (h & s0 & r1 & s1 & L & Hres)].
  - split; [cbn; lia|]. intros res shot Er I.
    destruct (Hres _ Er) as (_ & N & _). rewrite N in I. destruct I.
  - apply loop_more in L. destruct L as (L1 & _ & L3). split; [lia|].
    intros res shot Er I. specialize (Hres _ Er).
    destruct r1 as [e|shots]; subst res; simpl in I; [destruct I|].
    destruct (L3 _ eq_refl) as [[-> _]|(j & img & -> & _ & J1 & J2 & J3)];
      [destruct I|].
    simpl in I. destruct I as [<-|[]]. cbn [index]. lia.
Qed.

(** X9. The run writes to the file system only for a kept page: it
    makes at most two writing calls, the debug directory and the debug
    picture, and none when it ends without a screenshot and without an
    error.  Tests of paths are not writes: the search for a browser
    makes such tests in every run of the development mode. *)
Theorem files_only_for_a_kept_page fic w r s t :
  run H fic w = (r, s, t) ->
  count is_fileWrite t <= 2 /\
  forall res, r = inr res ->
    message res = "Successfully captured 0 screenshots"%string ->
    count is_fileWrite t = 0.
Proof.
  intros E. apply run_inv in E.
  destruct E as (t0 & t1 & t2 & -> & F0 & F2 & Hmid).
  rewrite !count_app.
  rewrite (count_none is_fileWrite setup_call t0), (count_none is_fileWrite is_close t2);
    try assumption; try (intros []; simpl; congruence).
  destruct Hmid as [[-> Hres] | (h & s0 & r1 & s1 & L & Hres)].
  - cbn. split; [lia | reflexivity].
  - apply loop_more in L. destruct L as (_ & L2 & L3). split; [lia|].
    intros res Er M. specialize (Hres _ Er).
    destruct r1 as [e|shots]; subst res; [discriminate M|].
    destruct (L3 _ eq_refl) as [[-> F]|(j & img & -> & _)]; [lia|].
    cbn [message] in M. rewrite length_app in M. cbn in M.
    discriminate M.
Qed.

Lemma openViewer_spec s r s' t :
  openViewer H s = (r, s', t) ->
  browser s = false ->
  countEvents is_launchReturn t <= 1 /\
  existsb is_sessionFault t = negb (outcome r) /\
  browser s' = (0 <? countEvents is_launchReturn t).
Proof.
  unfold openViewer, configure, invoke, bind, catch, call, get_browser, set_browser, ret.
  intros E B. destruct s as [w0 b0]. cbn in B. subst b0. cbn in E. crack E.
  all: cbn in *; try discriminate.
  all: inversion E; subst; clear E; cbn; repeat split; auto; try lia.
  all: destruct r; reflexivity.
Qed.

(** The run, cut after the opening of the viewer. *)
Lemma run_parts fic w r s t :
  run H fic w = (r, s, t) ->
  exists r0 s0 t0 t1 t2,
    openViewer H {| world := w; browser := false |} = (r0, s0, t0) /\
    t = t0 ++ t1 ++ t2 /\
    Forall (fun e => page_call (fst e) = true) t1 /\
    Forall (fun e => is_close (fst e) = true) t2 /\
    (outcome r0 = false -> t1 = [] /\
       forall res, r = inr res ->
         success res = false /\ screenshots res = [] /\
         startsWith "Error extracting screenshots: " (message res) = true) /\
    (outcome r0 = true -> 1 <= count is_capture t1).
Proof.
  unfold run, extractBookScreenshots. intros E.
  apply finally_inv in E.
  destruct E as (r1 & s1 & t1 & r2 & t2 & E1 & E2 & -> & R).
  assert (F2 : Forall (fun e => is_close (fst e) = true) t2).
  { apply closeBrowser_inv in E2. destruct (browser s1).
    - destruct E2 as [ok ->]. repeat constructor.
    - subst. constructor. }
  assert (Hcatch : exists rt st tt0,
            tryBlock H fic {| world := w; browser := false |} = (rt, st, tt0) /\
            t1 = tt0 /\
            forall res, r = inr res ->
              match rt with
              | inr res' => res = res'
              | inl e => res = {| success := false; screenshots := [];
                    message := ("Error extracting screenshots: " ++ e)%string |}
              end).
  { apply catch_inv in E1.
    destruct E1 as [(res & -> & E1) | (e & s2 & t3 & t4 & E1 & E3 & ->)].
    - exists (inr res), s1, t1. repeat split; auto.
      intros res' Er. apply R in Er. now inversion Er.
    - inversion E3; subst. exists (inl e), s1, t3. rewrite app_nil_r.
      repeat split; auto. intros res' Er. apply R in Er. now inversion Er. }
  destruct Hcatch as (rt & st & tt0 & Et & -> & Hres).
  unfold tryBlock in Et. apply bind_inv in Et.
  destruct Et as [(e & -> & Et) | (h & s3 & t3 & t4 & Et & E3 & ->)].
  - exists (inl e), st, tt0, [], t2. split; [exact Et|]. split; [reflexivity|].
    split; [constructor|]. split; [exact F2|]. split; [|discriminate].
    intros _. split; [reflexivity|]. intros res Er. rewrite (Hres _ Er). cbn. auto.
  - exists (inr h), s3, t3, t4, t2. split; [exact Et|].
    split; [now rewrite app_assoc|].
    assert (F4 : Forall (fun e => page_call (fst e) = true) t4
                 /\ 1 <= count is_capture t4).
    { apply bind_inv in E3.
      destruct E3 as [(e & _ & E3) | (shots & s4 & t5 & t6 & E3 & E4 & ->)].
      - split; [eapply confined_loop; eauto|].
        unfold maxAttempts in E3. cbn [loop] in E3. apply bind_inv in E3.
        destruct E3 as [(e' & _ & E3) | (st' & s5 & t7 & t8 & E3 & _ & ->)];
          apply iteration_spec in E3; destruct E3 as (C & _);
          rewrite ?count_app; lia.
      - inversion E4; subst. rewrite app_nil_r.
        split; [eapply confined_loop; eauto|].
        unfold maxAttempts in E3. cbn [loop] in E3. apply bind_inv in E3.
        destruct E3 as [(e' & _ & E3) | (st' & s5 & t7 & t8 & E3 & _ & ->)];
          apply iteration_spec in E3; destruct E3 as (C & _);
          rewrite ?count_app; lia. }
    destruct F4 as [F4 C4]. split; [exact F4|]. split; [exact F2|].
    split; [discriminate | intros _; exact C4].
Qed.

Lemma countEvents_app P t1 t2 :
  countEvents P (t1 ++ t2) = countEvents P t1 + countEvents P t2.
Proof. unfold countEvents. now rewrite filter_app, length_app. Qed.

Lemma countEvents_none (P : Event -> bool) (Q : Call -> bool) t :
  (forall e, Q (fst e) = true -> P e = false) ->
  Forall (fun e => Q (fst e) = true) t -> countEvents P t = 0.
Proof.
  intros PQ F. unfold countEvents. induction F as [|e t Qe _ IH]; cbn; auto.
  now rewrite (PQ _ Qe).
Qed.

Lemma existsb_none (P : Event -> bool) (Q : Call -> bool) t :
  (forall e, Q (fst e) = true -> P e = false) ->
  Forall (fun e => Q (fst e) = true) t -> existsb P t = false.
Proof.
  intros PQ F. induction F as [|e t Qe _ IH]; cbn; auto.
  now rewrite (PQ _ Qe).
Qed.

(** X10. No run holds two browsers: at most one launch call returns. *)
Theorem one_browser_at_most fic w r s t :
  run H fic w = (r, s, t) -> countEvents is_launchReturn t <= 1.
Proof.
  intros E. apply run_parts in E.
  destruct E as (r0 & s0 & t0 & t1 & t2 & E0 & -> & F1 & F2 & _).
  apply openViewer_spec in E0; [|reflexivity]. destruct E0 as (L & _).
  rewrite !countEvents_app.
  rewrite (countEvents_none is_launchReturn page_call t1),
          (countEvents_none is_launchReturn is_close t2); try assumption; try lia.
  - intros [[] ok]; cbn; congruence.
  - intros [[] ok]; cbn; congruence.
Qed.

(** X11. A fault of the session (a launch with a configuration, the new
    page, its set-up, the navigation or the wait for the page-turn
    control throws) ends the run before the loop: no screenshot is
    taken, no page is classified, and the result is the failure of the
    [catch] branch.  Without such a fault the loop is entered. *)
Theorem session_fault_skips_the_loop fic w r s t :
  run H fic w = (r, s, t) ->
  (existsb is_sessionFault t = true ->
     count page_call t = 0 /\
     forall res, r = inr res ->
       success res = false /\ screenshots res = [] /\
       startsWith "Error extracting screenshots: " (message res) = true) /\
  (existsb is_sessionFault t = false -> 1 <= count is_capture t).
Proof.
  intros E. apply run_parts in E.
  destruct E as (r0 & s0 & t0 & t1 & t2 & E0 & -> & F1 & F2 & Hbad & Hgood).
  pose proof E0 as T0. apply tracks_openViewer in T0. destruct T0 as [_ F0].
  apply openViewer_spec in E0; [|reflexivity]. destruct E0 as (_ & Ef & _).
  assert (N1 : existsb is_sessionFault t1 = false).
  { apply (existsb_none is_sessionFault page_call); [|exact F1].
    intros [[] []]; cbn; congruence. }
  assert (N2 : existsb is_sessionFault t2 = false).
  { apply (existsb_none is_sessionFault is_close); [|exact F2].
    intros [[] []]; cbn; congruence. }
  rewrite !existsb_app, Ef, N1, N2, !orb_false_r. split.
  - intros B. apply negb_true_iff in B. destruct (Hbad B) as [-> Hres].
    split; [|exact Hres].
    rewrite !count_app. cbn [count filter List.length app].
    rewrite (count_none page_call setup_call t0); [| |exact F0].
    + rewrite (count_none page_call is_close t2); [reflexivity| |exact F2].
      intros []; cbn; congruence.
    + intros []; cbn; congruence.
  - intros B. apply negb_false_iff in B. rewrite !count_app.
    specialize (Hgood B). lia.
Qed.

End ExtractorMore.

Section ExtractorMoreRuns.
Import Js ScreenshotExtractor Processor.

Lemma one_screenshot_at_most_witness :
  let X := run threePages true 1 in
  let res := {| success := true;
                screenshots := [ {| index := 2; base64Imagee := pictures 2 |} ];
                message := "Successfully captured 1 screenshots" |} in
  X = (inr res, snd (fst X), snd X) /\
  List.length (screenshots res) <= 1 /\
  success res = (List.length (screenshots res) =? 1) /\
  forall shot, In shot (screenshots res) ->
    1 <= index shot /\ index shot <= 15 /\ truthy (base64Imagee shot) = true.
Proof.
  cbv zeta. split; [reflexivity|].
  apply (one_screenshot_at_most threePages true 1 _
           (snd (fst (run threePages true 1))) (snd (run threePages true 1))).
  reflexivity.
Defined.

Lemma page_turns_bounded_witness :
  let X := run threePages false 1 in
  X = (fst (fst X), snd (fst X), snd X) /\
  count is_click (snd X) <= count is_capture (snd X) /\
  forall res shot, fst (fst X) = inr res -> In shot (screenshots res) ->
    count is_click (snd X) + (if false then 0 else 1) <= index shot.
Proof.
  cbv zeta. split; [reflexivity|].
  apply (page_turns_bounded threePages false 1
           (fst (fst (run threePages false 1))) (snd (fst (run threePages false 1)))).
  reflexivity.
Defined.

(** The bounds are met on the three-page preview: one click before the
    page kept in round 2 for a book that is not fiction, two for
    fiction. *)
Example page_turns_on_three_pages :
  count is_click (snd (run threePages false 1)) = 1 /\
  count is_click (snd (run threePages true 1)) = 2.
Proof. vm_compute. split; reflexivity. Qed.

Lemma files_only_for_a_kept_page_witness :
  let X := run titleOnly false 1 in
  let res := {| success := false; screenshots := [];
                message := "Successfully captured 0 screenshots" |} in
  X = (inr res, snd (fst X), snd X) /\
  message res = "Successfully captured 0 screenshots"%string /\
  count is_fileWrite (snd X) <= 2 /\
  count is_fileWrite (snd X) = 0.
Proof.
  cbv zeta.
  assert (E : run titleOnly false 1
              = (inr {| success := false; screenshots := [];
                        message := "Successfully captured 0 screenshots" |},
                 snd (fst (run titleOnly false 1)), snd (run titleOnly false 1)))
    by (vm_compute; reflexivity).
  split; [exact E|]. split; [reflexivity|].
  destruct (files_only_for_a_kept_page titleOnly false 1 _ _ _ E) as [B Z].
  split; [exact B|].
  exact (Z {| success := false; screenshots := [];
              message := "Successfully captured 0 screenshots" |} eq_refl eq_refl).
Defined.

Lemma one_browser_at_most_witness :
  let X := run threePages true 1 in
  X = (fst (fst X), snd (fst X), snd X) /\
  countEvents is_launchReturn (snd X) <= 1.
Proof.
  cbv zeta. split; [reflexivity|].
  apply (one_browser_at_most threePages true 1
           (fst (fst (run threePages true 1))) (snd (fst (run threePages true 1)))).
  reflexivity.
Defined.

Lemma session_fault_skips_the_loop_witness :
  let X := run (unreachable threePages) true 1 in
  let Y := run threePages true 1 in
  X = (fst (fst X), snd (fst X), snd X) /\
  existsb is_sessionFault (snd X) = true /\
  existsb is_sessionFault (snd Y) = false /\
  count page_call (snd X) = 0 /\
  1 <= count is_capture (snd Y).
Proof.
  cbv zeta. split; [reflexivity|]. split; [reflexivity|]. split; [reflexivity|].
  split.
  - apply (session_fault_skips_the_loop (unreachable threePages) true 1
             (fst (fst (run (unreachable threePages) true 1)))
             (snd (fst (run (unreachable threePages) true 1)))
             (snd (run (unreachable threePages) true 1)) eq_refl).
    reflexivity.
  - apply (session_fault_skips_the_loop threePages true 1
             (fst (fst (run threePages true 1))) (snd (fst (run threePages true 1)))
             (snd (run threePages true 1)) eq_refl).
    reflexivity.
Defined.

Lemma no_close_without_launch_witness :
  let X := run (noBrowser threePages) true 1 in
  X = (fst (fst X), snd (fst X), snd X) /\
  launched (snd X) = false /\
  count is_close (snd X) = 0.
Proof.
  cbv zeta. split; [reflexivity|]. split; [reflexivity|].
  apply (no_close_without_launch (noBrowser threePages) true 1
           (fst (fst (run (noBrowser threePages) true 1)))
           (snd (fst (run (noBrowser threePages) true 1))));
    reflexivity.
Defined.

Lemma kept_picture_was_classified_witness :
  let X := run threePages true 1 in
  let shot := {| index := 2; base64Imagee := pictures 2 |} in
  let res := {| success := true; screenshots := [shot];
                message := "Successfully captured 1 screenshots" |} in
  X = (inr res, snd (fst X), snd X) /\
  In shot (screenshots res) /\
  In (GenerateText (dataUrl (base64Imagee shot)), true) (snd X).
Proof.
  cbv zeta. split; [reflexivity|].
  assert (I : In {| index := 2; base64Imagee := pictures 2 |}
                 [ {| index := 2; base64Imagee := pictures 2 |} ]) by (left; reflexivity).
  split; [exact I|].
  exact (kept_picture_was_classified nat threePages true 1 _ _ _ _ eq_refl I).
Defined.

Lemma never_ready_exhausts_witness :
  let s0 := {| world := 1; browser := true |} in
  (forall w, w = 1 ->
     exists img w1 text w2 e w3,
       capture titleOnly w = (inr img, w1) /\
       generateText titleOnly (dataUrl img) w1 = (inr text, w2) /\
       includes (toLowerCase (trim text)) "yes" = false /\
       perform titleOnly (clickCall true) w2 = (inl e, w3) /\
       w3 = 1) /\
  world s0 = 1 /\
  exists s' t,
    loop titleOnly true true 15 1 [] s0 = (inr [], s', t) /\
    world s' = 1 /\
    count is_click t = 15 /\
    count is_classification t = 15 /\
    count is_capture t = 15.
Proof.
  cbv zeta.
  assert (Hs : forall w, w = 1 ->
     exists img w1 text w2 e w3,
       capture titleOnly w = (inr img, w1) /\
       generateText titleOnly (dataUrl img) w1 = (inr text, w2) /\
       includes (toLowerCase (trim text)) "yes" = false /\
       perform titleOnly (clickCall true) w2 = (inl e, w3) /\
       w3 = 1).
  { intros w ->.
    exists (pictures 1), 1, "No"%string, 1,
      "Node is either not clickable or not an Element"%string, 1.
    repeat split; reflexivity. }
  split; [exact Hs|]. split; [reflexivity|].
  exact (never_ready_exhausts titleOnly (fun w => w = 1) true Hs true 15 1 []
           {| world := 1; browser := true |} eq_refl).
Defined.

End ExtractorMoreRuns.

(** ** The processor *)

Section ProcessorFacts.
Import Js BookInfoService ScreenshotExtractor Processor.

Context {W : Type}.
Variable H : Host W.
Variable keyConfigured : bool.
Variable P : Provider.
Variable parseDetails : string -> Exn + BookDetails.

Lemma hasInk_app a b : hasInk (a ++ b)%string = hasInk a || hasInk b.
Proof.
  induction a as [|c a IH]; cbn; [reflexivity|]. now rewrite IH, orb_assoc.
Qed.

Lemma truthy_trimStart s : truthy (trimStart s) = hasInk s.
Proof.
  induction s as [|c r IH]; cbn; [reflexivity|].
  destruct (is_space c); cbn; [exact IH | reflexivity].
Qed.

Lemma hasInk_trimStart s : hasInk (trimStart s) = hasInk s.
Proof.
  induction s as [|c r IH]; cbn; [reflexivity|].
  destruct (is_space c) eqn:E; cbn; [exact IH | now rewrite E].
Qed.

Lemma truthy_trimEnd s : truthy (trimEnd s) = hasInk s.
Proof.
  induction s as [|c r IH]; cbn; [reflexivity|].
  destruct (trimEnd r) eqn:E; cbn in *.
  - rewrite <- IH, orb_false_r. now destruct (is_space c).
  - rewrite <- IH. now rewrite orb_true_r.
Qed.

(** A trimmed string is empty exactly when the string is white space
    only. *)
Lemma truthy_trim s : truthy (trim s) = hasInk s.
Proof. unfold trim. now rewrite truthy_trimEnd, hasInk_trimStart. Qed.

Lemma hasInk_block i text : hasInk (screenshotBlock i text) = true.
Proof. reflexivity. Qed.

Lemma asked_model img ok t : asked ((GenerateText img, ok) :: t) = img :: asked t.
Proof. reflexivity. Qed.

Lemma count_model img ok t :
  count is_modelCall ((GenerateText img, ok) :: t) = S (count is_modelCall t).
Proof. reflexivity. Qed.

Lemma analyzeFrom_spec shots : forall i acc s r s' t,
  analyzeFrom H i shots acc s = (r, s', t) ->
  exists acc',
    r = inr acc' /\
    browser s' = browser s /\
    asked t = map pictureOf shots /\
    count is_modelCall t = List.length shots /\
    List.length t = List.length shots /\
    hasInk acc' = hasInk acc || existsb returned t.
Proof.
  induction shots as [|shot rest IH]; intros i acc s r s' t; cbn [analyzeFrom].
  - intros E. inversion E; subst. exists acc. cbn. now rewrite orb_false_r.
  - intros E. apply bind_inv in E.
    destruct E as [(e & -> & E) | (acc1 & s1 & t1 & t2 & E1 & E2 & ->)].
    + exfalso. revert E. unfold catch, bind, call, ret.
      destruct (generateText H _ (world s)) as [[e'|text] w1]; cbn; discriminate.
    + apply IH in E2. destruct E2 as (acc' & -> & B & A & C & L & K).
      assert (E1' : exists ok w1,
                 t1 = [(GenerateText (pictureOf shot), ok)] /\
                 s1 = {| world := w1; browser := browser s |} /\
                 hasInk acc1 = hasInk acc || ok).
      { revert E1. unfold catch, bind, call, ret, pictureOf.
        destruct (generateText H _ (world s)) as [[e'|text] w1]; cbn;
          intros E1; inversion E1; subst.
        - exists false, w1. now rewrite orb_false_r.
        - exists true, w1. rewrite hasInk_app, hasInk_block.
          now rewrite orb_true_r. }
      destruct E1' as (ok & w1 & -> & -> & K1).
      exists acc'. cbn [app]. rewrite asked_model, count_model, A, C.
      cbn [List.length map existsb returned snd]. rewrite L, K, K1.
      repeat split; auto. now rewrite orb_assoc.
Qed.

Lemma analyze_spec shots b s r s' t :
  analyzeScreenshots H shots b s = (r, s', t) ->
  exists text,
    r = inr text /\
    browser s' = browser s /\
    asked t = map pictureOf shots /\
    count is_modelCall t = List.length shots /\
    List.length t = List.length shots /\
    truthy text = existsb returned t.
Proof.
  unfold analyzeScreenshots. intros E. apply bind_inv in E.
  destruct E as [(e & -> & E) | (acc & s1 & t1 & t2 & E1 & E2 & ->)].
  - apply analyzeFrom_spec in E. destruct E as (acc' & Habs & _). discriminate.
  - apply analyzeFrom_spec in E1.
    destruct E1 as (acc' & Ea & B & A & C & L & K). inversion Ea; subst acc'.
    cbn in K. rewrite truthy_trim, K in E2.
    destruct (existsb returned t1) eqn:X; inversion E2; subst; rewrite app_nil_r.
    + eexists. repeat split; eauto.
    + exists ""%string. repeat split; auto.
Qed.

(** X12. [analyzeScreenshots] never throws and asks the model once for
    each screenshot, in the order of the array, whatever the earlier
    answers were; the text it returns is empty exactly when no call
    returned. *)
Theorem transcription_is_partial shots b s :
  exists text s' t,
    analyzeScreenshots H shots b s = (inr text, s', t) /\
    asked t = map pictureOf shots /\
    List.length t = List.length shots /\
    truthy text = existsb returned t.
Proof.
  destruct (analyzeScreenshots H shots b s) as [[r s'] t] eqn:E.
  destruct (analyze_spec shots b s r s' t E) as (text & -> & _ & A & _ & L & K).
  exists text, s', t. auto.
Qed.

Lemma validate_spec img s r s' t :
  validateBookCover H img s = (r, s', t) ->
  browser s' = browser s /\ count is_modelCall t = 1 /\
  count is_close t = 0 /\
  forall e, r = inl e -> startsWith "Failed to validate book cover: " e = true.
Proof.
  unfold validateBookCover, catch, bind, call, ret, raise.
  destruct (generateText H img (world s)) as [[e|text] w1]; cbn;
    intros E; inversion E; subst; cbn; repeat split; auto.
  - intros e' Ee. now inversion Ee.
  - discriminate.
Qed.

Lemma identify_spec img s r s' t :
  identifyBook H parseDetails img s = (r, s', t) ->
  browser s' = browser s /\ count is_modelCall t = 1 /\
  count is_close t = 0 /\
  forall e, r = inl e ->
    startsWith "Failed to identify the book from the cover: " e = true.
Proof.
  unfold identifyBook, catch, bind, call, ret, raise.
  destruct (generateText H img (world s)) as [[e|text] w1]; cbn.
  - intros E; inversion E; subst; cbn; repeat split; auto.
    intros e' Ee. now inversion Ee.
  - destruct (matchBraces text) as [json|]; [destruct (parseDetails json)|]; cbn;
      intros E; inversion E; subst; cbn; repeat split; auto;
      try discriminate; intros e' Ee; now inversion Ee.
Qed.

(** What a run of the extractor gives its caller. *)
Lemma run_summary fic w r s t :
  run H fic w = (r, s, t) ->
  count is_modelCall t <= 15 /\
  (forall res, r = inr res -> List.length (screenshots res) <= 1) /\
  (forall e, r = inl e -> In (Close, false) t).
Proof.
  intros E. split; [|split].
  - apply run_inv in E.
    destruct E as (t0 & t1 & t2 & -> & F0 & F2 & Hmid).
    rewrite !count_app.
    rewrite (count_none is_modelCall setup_call t0), (count_none is_modelCall is_close t2);
      try assumption; try (intros []; simpl; congruence).
    destruct Hmid as [[-> _] | (h & s0 & r1 & s1 & L & _)]; [cbn; lia|].
    apply loop_spec in L. destruct L as (L1 & L2 & _).
    change (count is_modelCall t1) with (count is_classification t1).
    unfold maxAttempts in L2. lia.
  - intros res ->. apply run_inv in E.
    destruct E as (t0 & t1 & t2 & -> & F0 & F2 & Hmid).
    destruct Hmid as [[-> Hres] | (h & s0 & r1 & s1 & L & Hres)].
    + destruct (Hres _ eq_refl) as (_ & -> & _). cbn. lia.
    + specialize (Hres _ eq_refl). apply loop_more in L. destruct L as (_ & _ & L3).
      destruct r1 as [e|shots]; subst res; [cbn; lia|].
      destruct (L3 _ eq_refl) as [[-> _]|(j & img & -> & _)]; cbn; lia.
  - intros e ->. revert E. unfold run, extractBookScreenshots, finally, catch.
    destruct (tryBlock H fic _) as [[[e1|res] s1] t1]; cbn;
      unfold closeBrowser, bind, get_browser, invoke, call, ret;
      destruct (browser s1); cbn;
      try destruct (perform H Close (world s1)) as [[e2|[]] w2]; cbn;
      intros E; inversion E; subst;
      apply in_or_app; right; try (apply in_or_app; right); now left.
Qed.

(** The stages of a request that got past the two questions about the
    cover. *)
Lemma process_inv img s r s' t :
  processBookCover H keyConfigured P parseDetails img s = (r, s', t) ->
  (r = inl missingKey /\ t = []) \/
  exists rv sv tv,
    validateBookCover H img s = (rv, sv, tv) /\
    ((exists e, rv = inl e /\ r = inl e /\ t = tv) \/
     (rv = inr false /\ r = inr (NotACover notACover) /\ t = tv) \/
     exists ri si ti,
       rv = inr true /\
       identifyBook H parseDetails img sv = (ri, si, ti) /\
       ((exists e, ri = inl e /\ r = inl e /\ t = tv ++ ti) \/
        exists d rx sx tx,
          ri = inr d /\
          run H (isFiction (fetchBookInfo P d)) (world si) = (rx, sx, tx) /\
          ((exists e, rx = inl e /\ r = inl e /\ t = tv ++ ti ++ tx) \/
           exists res text sa ta,
             rx = inr res /\
             (if success res && (0 <? List.length (screenshots res))
              then analyzeScreenshots H (screenshots res) (fetchBookInfo P d)
              else ret "")
               {| world := world sx; browser := browser si |} = (inr text, sa, ta) /\
             r = inr (Page (if truthy text then text
                            else createFallbackPreviewMessage (fetchBookInfo P d))
                           (previewUrl (fetchBookInfo P d)
                              (if isFiction (fetchBookInfo P d) then 2 else 1))
                           (fetchBookInfo P d)
                           (if isFiction (fetchBookInfo P d) then "second" else "first")
                           (List.length (screenshots res))) /\
             t = tv ++ ti ++ tx ++ ta))).
Proof.
  unfold processBookCover. destruct keyConfigured; cbn [negb].
  2: { intros E. inversion E. now left. }
  intros E. right. apply bind_inv in E.
  destruct E as [(e & -> & E) | (v & sv & tv & t2 & Ev & E & ->)].
  { exists (inl e), s', t. split; [exact E|]. left. now exists e. }
  exists (inr v), sv, tv. split; [exact Ev|]. right.
  destruct v; cbn [negb] in E.
  2: { inversion E; subst. left. now rewrite app_nil_r. }
  right. apply bind_inv in E.
  destruct E as [(e & -> & E) | (d & si & ti & t3 & Ei & E & ->)].
  { exists (inl e), s', t2. split; [reflexivity|]. split; [exact E|].
    left. now exists e. }
  exists (inr d), si, ti. split; [reflexivity|]. split; [exact Ei|]. right.
  cbv zeta in E. apply bind_inv in E.
  unfold activation in E.
  destruct (extractBookScreenshots H (isFiction (fetchBookInfo P d))
              {| world := world si; browser := false |}) as [[rx sx] tx] eqn:Ex.
  exists d, rx, sx, tx. split; [reflexivity|]. split; [exact Ex|].
  destruct E as [(e & -> & E) | (res & s4 & t4 & t5 & E4 & E & ->)].
  { inversion E; subst. left. now exists e. }
  inversion E4; subst. right. apply bind_inv in E.
  destruct E as [(e & -> & E) | (text & sa & ta & t6 & Ea & E & ->)].
  { exfalso. destruct (success res && (0 <? List.length (screenshots res))).
    - apply analyze_spec in E. destruct E as (text & Habs & _). discriminate.
    - inversion E. }
  inversion E; subst. exists res, text, s', ta.
  split; [reflexivity|]. split; [exact Ea|]. split; [reflexivity|].
  now rewrite app_nil_r.
Qed.

Lemma fallback_message_truthy b : truthy (createFallbackPreviewMessage b) = true.
Proof.
  unfold createFallbackPreviewMessage.
  destruct (or_null (description b)); destruct (or_null (previewLink b)); reflexivity.
Qed.

Lemma count_tail_stage shots b s r s' t (c : bool) :
  (if c then analyzeScreenshots H shots b else ret "") s = (r, s', t) ->
  count is_modelCall t <= List.length shots.
Proof.
  destruct c.
  - intros E. apply analyze_spec in E. destruct E as (text & _ & _ & _ & C & _). lia.
  - intros E. inversion E. cbn. lia.
Qed.

(** X13. One request asks the model at most 18 times: twice about the
    cover, at most 15 times about pages, at most once for the text.  An
    image the model does not call a cover costs exactly one call and
    nothing else. *)
Theorem request_budget img s r s' t :
  processBookCover H keyConfigured P parseDetails img s = (r, s', t) ->
  count is_modelCall t <= 18 /\
  (forall text, r = inr (NotACover text) -> List.length t = 1 /\ asked t = [img]).
Proof.
  intros E. apply process_inv in E.
  destruct E as [[-> ->] | (rv & sv & tv & Ev & E)].
  { cbn. split; [lia | discriminate]. }
  pose proof (validate_spec _ _ _ _ _ Ev) as (_ & Cv & _).
  destruct E as [(e & -> & -> & ->) | [(-> & -> & ->) | (ri & si & ti & -> & Ei & E)]].
  { split; [lia | discriminate]. }
  { split; [lia|]. intros text _. revert Ev.
    unfold validateBookCover, catch, bind, call, ret, raise.
    destruct (generateText H img (world s)) as [[e|text'] w1]; cbn;
      intros Ev; inversion Ev; subst; now split. }
  pose proof (identify_spec _ _ _ _ _ Ei) as (_ & Ci & _).
  destruct E as [(e & -> & -> & ->) | (d & rx & sx & tx & -> & Ex & E)].
  { rewrite count_app. split; [lia | discriminate]. }
  pose proof (run_summary _ _ _ _ _ Ex) as (Cx & Lx & _).
  destruct E as [(e & -> & -> & ->) | (res & text & sa & ta & -> & Ea & -> & ->)].
  { rewrite !count_app. split; [lia | discriminate]. }
  apply count_tail_stage in Ea. specialize (Lx _ eq_refl).
  rewrite !count_app. split; [lia | discriminate].
Qed.

(** X14. The page a request returns always has a text: the transcription
    when it is not empty, the templated message otherwise.  It reports
    at most one captured screenshot, and with none the text is the
    templated message. *)
Theorem page_always_has_text img s s' t text url b pageType n :
  processBookCover H keyConfigured P parseDetails img s
  = (inr (Page text url b pageType n), s', t) ->
  truthy text = true /\ n <= 1 /\
  (n = 0 -> text = createFallbackPreviewMessage b) /\
  pageType = (if isFiction b then "second" else "first")%string /\
  url = previewUrl b (if isFiction b then 2 else 1).
Proof.
  intros E. apply process_inv in E.
  destruct E as [[Habs _] | (rv & sv & tv & Ev & E)]; [discriminate|].
  destruct E as [(e & _ & Habs & _) | [(_ & Habs & _) | (ri & si & ti & -> & Ei & E)]];
    try discriminate.
  destruct E as [(e & _ & Habs & _) | (d & rx & sx & tx & -> & Ex & E)];
    [discriminate|].
  pose proof (run_summary _ _ _ _ _ Ex) as (_ & Lx & _).
  destruct E as [(e & _ & Habs & _) | (res & text' & sa & ta & -> & Ea & Er & ->)];
    [discriminate|].
  inversion Er; subst. specialize (Lx _ eq_refl).
  split; [|split; [exact Lx|split; [|split; reflexivity]]].
  - destruct (truthy text') eqn:T; [exact T | apply fallback_message_truthy].
  - intros N. rewrite N in Ea. rewrite andb_false_r in Ea. inversion Ea. reflexivity.
Qed.

(** X15. A request throws in four ways only: the key is missing, the
    question whether the image is a cover fails, the reading of the
    cover fails (the model call, the search for an object in its answer
    or the parsing), or closing the browser throws.  Every other
    failure ends in a page. *)
Theorem request_errors img s e s' t :
  processBookCover H keyConfigured P parseDetails img s = (inl e, s', t) ->
  e = missingKey \/
  startsWith "Failed to validate book cover: " e = true \/
  startsWith "Failed to identify the book from the cover: " e = true \/
  In (Close, false) t.
Proof.
  intros E. apply process_inv in E.
  destruct E as [[Er _] | (rv & sv & tv & Ev & E)].
  { left. now inversion Er. }
  pose proof (validate_spec _ _ _ _ _ Ev) as (_ & _ & _ & Fv).
  destruct E as [(e1 & -> & Er & ->) | [(_ & Habs & _) | (ri & si & ti & -> & Ei & E)]];
    try discriminate.
  { inversion Er; subst. right. left. now apply Fv. }
  pose proof (identify_spec _ _ _ _ _ Ei) as (_ & _ & _ & Fi).
  destruct E as [(e1 & -> & Er & ->) | (d & rx & sx & tx & -> & Ex & E)].
  { inversion Er; subst. right. right. left. now apply Fi. }
  pose proof (run_summary _ _ _ _ _ Ex) as (_ & _ & Fx).
  destruct E as [(e1 & -> & Er & ->) | (res & text & sa & ta & _ & _ & Habs & _)];
    [|discriminate].
  inversion Er; subst. right. right. right.
  apply in_or_app. right. apply in_or_app. right. exact (Fx _ eq_refl).
Qed.

End ProcessorFacts.

Section ProcessorRuns.
Import Js BookInfoService ScreenshotExtractor Processor.

(** A whole request on the bench: two questions about the cover, two
    pages classified, the browser closed, one page transcribed. *)
Example request_on_the_bench :
  let '(r, s, t) :=
    processBookCover (bench 3) true (catalogue duneVolume) benchParse coverPicture
      benchStart in
  r = inr (Page ("# Dune by Frank Herbert" ++ blankLine
                 ++ screenshotBlock 0 "In the week before their departure to Arrakis")
                "https://books.google.com/books?id=volume-1&newbks=0&lpg=PP1&pg=PA1&output=embed"
                (fetchBookInfo (catalogue duneVolume) duneGuess)
                "first" 1) /\
  asked t = [ coverPicture; coverPicture;
              dataUrl (pictures 1); dataUrl (pictures 2); dataUrl (pictures 2) ] /\
  count is_close t = 1.
Proof. vm_compute. repeat split; reflexivity. Qed.

Lemma request_budget_witness :
  let start := {| world := {| modelCalls := 2; shown := 1; closed := false |};
                  browser := false |} in
  let X := processBookCover (bench 3) true (catalogue duneVolume) benchParse
             coverPicture start in
  X = (inr (NotACover notACover), snd (fst X), snd X) /\
  count is_modelCall (snd X) <= 18 /\
  List.length (snd X) = 1 /\ asked (snd X) = [coverPicture].
Proof.
  cbv zeta.
  set (start := {| world := {| modelCalls := 2; shown := 1; closed := false |};
                   browser := false |}).
  set (X := processBookCover (bench 3) true (catalogue duneVolume) benchParse
              coverPicture start).
  assert (E : X = (inr (NotACover notACover), snd (fst X), snd X))
    by (vm_compute; reflexivity).
  split; [exact E|].
  destruct (request_budget (bench 3) true (catalogue duneVolume) benchParse
              coverPicture start _ _ _ E) as [B R].
  split; [exact B|]. exact (R notACover eq_refl).
Defined.

Lemma page_always_has_text_witness :
  let X := processBookCover (bench 1) true (catalogue duneVolume) benchParse
             coverPicture benchStart in
  let b := fetchBookInfo (catalogue duneVolume) duneGuess in
  X = (inr (Page (createFallbackPreviewMessage b) (previewUrl b 1) b "first" 0),
       snd (fst X), snd X) /\
  truthy (createFallbackPreviewMessage b) = true /\ 0 <= 1 /\
  count is_modelCall (snd X) = 17.
Proof.
  cbv zeta.
  set (X := processBookCover (bench 1) true (catalogue duneVolume) benchParse
              coverPicture benchStart).
  set (b := fetchBookInfo (catalogue duneVolume) duneGuess).
  assert (E : X = (inr (Page (createFallbackPreviewMessage b) (previewUrl b 1) b
                          "first" 0), snd (fst X), snd X))
    by (vm_compute; reflexivity).
  split; [exact E|].
  destruct (page_always_has_text (bench 1) true (catalogue duneVolume) benchParse
              coverPicture benchStart _ _ _ _ _ _ _ E) as (T & N & _).
  split; [exact T|]. split; [exact N|]. vm_compute. reflexivity.
Defined.

Lemma request_errors_witness :
  let deaf := fun _ : string => @inl Exn BookDetails "Unexpected token" in
  let X := processBookCover (bench 3) true (catalogue duneVolume) deaf
             coverPicture benchStart in
  let e := "Failed to identify the book from the cover: Unexpected token"%string in
  X = (inl e, snd (fst X), snd X) /\
  (e = missingKey \/
   startsWith "Failed to validate book cover: " e = true \/
   startsWith "Failed to identify the book from the cover: " e = true \/
   In (Close, false) (snd X)).
Proof.
  cbv zeta.
  set (deaf := fun _ : string => @inl Exn BookDetails "Unexpected token"%string).
  set (X := processBookCover (bench 3) true (catalogue duneVolume) deaf
              coverPicture benchStart).
  assert (E : X = (inl "Failed to identify the book from the cover: Unexpected token"%string,
                   snd (fst X), snd X))
    by (vm_compute; reflexivity).
  split; [exact E|].
  exact (request_errors (bench 3) true (catalogue duneVolume) deaf
           coverPicture benchStart _ _ _ E).
Defined.

End ProcessorRuns.

(** ** The search for a browser *)

Section ChromePathFacts.
Import Js ChromePath.

Variable m : Machine.

Lemma tryPaths_spec paths r probes :
  tryPaths m paths = (r, probes) ->
  match r with
  | Some p =>
      exists before after,
        paths = before ++ p :: after /\
        existsSync m p = inr true /\
        (forall q, In q before -> existsSync m q <> inr true) /\
        probes = map Exists (before ++ [p])
  | None =>
      (forall q, In q paths -> existsSync m q <> inr true) /\
      probes = map Exists paths
  end.
Proof.
  revert r probes. induction paths as [|p rest IH]; intros r probes E.
  - inversion E; subst. split; [intros q []|reflexivity].
  - cbn [tryPaths] in E.
    destruct (existsSync m p) as [e|[|]] eqn:X.
    2:{ inversion E; subst. exists [], rest.
        split; [reflexivity|]. split; [exact X|]. split; [intros q []|reflexivity]. }
    all: destruct (tryPaths m rest) as [r' probes'] eqn:T;
      inversion E; subst; specialize (IH _ _ eq_refl);
      destruct r as [found|].
    all: try (destruct IH as (before & after & -> & F & N & ->);
              exists (p :: before), after; repeat split; auto;
              intros q [<-|I]; [congruence | now apply N]).
    all: destruct IH as [N ->]; split; [|reflexivity];
      intros q [<-|I]; [congruence | now apply N].
Qed.

Lemma tryWhich_spec names r probes :
  tryWhich m names = (r, probes) ->
  match r with
  | Some p =>
      exists before b after out,
        names = before ++ b :: after /\
        which m b = inr out /\ p = trim out /\ truthy p = true /\
        probes = map Which (before ++ [b])
  | None => probes = map Which names
  end.
Proof.
  revert r probes. induction names as [|b rest IH]; intros r probes E.
  - inversion E; subst. reflexivity.
  - cbn [tryWhich] in E.
    destruct (which m b) as [e|out] eqn:X.
    2: destruct (truthy (trim out)) eqn:T.
    2:{ inversion E; subst. exists [], b, rest, out.
        split; [reflexivity|]. split; [exact X|]. split; [reflexivity|].
        split; [exact T|reflexivity]. }
    all: destruct (tryWhich m rest) as [r' probes'] eqn:T';
      inversion E; subst; specialize (IH _ _ eq_refl);
      destruct r as [found|].
    all: try (destruct IH as (before & b' & after & out' & -> & F & P & N & ->);
              exists (b :: before), b', after, out'; repeat split; auto).
    all: now rewrite IH.
Qed.

Lemma chromePaths_named lad platform q :
  In q (chromePaths lad platform) -> truthy q = true.
Proof.
  unfold chromePaths.
  destruct (String.eqb platform "darwin");
    [|destruct (String.eqb platform "win32");
      [|destruct (String.eqb platform "linux")]];
    cbn [In]; intros I;
    repeat (destruct I as [<-|I]; [try reflexivity|]); try contradiction.
  all: destruct lad as [[|c s]|]; reflexivity.
Qed.

(** X16. The search asks the machine in one fixed order, the paths of
    the platform and then the names given to [which], and stops at the
    first answer: what it asked is a prefix of that plan.  It fails with
    one message only, and then it has asked everything, provided the
    shell could be loaded or the platform is win32, where [which] is
    not consulted. *)
Theorem search_follows_the_plan lad platform r probes :
  getChromePath m lad platform = (r, probes) ->
  (exists rest, plan lad platform = probes ++ rest) /\
  (forall e, r = inl e ->
     e = notFound platform /\
     (shell m = true \/ platform = "win32"%string -> probes = plan lad platform)).
Proof.
  unfold getChromePath, plan. intros E.
  destruct (tryPaths m (chromePaths lad platform)) as [[p|] probes0] eqn:T;
    apply tryPaths_spec in T.
  - destruct T as (before & after & -> & _ & _ & ->).
    inversion E; subst. split; [|discriminate].
    eexists. rewrite !map_app, <- !app_assoc. cbn. reflexivity.
  - destruct T as [_ ->].
    destruct (String.eqb platform "win32") eqn:W; cbn [negb andb] in E.
    { inversion E; subst. split; [exists []; reflexivity|].
      intros e Ee; inversion Ee; subst. split; [reflexivity|].
      intros _. now rewrite app_nil_r. }
    destruct (shell m) eqn:Sh.
    2:{ inversion E; subst. split; [eexists; reflexivity|].
        intros e Ee; inversion Ee; subst. split; [reflexivity|].
        intros [Sh1 | ->]; [discriminate|]. rewrite String.eqb_refl in W. discriminate. }
    destruct (tryWhich m browsers) as [[p|] probes1] eqn:T; apply tryWhich_spec in T.
    + destruct T as (before & b & after & out & -> & _ & _ & _ & ->).
      inversion E; subst. split; [|discriminate].
      eexists. rewrite !map_app, <- !app_assoc. cbn. reflexivity.
    + subst probes1. inversion E; subst. split; [exists []; now rewrite app_nil_r|].
      intros e Ee; inversion Ee; subst. split; reflexivity.
Qed.

(** X17. A path the search returns is never empty and is vouched for
    by the machine: it is the first path of the platform's list that
    exists, or, when none exists and the platform is not win32, the
    trimmed output of [which] for a name of the list. *)
Theorem found_browser_is_vouched lad platform p probes :
  getChromePath m lad platform = (inr p, probes) ->
  truthy p = true /\
  ((exists before after,
      chromePaths lad platform = before ++ p :: after /\
      existsSync m p = inr true /\
      (forall q, In q before -> existsSync m q <> inr true))
   \/
   (platform <> "win32"%string /\
    (forall q, In q (chromePaths lad platform) -> existsSync m q <> inr true) /\
    exists b out, In b browsers /\ which m b = inr out /\ p = trim out)).
Proof.
  unfold getChromePath. intros E.
  destruct (tryPaths m (chromePaths lad platform)) as [[p0|] probes0] eqn:T;
    apply tryPaths_spec in T.
  - destruct T as (before & after & L & X & N & ->).
    inversion E; subst p0 probes. split.
    + apply (chromePaths_named lad platform). rewrite L.
      apply in_or_app. right. now left.
    + left. now exists before, after.
  - destruct T as [N ->].
    destruct (String.eqb platform "win32") eqn:W; cbn [negb andb] in E;
      [discriminate|].
    destruct (shell m); [|discriminate].
    destruct (tryWhich m browsers) as [[p1|] probes1] eqn:T; [|discriminate].
    apply tryWhich_spec in T.
    destruct T as (before & b & after & out & L & X & P & Tr & ->).
    assert (Ep : p1 = p) by now inversion E.
    rewrite Ep in *. clear E Ep. split; [exact Tr|].
    right. split; [|split; [exact N|]].
    + intros ->. rewrite String.eqb_refl in W. discriminate.
    + exists b, out. split; [|now split]. rewrite L.
      apply in_or_app. right. now left.
Qed.

End ChromePathFacts.

Section ChromePathRuns.
Import Js ChromePath.

Lemma search_follows_the_plan_witness :
  let X := getChromePath bsdBox None "freebsd" in
  X = (inr "/usr/local/bin/chrome"%string,
       [Which "google-chrome"; Which "chrome"; Which "chromium"]) /\
  exists rest, plan None "freebsd" = snd X ++ rest.
Proof.
  cbv zeta.
  assert (E : getChromePath bsdBox None "freebsd"
              = (inr "/usr/local/bin/chrome"%string,
                 [Which "google-chrome"; Which "chrome"; Which "chromium"]))
    by (vm_compute; reflexivity).
  split; [exact E|].
  rewrite E. exact (proj1 (search_follows_the_plan bsdBox None "freebsd" _ _ E)).
Defined.

Lemma found_browser_is_vouched_witness :
  let X := getChromePath chromiumBox None "linux" in
  X = (inr "/usr/bin/chromium"%string, snd X) /\
  truthy "/usr/bin/chromium" = true.
Proof.
  cbv zeta.
  assert (E : getChromePath chromiumBox None "linux"
              = (inr "/usr/bin/chromium"%string,
                 snd (getChromePath chromiumBox None "linux")))
    by (vm_compute; reflexivity).
  split; [exact E|].
  exact (proj1 (found_browser_is_vouched chromiumBox None "linux" _ _ E)).
Defined.

(** On win32 a machine without a browser is asked about the seven
    paths and nothing else. *)
Example win32_never_asks_which :
  let bare := {| existsSync := fun _ => inr false;
                 which := fun _ => inr "C:\chrome.exe"%string;
                 shell := true |} in
  fst (getChromePath bare None "win32") = inl (notFound "win32") /\
  List.length (snd (getChromePath bare None "win32")) = 7.
Proof. vm_compute. split; reflexivity. Qed.

End ChromePathRuns.

(** ** The object in the model's answer *)

Section MatchBraces.
Import Js Processor CascadeViews.

Lemma fromFirst_app c pre r :
  lacks c pre = true -> fromFirst c (pre ++ String c r)%string = Some (String c r).
Proof.
  induction pre as [|a pre IH]; cbn.
  - intros _. now rewrite Ascii.eqb_refl.
  - destruct (Ascii.eqb a c); cbn; [discriminate|exact IH].
Qed.

Lemma upToLast_none c s : lacks c s = true -> upToLast c s = None.
Proof.
  induction s as [|a s IH]; cbn; [reflexivity|].
  destruct (Ascii.eqb a c); cbn; [discriminate|].
  intros L. now rewrite IH.
Qed.

Lemma upToLast_app c s post :
  lacks c post = true ->
  upToLast c (s ++ String c post)%string = Some (s ++ String c EmptyString)%string.
Proof.
  intros L. induction s as [|a s IH]; cbn.
  - rewrite (upToLast_none _ _ L). now rewrite Ascii.eqb_refl.
  - now rewrite IH.
Qed.

(** X18. What [identifyBook] hands to the parser is the answer of the
    model from its first opening brace to its last closing brace: the
    words before and after the object are dropped, whatever the object
    contains. *)
Theorem object_is_cut_out pre body post :
  lacks "{" pre = true -> lacks "}" post = true ->
  matchBraces (pre ++ "{" ++ body ++ "}" ++ post)%string
  = Some ("{" ++ body ++ "}")%string.
Proof.
  intros Lpre Lpost. unfold matchBraces.
  change (pre ++ "{" ++ body ++ "}" ++ post)%string
    with (pre ++ String "{" (body ++ String "}" post))%string.
  rewrite (fromFirst_app _ _ _ Lpre).
  change (String "{" (body ++ String "}" post))
    with (String "{" body ++ String "}" post)%string.
  rewrite (upToLast_app _ _ _ Lpost). reflexivity.
Qed.

Lemma object_is_cut_out_witness :
  matchBraces "Here it is: {a: {b: 1}} as asked" = Some "{a: {b: 1}}"%string.
Proof.
  exact (object_is_cut_out "Here it is: " "a: {b: 1}" " as asked" eq_refl eq_refl).
Defined.

End MatchBraces.

(** ** The cascade of the text pipeline *)

Section CascadeMore.
Import Js BookInfoService BookProcessor CascadeViews.

Variable src : Sources.
Variable bookInfo : BookInfo.

Ltac gives l :=
  exists l; split;
  [cbn [requests]; rewrite ?app_nil_r, <- ?app_assoc; reflexivity | auto 8].

(** What each method adds to the requests, with the guards it passed. *)
Lemma method1_asks st :
  exists l,
    requests (method1 src bookInfo st)
    = requests st ++ VolumeDetailRequest :: l /\
    (l = [] \/
     (l = [PageContentRequest] /\
      exists v, volumeDetail src = inr v /\ viewable v = true)).
Proof.
  unfold method1, ask, found. cbn [requests previewText sourceInfo].
  destruct (volumeDetail src) as [e|v]; [gives (@nil Request)|].
  destruct (viewable v) eqn:V; [|gives (@nil Request)].
  exists [PageContentRequest]. split; [|right; eauto].
  destruct (pageContent src) as [e|[c|]]; [| destruct (truthy c) |];
    cbn [requests]; now rewrite <- app_assoc.
Qed.

Lemma method2_asks st :
  exists l,
    requests (method2 src bookInfo st) = requests st ++ l /\
    (l = [] \/
     (truthy_opt (isbn bookInfo) = true /\
      (l = [OpenLibraryRequest] \/
       (l = [OpenLibraryRequest; ArchiveTextRequest] /\
        exists olData iaId rest,
          openLibrary src = inr (Some olData) /\
          preview olData = Some "full"%string /\
          ia olData = Some (iaId :: rest) /\ truthy iaId = true)))).
Proof.
  unfold method2, ask, found. cbn [requests previewText sourceInfo].
  destruct (negb (truthy (previewText st))); cbn [andb];
    [|gives (@nil Request)].
  destruct (truthy_opt (isbn bookInfo)) eqn:I; [|gives (@nil Request)].
  destruct (openLibrary src) as [e|[ol|]] eqn:O;
    try (gives [OpenLibraryRequest]).
  destruct (preview ol) as [p|] eqn:P; [|gives [OpenLibraryRequest]].
  destruct (String.eqb p "full") eqn:F; [|gives [OpenLibraryRequest]].
  apply String.eqb_eq in F. subst p.
  destruct (ia ol) as [[|iaId rest]|] eqn:A; cbn [truthy_opt];
    try (gives [OpenLibraryRequest]).
  destruct (truthy iaId) eqn:T; [|gives [OpenLibraryRequest]].
  exists [OpenLibraryRequest; ArchiveTextRequest]. split.
  - destruct (archiveText src) as [e|fullText];
      [|destruct (archiveWindow fullText (isFiction bookInfo))];
      cbn [requests]; now rewrite <- app_assoc.
  - right. split; [reflexivity|]. right. split; [reflexivity|].
    exists ol, iaId, rest. auto.
Qed.

Lemma method3_asks st :
  exists l,
    requests (method3 src bookInfo st) = requests st ++ l /\
    (l = [] \/
     (l = [ExcerptRequest] /\
      truthy_opt (description bookInfo) = true /\ openaiKey src = true)).
Proof.
  unfold method3, ask, found. cbn [requests previewText sourceInfo].
  destruct (negb (truthy (previewText st))); cbn [andb];
    [|gives (@nil Request)].
  destruct (truthy_opt (description bookInfo)); cbn [andb];
    [|gives (@nil Request)].
  destruct (openaiKey src); [|gives (@nil Request)].
  exists [ExcerptRequest]. split; [|auto].
  destruct (generatedExcerpt src); reflexivity.
Qed.

Lemma method4_asks st :
  exists l,
    requests (method4 src bookInfo st) = requests st ++ l /\
    (l = [] \/ l = [SnippetRequest]).
Proof.
  unfold method4, ask, found. cbn [requests previewText sourceInfo].
  destruct (negb (truthy (previewText st))); [|gives (@nil Request)].
  exists [SnippetRequest]. split; [|auto].
  destruct (volumeSnippet src) as [e|[sn|]]; [|destruct (truthy sn)|]; reflexivity.
Qed.

Lemma requests_of_fetch :
  snd (fetchBookPreviewText src bookInfo) = requests (cascade src bookInfo).
Proof.
  unfold fetchBookPreviewText.
  now destruct (negb (truthy (previewText (cascade src bookInfo)))).
Qed.

Lemma cascade_asks :
  exists l1 l2 l3 l4,
    snd (fetchBookPreviewText src bookInfo)
    = VolumeDetailRequest :: l1 ++ l2 ++ l3 ++ l4 /\
    (l1 = [] \/
     (l1 = [PageContentRequest] /\
      exists v, volumeDetail src = inr v /\ viewable v = true)) /\
    (l2 = [] \/
     (truthy_opt (isbn bookInfo) = true /\
      (l2 = [OpenLibraryRequest] \/
       (l2 = [OpenLibraryRequest; ArchiveTextRequest] /\
        exists olData iaId rest,
          openLibrary src = inr (Some olData) /\
          preview olData = Some "full"%string /\
          ia olData = Some (iaId :: rest) /\ truthy iaId = true)))) /\
    (l3 = [] \/
     (l3 = [ExcerptRequest] /\
      truthy_opt (description bookInfo) = true /\ openaiKey src = true)) /\
    (l4 = [] \/ l4 = [SnippetRequest]).
Proof.
  rewrite requests_of_fetch. unfold cascade.
  destruct (method1_asks start) as (l1 & E1 & H1).
  destruct (method2_asks (method1 src bookInfo start)) as (l2 & E2 & H2).
  destruct (method3_asks (method2 src bookInfo (method1 src bookInfo start)))
    as (l3 & E3 & H3).
  destruct (method4_asks
              (method3 src bookInfo (method2 src bookInfo (method1 src bookInfo start))))
    as (l4 & E4 & H4).
  exists l1, l2, l3, l4. split; [|auto].
  rewrite E4, E3, E2, E1. cbn [requests start app].
  now rewrite <- !app_assoc.
Qed.

Lemma method4_exact st :
  requests (method4 src bookInfo st)
  = requests st ++ (if truthy (previewText st) then [] else [SnippetRequest]).
Proof.
  unfold method4, ask, found.
  destruct (truthy (previewText st)); cbn [negb];
    [now rewrite app_nil_r|].
  destruct (volumeSnippet src) as [e|[sn|]]; [|destruct (truthy sn)|]; reflexivity.
Qed.

(** X19. The requests of the cascade are made in the order of their
    places in the code: detail, page content, catalogue, transcript,
    excerpt, snippet, each place at most once and the detail request
    always first.  The snippet request is made exactly when the first
    three methods leave no text, and it is a second GET of the volume
    the detail request has fetched: the volume is fetched twice in such
    a run and once in any other. *)
Theorem requests_in_cascade_order :
  let asked := snd (fetchBookPreviewText src bookInfo) in
  ascending (map rank asked) = true /\
  (exists rest, asked = VolumeDetailRequest :: rest) /\
  existsb is_snippetRequest asked
  = negb (truthy (previewText
                    (method3 src bookInfo
                       (method2 src bookInfo (method1 src bookInfo start))))) /\
  List.length (filter is_volumeGet asked)
  = (if existsb is_snippetRequest asked then 2 else 1).
Proof.
  cbv zeta. rewrite requests_of_fetch. unfold cascade.
  rewrite method4_exact.
  destruct (method1_asks start) as (l1 & E1 & H1).
  destruct (method2_asks (method1 src bookInfo start)) as (l2 & E2 & H2).
  destruct (method3_asks (method2 src bookInfo (method1 src bookInfo start)))
    as (l3 & E3 & H3).
  rewrite E3, E2, E1. cbn [requests start app].
  destruct (truthy (previewText
                      (method3 src bookInfo
                         (method2 src bookInfo (method1 src bookInfo start)))));
    destruct H1 as [->|[-> _]];
    destruct H2 as [->|[_ [->|[-> _]]]];
    destruct H3 as [->|[-> _]].
  all: cbn; (split; [reflexivity|]); (split; [eexists; reflexivity|]);
    split; reflexivity.
Qed.

(** X20. A request of the cascade is made only behind its guard: the
    page content only when the detail request returned a viewability of
    PARTIAL or ALL_PAGES; the catalogue only for a book with an ISBN;
    the transcript only after the catalogue answered with a fully
    readable entry that names an archive item; the excerpt only for a
    book with a description and with the key set. *)
Theorem requests_are_guarded :
  let asked := snd (fetchBookPreviewText src bookInfo) in
  (In PageContentRequest asked ->
     exists v, volumeDetail src = inr v /\ viewable v = true) /\
  (In OpenLibraryRequest asked -> truthy_opt (isbn bookInfo) = true) /\
  (In ArchiveTextRequest asked ->
     In OpenLibraryRequest asked /\
     exists olData iaId rest,
       openLibrary src = inr (Some olData) /\
       preview olData = Some "full"%string /\
       ia olData = Some (iaId :: rest) /\ truthy iaId = true) /\
  (In ExcerptRequest asked ->
     truthy_opt (description bookInfo) = true /\ openaiKey src = true).
Proof.
  cbv zeta.
  destruct cascade_asks as (l1 & l2 & l3 & l4 & -> & H1 & H2 & H3 & H4).
  destruct H1 as [->|[-> G1]];
    destruct H2 as [->|[G2 [->|[-> G2']]]];
    destruct H3 as [->|[-> G3]];
    destruct H4 as [->| ->]; cbn [app In].
  all: (split; [|split; [|split]]); intros I;
    repeat (destruct I as [I|I]; [try discriminate I|]); try contradiction;
    solve [assumption | split; [cbn; tauto | assumption]].
Qed.

End CascadeMore.

Section CascadeRunsMore.
Import Js BookInfoService BookProcessor CascadeViews.

Lemma requests_are_guarded_witness :
  snd (fetchBookPreviewText shortTranscript duneInfo)
  = [VolumeDetailRequest; PageContentRequest; OpenLibraryRequest;
     ArchiveTextRequest; ExcerptRequest] /\
  (exists v, volumeDetail shortTranscript = inr v /\ viewable v = true) /\
  truthy_opt (isbn duneInfo) = true /\
  (truthy_opt (description duneInfo) = true /\ openaiKey shortTranscript = true).
Proof.
  destruct (requests_are_guarded shortTranscript duneInfo) as (G1 & G2 & _ & G4).
  assert (E : snd (fetchBookPreviewText shortTranscript duneInfo)
              = [VolumeDetailRequest; PageContentRequest; OpenLibraryRequest;
                 ArchiveTextRequest; ExcerptRequest])
    by (vm_compute; reflexivity).
  split; [exact E|].
  rewrite E in G1, G2, G4.
  split; [apply G1; cbn; tauto|].
  split; [apply G2; cbn; tauto|].
  apply G4; cbn; tauto.
Defined.

End CascadeRunsMore.

(** ** Paragraphs and snippets *)

Section TextFacts.
Import Js BookInfoService BookProcessor CascadeViews.

(** A piece without line feed is added to the current paragraph. *)
Lemma split_oneLine p : forall acc rest,
  oneLine p = true ->
  split_from (p ++ rest)%string acc false = split_from rest (acc ++ p)%string false.
Proof.
  induction p as [|c p IH]; intros acc rest L.
  - cbn. now rewrite sapp_nil_r.
  - cbn [oneLine] in L. apply andb_prop in L. destruct L as [Lc Lp].
    apply negb_true_iff in Lc.
    cbn [append split_from andb]. rewrite Lc. cbn [andb].
    rewrite IH by exact Lp. rewrite sapp_assoc. reflexivity.
Qed.

Lemma split_from_fresh c r :
  Ascii.eqb c nl = false ->
  split_from (String c r) "" true = split_from (String c r) "" false.
Proof. intros E. cbn [split_from andb]. now rewrite E. Qed.

Lemma join_cons sep p q qs :
  join sep (p :: q :: qs) = (p ++ sep ++ join sep (q :: qs))%string.
Proof. reflexivity. Qed.

Lemma join_head sep c q qs :
  exists r, join sep (String c q :: qs) = String c r.
Proof. destruct qs; [exists q | eexists]; reflexivity. Qed.

Lemma split_join ps : forall p acc,
  oneLine p = true ->
  forallb (fun q => truthy q && oneLine q) ps = true ->
  split_from (join blankLine (p :: ps)) acc false = (acc ++ p)%string :: ps.
Proof.
  induction ps as [|q qs IH]; intros p acc Lp Lps.
  - cbn [join]. rewrite <- (sapp_nil_r p) at 1.
    rewrite split_oneLine by exact Lp. reflexivity.
  - rewrite join_cons, split_oneLine by exact Lp.
    cbn [forallb] in Lps. apply andb_prop in Lps. destruct Lps as [Lq Lqs].
    apply andb_prop in Lq. destruct Lq as [Tq Lq].
    destruct q as [|c q]; [discriminate|].
    destruct (join_head blankLine c q qs) as [r Er].
    pose proof (IH (String c q) ""%string Lq Lqs) as IHq.
    change ("" ++ String c q)%string with (String c q) in IHq.
    rewrite Er in *.
    change (blankLine ++ String c r)%string with (String nl (String nl (String c r))).
    assert (Lc : Ascii.eqb c nl = false).
    { cbn [oneLine] in Lq. apply andb_prop in Lq. now apply negb_true_iff. }
    cbn [split_from andb startsWith].
    change (Ascii.eqb nl nl) with true. cbn [andb].
    change (split_from r ("" ++ String c "") false)
      with (split_from r (String c "") false).
    f_equal.
    rewrite <- IHq. cbn [split_from andb]. now rewrite Lc.
Qed.

(** X22. Cutting at blank lines undoes joining with blank lines: the
    paragraphs of a text made of non-empty single lines set apart by
    blank lines are these lines. *)
Theorem paragraphs_round_trip ps :
  ps <> [] ->
  forallb (fun p => truthy p && oneLine p) ps = true ->
  splitParagraphs (join blankLine ps) = ps.
Proof.
  intros Hne L. destruct ps as [|p ps]; [congruence|].
  cbn [forallb] in L. apply andb_prop in L. destruct L as [Lp Lps].
  apply andb_prop in Lp. destruct Lp as [_ Lp].
  unfold splitParagraphs. now rewrite split_join.
Qed.

Lemma paragraphs_round_trip_witness :
  splitParagraphs (join blankLine ["Dune"; "Book One"; "A beginning is the time"])
  = ["Dune"; "Book One"; "A beginning is the time"]%string.
Proof.
  apply paragraphs_round_trip; [discriminate | reflexivity].
Defined.

(** X21. A transcript of five paragraphs or fewer gives fiction
    nothing, however long it is: nothing is skipped as front matter, but
    the window starts at the sixth paragraph.  Non-fiction gets the
    whole of it, the paragraphs joined by blank lines, when that is
    longer than 200 characters. *)
Theorem short_transcript fullText :
  List.length (splitParagraphs fullText) <= 5 ->
  archiveWindow fullText true = None /\
  archiveWindow fullText false
  = (let whole := join blankLine (splitParagraphs fullText) in
     if 200 <? String.length whole then Some whole else None).
Proof.
  intros L. unfold archiveWindow, archivePage. rewrite floorTenth_div.
  set (ps := splitParagraphs fullText) in *.
  rewrite (Nat.div_small (List.length ps) 10) by lia.
  change (Nat.min 30 0) with 0. rewrite !slice_window.
  split.
  - rewrite skipn_all2 by (cbn; lia). reflexivity.
  - cbn [skipn]. rewrite firstn_all2 by lia. cbv zeta.
    destruct (200 <? String.length (join blankLine ps)) eqn:Len.
    + now rewrite (longer_is_truthy _ _ Len).
    + now rewrite andb_false_r.
Qed.

Lemma short_transcript_witness :
  let fullText := join blankLine ["Dune"; "Book One"; "A beginning is the time"] in
  List.length (splitParagraphs fullText) <= 5 /\
  archiveWindow fullText true = None.
Proof.
  cbv zeta.
  assert (L : List.length (splitParagraphs
                (join blankLine ["Dune"; "Book One"; "A beginning is the time"])) <= 5)
    by (vm_compute; lia).
  split; [exact L|].
  exact (proj1 (short_transcript _ L)).
Defined.

Lemma stripTags_plain s : lacks "<" s = true -> stripTags_from s false = s.
Proof.
  induction s as [|c s IH]; cbn; [reflexivity|].
  destruct (Ascii.eqb c "<"); cbn; [discriminate|].
  intros L. now rewrite IH.
Qed.

Lemma replaceAll_plain c pat rep s :
  lacks c s = true -> replaceAll (String c pat) rep s = s.
Proof.
  unfold replaceAll. induction s as [|a s IH]; cbn; [reflexivity|].
  rewrite (Ascii.eqb_sym c a).
  destruct (Ascii.eqb a c); cbn; [discriminate|].
  intros L. now rewrite IH.
Qed.

(** X23. A snippet without markup is kept as it is: when the text has
    neither an opening angle bracket nor an ampersand, cleaning changes
    nothing. *)
Theorem plain_snippet_is_kept s :
  lacks "<" s = true -> lacks "&" s = true -> cleanSnippet s = s.
Proof.
  intros Lt La. unfold cleanSnippet.
  rewrite (stripTags_plain _ Lt).
  change "&quot;"%string with (String "&" "quot;").
  change "&apos;"%string with (String "&" "apos;").
  change "&amp;"%string with (String "&" "amp;").
  rewrite (replaceAll_plain "&" "quot;" quoteMark s La).
  rewrite (replaceAll_plain "&" "apos;" "'" s La).
  exact (replaceAll_plain "&" "amp;" "&" s La).
Qed.

Lemma plain_snippet_is_kept_witness :
  cleanSnippet "A beginning is the time > all" = "A beginning is the time > all"%string.
Proof.
  exact (plain_snippet_is_kept "A beginning is the time > all" eq_refl eq_refl).
Defined.

(** X24. Removing the tags twice is removing them once: the first pass
    leaves no opening bracket that starts a tag. *)
Theorem stripTags_idempotent s : stripTags (stripTags s) = stripTags s.
Proof.
  unfold stripTags.
  enough (G : forall b, stripTags_from (stripTags_from s b) false = stripTags_from s b)
    by apply G.
  induction s as [|c s IH]; intros b; [reflexivity|].
  destruct b.
  - cbn [stripTags_from]. apply IH.
  - cbn [stripTags_from].
    destruct (Ascii.eqb c "<") eqn:Ec.
    + apply Ascii.eqb_eq in Ec. subst c.
      destruct s as [|d s']; [reflexivity|].
      destruct (Ascii.eqb d ">") eqn:Ed; [|apply IH].
      apply Ascii.eqb_eq in Ed. subst d.
      pose proof (IH false) as I.
      cbn [stripTags_from] in I |- *.
      change (Ascii.eqb ">" "<") with false in *. cbn iota in I |- *.
      change (Ascii.eqb ">" ">") with true. cbn iota.
      change (Ascii.eqb "<" "<") with true. cbn iota.
      now rewrite I.
    + cbn [stripTags_from]. rewrite Ec. now rewrite IH.
Qed.

End TextFacts.

(** ** The text pipeline and its handler *)

Section TextPipelineFacts.
Import Js BookInfoService ScreenshotExtractor BookProcessor Processor TextPipeline.

Context {W : Type}.
Variable H : Host W.
Variable keyConfigured : bool.
Variable P : Provider.
Variable parseDetails : string -> Exn + BookDetails.
Variable answers : BookInfo -> Sources.

Lemma validate_shape img s r s' t :
  validateBookCover H img s = (r, s', t) ->
  (exists ok, t = [(GenerateText img, ok)]) /\
  forall e, r = inl e -> startsWith "Failed to validate book cover: " e = true.
Proof.
  unfold validateBookCover, catch, bind, call, ret, raise.
  destruct (generateText H img (world s)) as [[e|text] w1]; cbn;
    intros E; inversion E; subst; (split; [eexists; reflexivity|]).
  - intros e' Ee. inversion Ee; subst. reflexivity.
  - discriminate.
Qed.

Lemma identify_shape img s r s' t :
  identifyBook H parseDetails img s = (r, s', t) ->
  (exists ok, t = [(GenerateText img, ok)]) /\
  forall e, r = inl e ->
    startsWith "Failed to identify the book from the cover: " e = true.
Proof.
  unfold identifyBook, catch, bind, call, ret, raise.
  destruct (generateText H img (world s)) as [[e|text] w1]; cbn.
  - intros E; inversion E; subst. split; [eexists; reflexivity|].
    intros e' Ee. inversion Ee; subst. reflexivity.
  - destruct (matchBraces text) as [json|]; [destruct (parseDetails json)|]; cbn;
      intros E; inversion E; subst; (split; [eexists; reflexivity|]);
      intros e' Ee; inversion Ee; subst; reflexivity.
Qed.

(** Method 3 never throws; it asks the model at most once, and only
    for a book with a description. *)
Lemma method3_shape b st s r s' t :
  TextPipeline.method3 H keyConfigured b st s = (r, s', t) ->
  exists st', r = inr st' /\
    (t = [] \/
     (truthy_opt (description b) = true /\
      exists ok, t = [(GenerateText (excerptPrompt b), ok)])).
Proof.
  unfold TextPipeline.method3.
  destruct (negb (truthy (previewText st))); cbn [andb].
  2:{ intros E; inversion E; subst. eexists. split; [reflexivity|]. now left. }
  destruct (truthy_opt (description b)) eqn:D; cbn [andb].
  2:{ intros E; inversion E; subst. eexists. split; [reflexivity|]. now left. }
  destruct keyConfigured.
  2:{ intros E; inversion E; subst. eexists. split; [reflexivity|]. now left. }
  unfold catch, bind, call, ret.
  destruct (generateText H (excerptPrompt b) (world s)) as [[e|text] w1]; cbn;
    intros E; inversion E; subst; (eexists; split; [reflexivity|]);
    right; (split; [reflexivity|]); eexists; reflexivity.
Qed.

Lemma page_text_truthy b st :
  truthy (if negb (truthy (previewText st))
          then BookProcessor.createFallbackPreviewMessage b
          else formatBookPageContent b (previewText st) (sourceInfo st)) = true.
Proof.
  destruct (negb (truthy (previewText st))).
  - unfold BookProcessor.createFallbackPreviewMessage.
    destruct (or_null (description b)); destruct (or_null (previewLink b));
      destruct (or_null (isbn b)); reflexivity.
  - unfold formatBookPageContent.
    destruct (negb (includes (sourceInfo st) "AI-generated")); reflexivity.
Qed.

(** [fetchBookPreviewText] never throws and returns a text; its one
    possible call is the excerpt request. *)
Lemma fetch_shape src b s r s' t :
  TextPipeline.fetchBookPreviewText H keyConfigured src b s = (r, s', t) ->
  exists text, r = inr text /\ truthy text = true /\
    (t = [] \/
     (truthy_opt (description b) = true /\
      exists ok, t = [(GenerateText (excerptPrompt b), ok)])).
Proof.
  unfold TextPipeline.fetchBookPreviewText. cbv zeta. intros E.
  apply bind_inv in E.
  destruct E as [(e & -> & E) | (st3 & s1 & t1 & t2 & E3 & E & ->)].
  - apply method3_shape in E. destruct E as (st' & Habs & _). discriminate.
  - apply method3_shape in E3. destruct E3 as (st' & _ & T).
    inversion E; subst. rewrite app_nil_r.
    eexists. split; [reflexivity|]. split; [apply page_text_truthy | exact T].
Qed.

(** The run agrees with the cascade over given answers: its text is
    the one [BookProcessor.fetchBookPreviewText] gives when the answer
    of the model to the excerpt request and the key are put among the
    sources. *)
Lemma fetch_through_host src b s :
  fst (fst (TextPipeline.fetchBookPreviewText H keyConfigured src b s))
  = inr (fst (BookProcessor.fetchBookPreviewText
                (withExcerpt src keyConfigured
                   (fst (generateText H (excerptPrompt b) (world s)))) b)).
Proof.
  unfold TextPipeline.fetchBookPreviewText, BookProcessor.fetchBookPreviewText, cascade.
  cbv zeta.
  change (method1 (withExcerpt src keyConfigured
                     (fst (generateText H (excerptPrompt b) (world s)))) b start)
    with (method1 src b start).
  change (method2 (withExcerpt src keyConfigured
                     (fst (generateText H (excerptPrompt b) (world s)))) b
            (method1 src b start))
    with (method2 src b (method1 src b start)).
  set (st2 := method2 src b (method1 src b start)).
  unfold TextPipeline.method3, BookProcessor.method3, bind, catch, call, ret.
  cbn [openaiKey generatedExcerpt withExcerpt].
  destruct (negb (truthy (previewText st2)) && truthy_opt (description b)
            && keyConfigured).
  - destruct (generateText H (excerptPrompt b) (world s)) as [[e|text] w1];
      cbn [fst snd];
      match goal with
      | |- context [method4 (withExcerpt ?a ?k ?r) b ?st] =>
          change (method4 (withExcerpt a k r) b st) with (method4 src b st)
      end;
      destruct (negb (truthy (previewText (method4 src b _)))); reflexivity.
  - cbn [fst snd].
    match goal with
    | |- context [method4 (withExcerpt ?a ?k ?r) b ?st] =>
        change (method4 (withExcerpt a k r) b st) with (method4 src b st)
    end.
    destruct (negb (truthy (previewText (method4 src b st2)))); reflexivity.
Qed.

(** X25. Of the host (browser, file system, model) the text pipeline
    asks nothing but the model, at most three times: twice about the
    cover and, for a book with a description, at most once for an
    excerpt; its GETs are answered by the provider and the sources and
    are not events.  It throws in three ways
    only: the key is missing, the question whether the image is a cover
    fails, the reading of the cover fails; no failure of a text source
    or of the excerpt request fails the request.  A preview it returns
    has a text, and its page type follows the classification of the
    resolved book. *)
Theorem text_request_outcomes img s r s' t :
  TextPipeline.processBookCover H keyConfigured P parseDetails answers img s
  = (r, s', t) ->
  List.length t <= 3 /\
  (forall ev, In ev t -> is_modelCall (fst ev) = true) /\
  match r with
  | inl e =>
      (e = missingKey \/
       startsWith "Failed to validate book cover: " e = true \/
       startsWith "Failed to identify the book from the cover: " e = true) /\
      (asked t = [] \/ asked t = [img] \/ asked t = [img; img])
  | inr (Refused text) => text = notACover /\ asked t = [img]
  | inr (Preview text b pageType) =>
      truthy text = true /\
      pageType = (if isFiction b then "second" else "first")%string /\
      (exists d, b = fetchBookInfo P d) /\
      (asked t = [img; img] \/
       (asked t = [img; img; excerptPrompt b] /\
        truthy_opt (description b) = true))
  end.
Proof.
  intros E. unfold TextPipeline.processBookCover in E.
  destruct (negb keyConfigured).
  { inversion E; subst.
    split; [cbn; lia|]. split; [intros ev []|]. split; now left. }
  apply bind_inv in E.
  destruct E as [(e & -> & E) | (v & sv & tv & t2 & Ev & E & ->)].
  { apply validate_shape in E. destruct E as ([ok ->] & F).
    split; [cbn; lia|]. split; [intros ev [<-|[]]; reflexivity|].
    split; [right; left; now apply F | right; now left]. }
  apply validate_shape in Ev. destruct Ev as ([ok ->] & _).
  destruct v; cbn [negb] in E.
  2:{ inversion E; subst.
      split; [cbn; lia|]. split; [intros ev [<-|[]]; reflexivity|].
      split; reflexivity. }
  apply bind_inv in E.
  destruct E as [(e & -> & E) | (d & si & ti & t3 & Ei & E & ->)].
  { apply identify_shape in E. destruct E as ([ok2 ->] & F).
    split; [cbn; lia|]. split; [intros ev [<-|[<-|[]]]; reflexivity|].
    split; [right; right; now apply F | right; now right]. }
  apply identify_shape in Ei. destruct Ei as ([ok2 ->] & _).
  cbv zeta in E. apply bind_inv in E.
  destruct E as [(e & -> & E) | (text & sf & tf & t4 & Ef & E & ->)].
  { apply fetch_shape in E. destruct E as (text & Habs & _). discriminate. }
  apply fetch_shape in Ef. destruct Ef as (text' & Et & T & Tr).
  inversion Et; subst text'. inversion E; subst. rewrite app_nil_r.
  destruct Tr as [-> | (D & ok3 & ->)].
  - split; [cbn; lia|]. split; [intros ev [<-|[<-|[]]]; reflexivity|].
    split; [exact T|]. split; [reflexivity|]. split; [now exists d|]. now left.
  - split; [cbn; lia|]. split; [intros ev [<-|[<-|[<-|[]]]]; reflexivity|].
    split; [exact T|]. split; [reflexivity|]. split; [now exists d|].
    right. split; [reflexivity | exact D].
Qed.

(** X26. The handler never throws: every request gets a reply, with
    status 200, 400 or 500.  The status is 200 exactly when an image
    came with the request, the key is set and the pipeline returned;
    the body is then the result of the pipeline. *)
Theorem handler_always_replies file s :
  exists reply s' t,
    handler H keyConfigured P parseDetails answers file s = (inr reply, s', t) /\
    In (status reply) [200; 400; 500] /\
    (status reply = 200 <->
     exists img result,
       file = Some img /\ keyConfigured = true /\
       fst (fst (TextPipeline.processBookCover H keyConfigured P parseDetails
                   answers img s)) = inr result /\
       body reply = ResultBody result).
Proof.
  unfold handler, catch.
  destruct file as [img|].
  2:{ unfold ret. eexists _, _, _. split; [reflexivity|]. cbn [status body In].
      split; [auto|].
      split; [discriminate|]. intros (img & result & Ef & _); discriminate. }
  destruct keyConfigured eqn:K.
  2:{ unfold ret. cbn [negb]. eexists _, _, _. split; [reflexivity|].
      cbn [status body In]. split; [auto|].
      split; [discriminate|]. intros (i & result & _ & Ek & _); discriminate. }
  cbn [negb]. unfold bind at 1.
  destruct (TextPipeline.processBookCover H true P parseDetails answers img s)
    as [[[e|result] s1] t1] eqn:E.
  - destruct (includes e "not a valid book cover"); unfold ret;
      eexists _, _, _; (split; [reflexivity|]); cbn [status body In];
      (split; [auto|]);
      (split; [discriminate|]);
      intros (i & result & Ef & _ & Er & _); inversion Ef; subst i;
      rewrite E in Er; discriminate.
  - unfold ret. eexists _, _, _. split; [reflexivity|]. cbn [status body In].
    split; [auto|].
    split; [|reflexivity]. intros _. exists img, result.
    rewrite E. auto.
Qed.

(** X27. An image the model does not call a cover is answered with
    status 200: the body is the refusal of the pipeline, and the one
    call made is the question about the cover. *)
Theorem refusal_has_status_200 img s text w1 :
  keyConfigured = true ->
  generateText H img (world s) = (inr text, w1) ->
  includes (toLowerCase text) "yes" = false ->
  handler H keyConfigured P parseDetails answers (Some img) s
  = (inr {| status := 200; body := ResultBody (Refused notACover) |},
     {| world := w1; browser := browser s |},
     [(GenerateText img, true)]).
Proof.
  intros -> G Y.
  unfold handler, TextPipeline.processBookCover, validateBookCover, catch, bind,
    call, ret, raise.
  cbn [negb]. rewrite G. cbn. rewrite Y. reflexivity.
Qed.

End TextPipelineFacts.

Section TextPipelineRuns.
Import Js BookInfoService ScreenshotExtractor BookProcessor Processor TextPipeline.

Lemma text_request_outcomes_witness :
  let X := TextPipeline.processBookCover (bench 3) true (catalogue handbookVolume)
             benchParse allDown coverPicture benchStart in
  let b := fetchBookInfo (catalogue handbookVolume) duneGuess in
  X = (inr (Preview (formatBookPageContent b "No"
                       "AI-generated excerpt based on book description")
                    b "second"),
       snd (fst X), snd X) /\
  List.length (snd X) <= 3 /\
  asked (snd X) = [coverPicture; coverPicture; excerptPrompt b].
Proof.
  cbv zeta.
  set (X := TextPipeline.processBookCover (bench 3) true (catalogue handbookVolume)
              benchParse allDown coverPicture benchStart).
  set (b := fetchBookInfo (catalogue handbookVolume) duneGuess).
  assert (E : X = (inr (Preview (formatBookPageContent b "No"
                                   "AI-generated excerpt based on book description")
                                b "second"), snd (fst X), snd X))
    by (vm_compute; reflexivity).
  split; [exact E|].
  destruct (text_request_outcomes (bench 3) true (catalogue handbookVolume) benchParse
              allDown coverPicture benchStart _ _ _ E) as (L & _ & _).
  split; [exact L|]. vm_compute. reflexivity.
Defined.

Lemma refusal_has_status_200_witness :
  handler (bench 3) true (catalogue duneVolume) benchParse allDown
    (Some coverPicture) benchNo
  = (inr {| status := 200; body := ResultBody (Refused notACover) |},
     {| world := {| modelCalls := 3; shown := 1; closed := false |};
        browser := false |},
     [(GenerateText coverPicture, true)]).
Proof.
  exact (refusal_has_status_200 (bench 3) true (catalogue duneVolume) benchParse
           allDown coverPicture benchNo "No"
           {| modelCalls := 3; shown := 1; closed := false |}
           eq_refl eq_refl eq_refl).
Defined.

End TextPipelineRuns.
